(** * CodeForgeX: context set, mode cycle, command gateway and edit pipeline

    A shallow embedding of the TypeScript sources
      - [src/types/index.ts]                ([ExtensionMode], [ContextFile], [CodeForgeConfig])
      - [src/managers/ModeManager.ts]       ([ModeManager])
      - [src/providers/ContextProvider.ts]  ([ContextProvider])
      - [src/services/CodeForgeService.ts]  ([CodeForgeService])
      - [src/providers/ChatProvider.ts]     ([ChatProvider], the conversation log)
    followed by the properties proved about them.

    The host (VS Code, Node's [fs], [path], [child_process]) is not part of
    the repository.  It is modelled by a [World] that the code reads and
    writes (a file tree, the live documents, a log of the I/O requests and a
    log of what was shown to the user) and by an [Env] of oracles for
    everything the code cannot decide itself: the clock, the external tool,
    the user's answer to a prompt, and whether a host call throws. *)

From Stdlib Require Import String Ascii List ZArith NArith Lia Bool.
From stdpp Require Import base option list strings gmap pretty.
Import ListNotations.
Set Warnings "-register-all".
Local Open Scope string_scope.

(* ===================================================================== *)
(** ** JavaScript strings and arrays                                      *)
(* ===================================================================== *)

Module Js.

(** The one-character strings the sources write as escapes. *)
Definition nl : string := String (ascii_of_nat 10) EmptyString.
Definition dquote : string := String (ascii_of_nat 34) EmptyString.

(** Truthiness of a string: only the empty string is falsy. *)
Definition truthy (s : string) : bool :=
  match s with EmptyString => false | String _ _ => true end.

(** Truthiness of a [string | undefined]. *)
Definition truthy_opt (o : option string) : bool :=
  match o with Some s => truthy s | None => false end.

(** [a || b] on strings. *)
Definition or_else (a b : string) : string := if truthy a then a else b.

(** [a || b] on numbers: [0] is falsy. *)
Definition or_elseN (a b : N) : N := if (a =? 0)%N then b else a.

(** [s.endsWith(t)]. *)
Definition endsWith (s t : string) : bool :=
  (String.length t <=? String.length s)%nat
  && String.eqb (substring (String.length s - String.length t) (String.length t) s) t.

(** [s.replace(pat, rep)] for a string pattern: only the first
    occurrence of [pat] is replaced. *)
Definition replace (pat rep s : string) : string :=
  match index 0 pat s with
  | Some i =>
      substring 0 i s ++ rep
      ++ substring (i + String.length pat) (String.length s - (i + String.length pat)) s
  | None => s
  end.

(** [l.join(sep)]. *)
Definition join (sep : string) (l : list string) : string := String.concat sep l.

Definition upper_ascii (c : ascii) : ascii :=
  let n := nat_of_ascii c in
  if ((97 <=? n) && (n <=? 122))%nat then ascii_of_nat (n - 32) else c.

(** [s.toUpperCase()] on ASCII text. *)
Fixpoint toUpperCase (s : string) : string :=
  match s with
  | EmptyString => EmptyString
  | String c s' => String (upper_ascii c) (toUpperCase s')
  end.

(** [Buffer.byteLength(s, 'utf8')] of a string whose code units are below
    256: a code unit below 128 takes one byte, any other two. *)
Fixpoint byteLength (s : string) : N :=
  match s with
  | EmptyString => 0%N
  | String c s' => ((if (N_of_ascii c <? 128)%N then 1 else 2) + byteLength s')%N
  end.

(** [l.indexOf(x)]: the first index holding [x], or [-1]. *)
Fixpoint indexOf {A} (eqb : A -> A -> bool) (x : A) (l : list A) : Z :=
  match l with
  | [] => (-1)%Z
  | y :: l' =>
      if eqb y x then 0%Z
      else let i := indexOf eqb x l' in if (i <? 0)%Z then (-1)%Z else (i + 1)%Z
  end.

(** [l.findIndex(p)]. *)
Fixpoint findIndex {A} (p : A -> bool) (l : list A) : Z :=
  match l with
  | [] => (-1)%Z
  | y :: l' =>
      if p y then 0%Z
      else let i := findIndex p l' in if (i <? 0)%Z then (-1)%Z else (i + 1)%Z
  end.

(** [l.splice(i, 1)] for an index in range: the array without slot [i]. *)
Fixpoint splice1 {A} (i : nat) (l : list A) : list A :=
  match l, i with
  | [], _ => []
  | _ :: l', O => l'
  | y :: l', S i' => y :: splice1 i' l'
  end.

(** A thrown value: an [Error] object, of which the sources read the
    message only (they declare no error class of their own and test nothing
    but [instanceof Error]), or anything else. *)
Inductive thrown :=
| ErrorObj (message : string)
| NonError.

End Js.
Export Js.

(* ===================================================================== *)
(** ** src/types/index.ts                                                 *)
(* ===================================================================== *)

(** [enum ExtensionMode { Edit = 'edit', Agent = 'agent', Ask = 'ask' }] *)
Inductive ExtensionMode := Edit | Agent | Ask.

Definition mode_value (m : ExtensionMode) : string :=
  match m with Edit => "edit" | Agent => "agent" | Ask => "ask" end.

Definition mode_eqb (a b : ExtensionMode) : bool :=
  match a, b with
  | Edit, Edit | Agent, Agent | Ask, Ask => true
  | _, _ => false
  end.

(** [Object.values(ExtensionMode)]: the members in declaration order. *)
Definition ExtensionMode_values : list ExtensionMode := [Edit; Agent; Ask].

(** A [vscode.Uri]: what [toString()] prints, and its [fsPath]. *)
Record Uri := { uri_toString : string; fsPath : string }.

Record ContextFile := {
  uri : Uri;
  name : string;
  relativePath : string;
  content : option string;
  isActive : bool
}.

Record CodeForgeConfig := {
  cliPath : string;
  defaultModel : string;
  enableMcp : bool;
  mcpProviders : list string;
  timeout : N
}.

(* ===================================================================== *)
(** ** Node's [path] on POSIX paths                                       *)
(* ===================================================================== *)

Module Path.

Definition slash : ascii := ascii_of_nat 47.

(** The non-empty components of a path, scanning with the component
    read so far in [cur]. *)
Fixpoint segments_from (cur s : string) : list string :=
  match s with
  | EmptyString => if truthy cur then [cur] else []
  | String c s' =>
      if Ascii.eqb c slash
      then (if truthy cur then cur :: segments_from EmptyString s'
            else segments_from EmptyString s')
      else segments_from (cur ++ String c EmptyString) s'
  end.

Definition segments (p : string) : list string := segments_from EmptyString p.

(** [path.join(a, b)] for operands that need no normalisation. *)
Definition join (a b : string) : string := a ++ "/" ++ b.

(** [path.basename(p)]. *)
Definition basename (p : string) : string := List.last (segments p) EmptyString.

(** [path.dirname(p)] of an absolute path. *)
Definition dirname (p : string) : string :=
  "/" ++ Js.join "/" (List.removelast (segments p)).

Fixpoint strip_common (a b : list string) : list string * list string :=
  match a, b with
  | x :: a', y :: b' => if String.eqb x y then strip_common a' b' else (a, b)
  | _, _ => (a, b)
  end.

(** [path.relative(from, to)] of two absolute paths. *)
Definition relative (from to : string) : string :=
  let '(up, down) := strip_common (segments from) (segments to) in
  Js.join "/" (List.map (fun _ => "..") up ++ down).

End Path.

(* ===================================================================== *)
(** ** The file tree                                                      *)
(* ===================================================================== *)

Module Fs.

Inductive node :=
| File (data : string)
| Dir (entries : list (string * node)).

Fixpoint get (k : string) (es : list (string * node)) : option node :=
  match es with
  | [] => None
  | (k', v) :: es' => if String.eqb k' k then Some v else get k es'
  end.

(** Replace the entry named [k], or add it at the end. *)
Fixpoint set (k : string) (v : node) (es : list (string * node)) : list (string * node) :=
  match es with
  | [] => [(k, v)]
  | (k', v') :: es' => if String.eqb k' k then (k, v) :: es' else (k', v') :: set k v es'
  end.

Fixpoint del (k : string) (es : list (string * node)) : list (string * node) :=
  match es with
  | [] => []
  | (k', v') :: es' => if String.eqb k' k then del k es' else (k', v') :: del k es'
  end.

Fixpoint lookup (segs : list string) (n : node) : option node :=
  match segs with
  | [] => Some n
  | s :: rest =>
      match n with
      | File _ => None
      | Dir es => match get s es with
                  | Some c => lookup rest c
                  | None => None
                  end
      end
  end.

(** [mkdir(p, {recursive: true})]: creates the missing directories;
    [None] when a regular file is in the way. *)
Fixpoint mkdir_p (segs : list string) (n : node) : option node :=
  match n with
  | File _ => None
  | Dir es =>
      match segs with
      | [] => Some n
      | s :: rest =>
          match mkdir_p rest (match get s es with Some c => c | None => Dir [] end) with
          | Some c' => Some (Dir (set s c' es))
          | None => None
          end
      end
  end.

(** [writeFile(p, data)]: [None] when the parent is missing or is not a
    directory, or when [p] names a directory. *)
Fixpoint write (segs : list string) (data : string) (n : node) : option node :=
  match segs, n with
  | [], _ => None
  | _, File _ => None
  | [s], Dir es =>
      match get s es with
      | Some (Dir _) => None
      | _ => Some (Dir (set s (File data) es))
      end
  | s :: rest, Dir es =>
      match get s es with
      | Some c => match write rest data c with
                  | Some c' => Some (Dir (set s c' es))
                  | None => None
                  end
      | None => None
      end
  end.

(** [rm(p, {recursive: true, force: true})]: removes the entry and all
    below it; a missing path is not an error. *)
Fixpoint rm_rf (segs : list string) (n : node) : node :=
  match segs, n with
  | [], _ => n
  | _, File _ => n
  | [s], Dir es => Dir (del s es)
  | s :: rest, Dir es =>
      match get s es with
      | Some c => Dir (set s (rm_rf rest c) es)
      | None => n
      end
  end.

Definition exists_at (p : string) (root : node) : bool :=
  match lookup (Path.segments p) root with Some _ => true | None => false end.

End Fs.

(* ===================================================================== *)
(** ** The host: world, oracles and the monad of host effects             *)
(* ===================================================================== *)

(** A request the code makes of the file system, the process layer or the
    document store. *)
Inductive io :=
| IoMkdir (p : string)
| IoWriteFile (p data : string)
| IoReaddir (p : string)
| IoReadFile (p : string)
| IoRm (p : string)
| IoExec (command : string) (timeout_ms : N) (cwd : option string)
| IoOpenTextDocument (u : string)
| IoApplyEdit (u : string) (start stop : nat) (text : string).

(** What the code shows to the user or announces to its listeners. *)
Inductive ui :=
| InformationMessage (msg : string) (items : list string)
| ErrorMessage (msg : string)
| ConsoleWarn (msg : string)
| TreeDataChanged
| ModeChanged (m : ExtensionMode).

Record World := {
  fs : Fs.node;
  documents : gmap string string;
  io_log : list io;
  ui_log : list ui
}.

(** How a child process ended: it exited with a code and its two output
    streams, or it could not be run at all. *)
Inductive process_outcome :=
| Exited (code : Z) (stdout stderr : string)
| NotSpawned (message : string).

Record Env := {
  config : CodeForgeConfig;
  os_tmpdir : string;
  date_now : list io -> N;
  workspaceFolders : list string;
  getWorkspaceFolder : Uri -> option string;
  (** the external tool: its outcome and what it did to the file tree *)
  run_process : string -> Fs.node -> process_outcome * Fs.node;
  (** the user's answer to a message with buttons ([None]: dismissed) *)
  pick : string -> list string -> option string;
  (** whether a host call throws, given the calls made so far *)
  fault : list io -> io -> option string
}.

Inductive result (A : Type) :=
| Ok (a : A)
| Throw (e : thrown).
Arguments Ok {A} a.
Arguments Throw {A} e.

Definition M (A : Type) : Type := World -> result A * World.

Definition ret {A} (a : A) : M A := fun w => (Ok a, w).

Definition throw {A} (e : thrown) : M A := fun w => (Throw e, w).

Definition bind {A B} (m : M A) (k : A -> M B) : M B :=
  fun w => match m w with
           | (Ok a, w') => k a w'
           | (Throw e, w') => (Throw e, w')
           end.

Declare Scope host_scope.
Delimit Scope host_scope with host.
Notation "'let*' x ':=' m 'in' k" := (bind m (fun x => k))
  (at level 10, x name, m at level 100, k at level 200) : host_scope.
Notation "m ';;' k" := (bind m (fun _ => k))
  (at level 100, k at level 200, right associativity) : host_scope.
Local Open Scope host_scope.

(** [try { m } catch (e) { h e }] *)
Definition try_catch {A} (m : M A) (h : thrown -> M A) : M A :=
  fun w => match m w with
           | (Ok a, w') => (Ok a, w')
           | (Throw e, w') => h e w'
           end.

(** [try { m } finally { f }]: [f] runs on both exits; what [m] returned
    or threw stands unless [f] itself throws. *)
Definition try_finally {A} (m : M A) (f : M unit) : M A :=
  fun w => let '(r, w1) := m w in
           match f w1 with
           | (Ok _, w2) => (r, w2)
           | (Throw e, w2) => (Throw e, w2)
           end.

(** [for (const x of l) { await body x }] *)
Fixpoint for_of {A} (l : list A) (body : A -> M unit) : M unit :=
  match l with
  | [] => ret tt
  | x :: l' => body x ;; for_of l' body
  end.

(** [for (const x of l) { ... }] around a variable the body updates. *)
Definition fold_of {A S} (body : A -> S -> M S) : list A -> S -> M S :=
  fix loop (l : list A) (s : S) : M S :=
    match l with
    | [] => ret s
    | x :: l' => let* s' := body x s in loop l' s'
    end.

Definition log_io (op : io) (w : World) : World :=
  {| fs := fs w; documents := documents w;
     io_log := io_log w ++ [op]; ui_log := ui_log w |}.

Definition log_ui (e : ui) (w : World) : World :=
  {| fs := fs w; documents := documents w;
     io_log := io_log w; ui_log := ui_log w ++ [e] |}.

Definition set_fs (t : Fs.node) (w : World) : World :=
  {| fs := t; documents := documents w;
     io_log := io_log w; ui_log := ui_log w |}.

Definition set_documents (d : gmap string string) (w : World) : World :=
  {| fs := fs w; documents := d;
     io_log := io_log w; ui_log := ui_log w |}.

Module Host.
Section WithEnv.
Variable env : Env.

(** A host call: it is logged, throws if the oracle says so, and
    otherwise does [run]. *)
Definition perform {A} (op : io) (run : M A) : M A :=
  fun w => match fault env (io_log w) op with
           | Some msg => (Throw (ErrorObj msg), log_io op w)
           | None => run (log_io op w)
           end.

Definition show (e : ui) : M unit := fun w => (Ok tt, log_ui e w).

(** [vscode.window.showInformationMessage(msg)] *)
Definition showInformationMessage (msg : string) : M unit :=
  show (InformationMessage msg []).

(** [await vscode.window.showInformationMessage(msg, ...items)] *)
Definition askInformationMessage (msg : string) (items : list string) : M (option string) :=
  show (InformationMessage msg items) ;; ret (pick env msg items).

Definition showErrorMessage (msg : string) : M unit := show (ErrorMessage msg).

Definition console_warn (msg : string) : M unit := show (ConsoleWarn msg).

(** [Date.now()] *)
Definition Date_now : M N := fun w => (Ok (date_now env (io_log w)), w).

(** [fs.promises.mkdir(p, { recursive: true })] *)
Definition fs_mkdir (p : string) : M unit :=
  perform (IoMkdir p) (fun w =>
    match Fs.mkdir_p (Path.segments p) (fs w) with
    | Some t => (Ok tt, set_fs t w)
    | None => (Throw (ErrorObj ("EEXIST: file already exists, mkdir " ++ p)), w)
    end).

(** [fs.promises.writeFile(p, data)] *)
Definition fs_writeFile (p data : string) : M unit :=
  perform (IoWriteFile p data) (fun w =>
    match Fs.write (Path.segments p) data (fs w) with
    | Some t => (Ok tt, set_fs t w)
    | None => (Throw (ErrorObj ("ENOENT: no such file or directory, open " ++ p)), w)
    end).

(** [fs.promises.readFile(p, 'utf8')] *)
Definition fs_readFile (p : string) : M string :=
  perform (IoReadFile p) (fun w =>
    match Fs.lookup (Path.segments p) (fs w) with
    | Some (Fs.File data) => (Ok data, w)
    | Some (Fs.Dir _) =>
        (Throw (ErrorObj ("EISDIR: illegal operation on a directory, read " ++ p)), w)
    | None => (Throw (ErrorObj ("ENOENT: no such file or directory, open " ++ p)), w)
    end).

(** [fs.promises.rm(p, { recursive: true, force: true })] *)
Definition fs_rm (p : string) : M unit :=
  perform (IoRm p) (fun w => (Ok tt, set_fs (Fs.rm_rf (Path.segments p) (fs w)) w)).

(** The [maxBuffer] of [exec] when the caller passes none, as the source
    does: the largest number of bytes Node accepts on stdout, and on
    stderr. *)
Definition maxBuffer : N := (1024 * 1024)%N.

(** [promisify(exec)(command, { timeout, cwd })].  When the process has
    written more than [maxBuffer] bytes to one of its streams, Node kills
    it and rejects with the error naming that stream, whatever the exit
    code would have been.  Otherwise the call resolves with the two output
    streams when the process exits with code 0, and rejects with the
    [Error] Node builds, whose message is the command line followed by the
    process's stderr, when it exits with another code.  The outcome is what
    Node received of the process until it ended or was killed, and the tree
    is the one the process left; Node stops reading both streams at the
    first overflow, so only one of them can be over the bound: of an
    outcome that has both over it, stdout is reported. *)
Definition execAsync (command : string) (timeout_ms : N) (cwd : option string)
  : M (string * string) :=
  perform (IoExec command timeout_ms cwd) (fun w =>
    let '(outcome, t) := run_process env command (fs w) in
    match outcome with
    | Exited code stdout stderr =>
        if (maxBuffer <? byteLength stdout)%N then
          (Throw (ErrorObj "stdout maxBuffer length exceeded"), set_fs t w)
        else if (maxBuffer <? byteLength stderr)%N then
          (Throw (ErrorObj "stderr maxBuffer length exceeded"), set_fs t w)
        else if (code =? 0)%Z then (Ok (stdout, stderr), set_fs t w)
        else (Throw (ErrorObj ("Command failed: " ++ command ++ nl ++ stderr)), set_fs t w)
    | NotSpawned msg => (Throw (ErrorObj msg), set_fs t w)
    end).

(** [(await vscode.workspace.openTextDocument(u)).getText()] *)
Definition openTextDocument (u : Uri) : M string :=
  perform (IoOpenTextDocument (uri_toString u)) (fun w =>
    match documents w !! uri_toString u with
    | Some text => (Ok text, w)
    | None => (Throw (ErrorObj ("cannot open " ++ uri_toString u)), w)
    end).

(** The text left by replacing the offsets [start, stop) with [new]. *)
Definition splice_text (start stop : nat) (new text : string) : string :=
  substring 0 start text ++ new ++ substring stop (String.length text - stop) text.

(** A [WorkspaceEdit] holding one [replace(u, range, new)], applied with
    [vscode.workspace.applyEdit]. *)
Definition applyEdit_replace (u : Uri) (start stop : nat) (new : string) : M unit :=
  perform (IoApplyEdit (uri_toString u) start stop new) (fun w =>
    match documents w !! uri_toString u with
    | Some text =>
        (Ok tt, set_documents (<[uri_toString u := splice_text start stop new text]> (documents w)) w)
    | None => (Ok tt, w)
    end).

End WithEnv.
End Host.

(* ===================================================================== *)
(** ** src/managers/ModeManager.ts                                        *)
(* ===================================================================== *)

Module ModeManager.

Record t := { _currentMode : ExtensionMode }.

(** [private _currentMode: ExtensionMode = ExtensionMode.Ask] *)
Definition init : t := {| _currentMode := Ask |}.

Definition getCurrentMode (mm : t) : ExtensionMode := _currentMode mm.

Definition setMode (mode : ExtensionMode) (mm : t) : M t :=
  if negb (mode_eqb (_currentMode mm) mode) then
    Host.show (ModeChanged mode) ;;
    Host.showInformationMessage
      ("Switched to " ++ toUpperCase (mode_value mode) ++ " mode") ;;
    ret {| _currentMode := mode |}
  else ret mm.

(** [modes[i]]: [undefined] outside the array. *)
Definition at_index {A} (l : list A) (i : Z) : option A :=
  if (i <? 0)%Z then None else l !! Z.to_nat i.

Definition switchMode (mm : t) : M t :=
  let modes := ExtensionMode_values in
  let currentIndex := indexOf mode_eqb (_currentMode mm) modes in
  let nextIndex := Z.rem (currentIndex + 1) (Z.of_nat (List.length modes)) in
  match at_index modes nextIndex with
  | Some mode => setMode mode mm
  | None => (* [setMode(undefined)] fails at [mode.toUpperCase()] *)
      throw (ErrorObj "Cannot read properties of undefined (reading 'toUpperCase')")
  end.

End ModeManager.

(* ===================================================================== *)
(** ** src/providers/ContextProvider.ts                                   *)
(* ===================================================================== *)

Module ContextProvider.

Record t := { _contextFiles : list ContextFile }.

(** [private _contextFiles: ContextFile[] = []] *)
Definition init : t := {| _contextFiles := [] |}.

(** [f.uri.toString() === uri.toString()] *)
Definition same_uri (u : Uri) (f : ContextFile) : bool :=
  String.eqb (uri_toString (uri f)) (uri_toString u).

Definition refresh : M unit := Host.show TreeDataChanged.

Definition error_message (e : thrown) (otherwise : string) : string :=
  match e with ErrorObj m => m | NonError => otherwise end.

Definition addFile (env : Env) (u : Uri) (cp : t) : M t :=
  match List.find (same_uri u) (_contextFiles cp) with
  | Some _ =>
      Host.showInformationMessage
        ("File " ++ Path.basename (fsPath u) ++ " is already in context") ;;
      ret cp
  | None =>
      let* read :=
        try_catch
          (let* text := Host.openTextDocument env u in ret (Some text))
          (fun error =>
             Host.showErrorMessage
               ("Failed to read file: " ++ error_message error "Unknown error") ;;
             ret None) in
      match read with
      | None => ret cp
      | Some text =>
          let relativePath :=
            match getWorkspaceFolder env u with
            | Some folder => Path.relative folder (fsPath u)
            | None => Path.basename (fsPath u)
            end in
          let contextFile :=
            {| uri := u; name := Path.basename (fsPath u);
               relativePath := relativePath; content := Some text;
               isActive := true |} in
          refresh ;;
          Host.showInformationMessage ("Added " ++ name contextFile ++ " to context") ;;
          ret {| _contextFiles := (_contextFiles cp ++ [contextFile])%list |}
      end
  end.

Definition removeFile (u : Uri) (cp : t) : M t :=
  let index := findIndex (same_uri u) (_contextFiles cp) in
  if negb (index =? -1)%Z then
    match _contextFiles cp !! Z.to_nat index with
    | Some removed =>
        refresh ;;
        Host.showInformationMessage ("Removed " ++ name removed ++ " from context") ;;
        ret {| _contextFiles := splice1 (Z.to_nat index) (_contextFiles cp) |}
    | None => ret cp
    end
  else ret cp.

Definition flip (f : ContextFile) : ContextFile :=
  {| uri := uri f; name := name f; relativePath := relativePath f;
     content := content f; isActive := negb (isActive f) |}.

(** The array after [file.isActive = !file.isActive] on the object that
    [find] returned: the first entry for [u]. *)
Fixpoint flip_first (u : Uri) (l : list ContextFile) : list ContextFile :=
  match l with
  | [] => []
  | f :: l' => if same_uri u f then flip f :: l' else f :: flip_first u l'
  end.

Definition toggleFileActive (u : Uri) (cp : t) : M t :=
  match List.find (same_uri u) (_contextFiles cp) with
  | Some _ => refresh ;; ret {| _contextFiles := flip_first u (_contextFiles cp) |}
  | None => ret cp
  end.

Definition clearContext (cp : t) : M t :=
  refresh ;;
  Host.showInformationMessage "Context cleared" ;;
  ret {| _contextFiles := [] |}.

Definition getContextFiles (cp : t) : list ContextFile :=
  List.filter (fun f => isActive f) (_contextFiles cp).

(** [`${f.content}`] *)
Definition content_text (f : ContextFile) : string :=
  match content f with Some s => s | None => "undefined" end.

Definition getActiveContextContent (cp : t) : string :=
  Js.join (nl ++ nl ++ "---" ++ nl ++ nl)
    (List.map (fun f => "// File: " ++ relativePath f ++ nl ++ content_text f)
       (List.filter (fun f => isActive f && truthy_opt (content f)) (_contextFiles cp))).

(** The four context commands of [src/commands/index.ts]. *)
Inductive command :=
| AddFile (u : Uri)
| RemoveFile (u : Uri)
| ToggleFileActive (u : Uri)
| ClearContext.

Definition execute (env : Env) (c : command) (cp : t) : M t :=
  match c with
  | AddFile u => addFile env u cp
  | RemoveFile u => removeFile u cp
  | ToggleFileActive u => toggleFileActive u cp
  | ClearContext => clearContext cp
  end.

Fixpoint execute_all (env : Env) (cs : list command) (cp : t) : M t :=
  match cs with
  | [] => ret cp
  | c :: cs' => let* cp' := execute env c cp in execute_all env cs' cp'
  end.

End ContextProvider.

(* ===================================================================== *)
(** ** src/services/CodeForgeService.ts                                   *)
(* ===================================================================== *)

Module CodeForgeService.
Section WithEnv.
Variable env : Env.

Definition sentinel : string := ".codeforgedit".

Definition _buildContextContent (contextFiles : list ContextFile) : string :=
  Js.join (nl ++ nl ++ "---" ++ nl ++ nl)
    (List.map
       (fun f => "// File: " ++ relativePath f ++ nl ++ ContextProvider.content_text f)
       (List.filter (fun f => isActive f && truthy_opt (content f)) contextFiles)).

Definition command_line (args : list string) : string :=
  or_else (cliPath (config env)) "codeforgeai" ++ " " ++ Js.join " " args.

Definition _executeCommand (args : list string) : M string :=
  let command := command_line args in
  try_catch
    (let* out := Host.execAsync env command
                   (or_elseN (timeout (config env)) 30000)
                   (List.head (workspaceFolders env)) in
     let '(stdout, stderr) := out in
     if truthy stderr && negb (truthy stdout) then throw (ErrorObj stderr)
     else ret (or_else stdout (or_else stderr "Command executed successfully")))
    (fun error =>
       match error with
       | ErrorObj message => throw (ErrorObj ("CodeForgeAI CLI error: " ++ message))
       | NonError => throw (ErrorObj "Unknown error executing CodeForgeAI CLI")
       end).

Definition processPrompt (prompt : string) (contextFiles : list ContextFile) : M string :=
  let contextContent := _buildContextContent contextFiles in
  let fullPrompt :=
    if truthy contextContent
    then "Context:" ++ nl ++ contextContent ++ nl ++ nl ++ "Query: " ++ prompt
    else prompt in
  _executeCommand ["prompt"; dquote ++ fullPrompt ++ dquote].

Definition processAgent (request : string) (contextFiles : list ContextFile) : M string :=
  let contextContent := _buildContextContent contextFiles in
  let analysisPrompt :=
    if truthy contextContent
    then "Analyze this codebase and then respond to: " ++ request
         ++ nl ++ nl ++ "Context:" ++ nl ++ contextContent
    else "Act as a coding agent and respond to: " ++ request in
  _executeCommand ["prompt"; dquote ++ analysisPrompt ++ dquote].

Definition stage_file (tempDir : string) (file : ContextFile) : M unit :=
  match content file with
  | Some text =>
      if truthy text then
        let filePath := Path.join tempDir (relativePath file) in
        Host.fs_mkdir env (Path.dirname filePath) ;;
        Host.fs_writeFile env filePath text
      else ret tt
  | None => ret tt
  end.

Definition _createTempContext (contextFiles : list ContextFile) : M string :=
  let* now := Host.Date_now env in
  let tempDir := Path.join (os_tmpdir env) ("codeforgex-" ++ pretty now) in
  Host.fs_mkdir env tempDir ;;
  for_of contextFiles (stage_file tempDir) ;;
  ret tempDir.

(** [traverse(currentDir)], run on the directory [n] found at
    [currentDir]; [editFiles] is the array the closure pushes to. *)
Fixpoint traverse (currentDir : string) (n : Fs.node) (editFiles : list string)
  : M (list string) :=
  Host.perform env (IoReaddir currentDir)
    match n with
    | Fs.File _ => throw (ErrorObj ("ENOTDIR: not a directory, scandir " ++ currentDir))
    | Fs.Dir entries =>
        fold_of
          (fun '(entry_name, child) editFiles =>
             let fullPath := Path.join currentDir entry_name in
             match child with
             | Fs.Dir _ => traverse fullPath child editFiles
             | Fs.File _ =>
                 if endsWith entry_name sentinel
                 then ret (editFiles ++ [fullPath])%list
                 else ret editFiles
             end)
          entries editFiles
    end.

Definition _findEditFiles (dir : string) : M (list string) :=
  fun w =>
    match Fs.lookup (Path.segments dir) (fs w) with
    | Some n => traverse dir n [] w
    | None =>
        Host.perform env (IoReaddir dir)
          (throw (ErrorObj ("ENOENT: no such file or directory, scandir " ++ dir))) w
    end.

(** One turn of the loop of [_applyAllEdits]. *)
Definition apply_edit (originalFiles : list ContextFile) (editFile : string) : M unit :=
  let originalPath := Js.replace sentinel EmptyString editFile in
  match List.find (fun f => endsWith originalPath (relativePath f)) originalFiles with
  | Some originalFile =>
      let* editedContent := Host.fs_readFile env editFile in
      let* text := Host.openTextDocument env (uri originalFile) in
      Host.applyEdit_replace env (uri originalFile) 0 (String.length text) editedContent
  | None => ret tt
  end.

Definition _applyAllEdits (editFiles : list string) (originalFiles : list ContextFile)
  : M unit :=
  for_of editFiles (apply_edit originalFiles) ;;
  Host.showInformationMessage "All edits applied successfully!".

Definition _reviewEdits (editFiles : list string) (originalFiles : list ContextFile)
  : M unit :=
  Host.showInformationMessage "Review mode not yet implemented".

(** [action === item] *)
Definition chose (action : option string) (item : string) : bool :=
  match action with Some a => String.eqb a item | None => false end.

Definition _handleEditResults (tempDir : string) (originalFiles : list ContextFile)
  : M unit :=
  let* editFiles := _findEditFiles tempDir in
  if (0 <? List.length editFiles)%nat then
    let* action :=
      Host.askInformationMessage env
        ("Found " ++ pretty (List.length editFiles) ++ " edited file(s). Apply changes?")
        ["Apply All"; "Review Each"; "Cancel"] in
    if chose action "Apply All" then _applyAllEdits editFiles originalFiles
    else if chose action "Review Each" then _reviewEdits editFiles originalFiles
    else ret tt
  else ret tt.

Definition _cleanupTempDir (tempDir : string) : M unit :=
  try_catch
    (Host.fs_rm env tempDir)
    (fun _ => Host.console_warn ("Failed to cleanup temp directory: " ++ tempDir)).

Definition processEdit (request : string) (contextFiles : list ContextFile) : M string :=
  if (List.length contextFiles =? 0)%nat then
    throw (ErrorObj "No files in context for editing. Please add files to context first.")
  else
    let* tempDir := _createTempContext contextFiles in
    try_finally
      (let* result :=
         _executeCommand ["edit"; tempDir; "--user_prompt"; dquote ++ request ++ dquote] in
       _handleEditResults tempDir contextFiles ;;
       ret result)
      (_cleanupTempDir tempDir).

End WithEnv.
End CodeForgeService.

(* ===================================================================== *)
(** ** Vocabulary of the statements                                       *)
(* ===================================================================== *)

(** The successor in the declared order Edit, Agent, Ask, wrapping. *)
Definition next_in_order (m : ExtensionMode) : ExtensionMode :=
  match m with Edit => Agent | Agent => Ask | Ask => Edit end.

(** The location references held by a context set, in set order. *)
Definition uris (cp : ContextProvider.t) : list string :=
  List.map (fun f => uri_toString (uri f)) (ContextProvider._contextFiles cp).

(** The block a file contributes to a prompt: a header line naming its
    path, then its content. *)
Definition labeled_block (f : ContextFile) : string :=
  "// File: " ++ relativePath f ++ nl ++ ContextProvider.content_text f.

(** The separator between two blocks: a rule between blank lines. *)
Definition separator : string := nl ++ nl ++ "---" ++ nl ++ nl.

(** The notice [addFile] shows for a file that is already tracked. *)
Definition already_in_context (u : Uri) : ui :=
  InformationMessage ("File " ++ Path.basename (fsPath u) ++ " is already in context") [].

(** The process call [_executeCommand] makes for the arguments [args]. *)
Definition exec_request (env : Env) (args : list string) : io :=
  IoExec (CodeForgeService.command_line env args)
    (or_elseN (timeout (config env)) 30000)
    (List.head (workspaceFolders env)).

(** The name [_createTempContext] gives the staging directory when it is
    called in the world [w]. *)
Definition staging_dir (env : Env) (w : World) : string :=
  Path.join (os_tmpdir env) ("codeforgex-" ++ pretty (date_now env (io_log w))).

(** A request other than a removal. *)
Definition no_rm (e : io) : Prop :=
  match e with IoRm _ => False | _ => True end.

Definition is_rm (p : string) (e : io) : bool :=
  match e with IoRm q => String.eqb q p | _ => false end.

(** [m] only adds requests to the log, all of them satisfying [P]. *)
Definition appends (P : io -> Prop) {A} (m : M A) : Prop :=
  forall w, exists l, io_log (snd (m w)) = (io_log w ++ l)%list /\ Forall P l.

(** The error of [processEdit] for an empty list of files. *)
Definition no_files_error : thrown :=
  ErrorObj "No files in context for editing. Please add files to context first.".

(** [f] is the first file of [files], in their order, whose relative path
    is a tail of [p]. *)
Definition first_tail_match (files : list ContextFile) (p : string) (f : ContextFile)
  : Prop :=
  exists before after,
    files = (before ++ f :: after)%list
    /\ (exists pre, p = pre ++ relativePath f)
    /\ forall g, In g before -> ~ exists pre, p = pre ++ relativePath g.

(** No file of [files] has a relative path that is a tail of [p]. *)
Definition no_tail_match (files : list ContextFile) (p : string) : Prop :=
  forall g, In g files -> ~ exists pre, p = pre ++ relativePath g.

(** The un-suffixed path [_applyAllEdits] computes for a sentinel path. *)
Definition unsuffixed (editFile : string) : string :=
  Js.replace CodeForgeService.sentinel EmptyString editFile.

(** The file [_applyAllEdits] finds for a sentinel path. *)
Definition selected (files : list ContextFile) (editFile : string) : option ContextFile :=
  List.find (fun f => endsWith (unsuffixed editFile) (relativePath f)) files.

(** The replacement a sentinel path stands for on the tree [tree]: the
    document of the file found for it and the content of the sentinel file;
    none when no file is found or the path holds no regular file. *)
Definition expected_edit (files : list ContextFile) (tree : Fs.node) (editFile : string)
  : list (string * string) :=
  match selected files editFile, Fs.lookup (Path.segments editFile) tree with
  | Some f, Some (Fs.File Z) => [(uri_toString (uri f), Z)]
  | _, _ => []
  end.

(** The document replacements among the requests [l], in order: the
    document and the text it is given. *)
Definition edits_of (l : list io) : list (string * string) :=
  List.flat_map
    (fun op => match op with IoApplyEdit u _ _ text => [(u, text)] | _ => [] end) l.

(** The documents after the whole-text replacements [edits], made in
    order. *)
Definition apply_edits (edits : list (string * string)) (docs : gmap string string)
  : gmap string string :=
  List.fold_left (fun d e => <[fst e := snd e]> d) edits docs.

(** *** Concrete hosts for the examples *)

Module Scenario.

Definition cfg : CodeForgeConfig :=
  {| cliPath := "codeforgeai"; defaultModel := "ollama"; enableMcp := false;
     mcpProviders := []; timeout := 30000 |}.

Definition file_uri (p : string) : Uri :=
  {| uri_toString := "file://" ++ p; fsPath := p |}.

(** A host with the one workspace folder [/w], whose clock shows [17],
    whose external tool is [tool], where the user answers [answer] to
    every prompt and host calls throw as [faults] says. *)
Definition host (tool : string -> Fs.node -> process_outcome * Fs.node)
    (answer : option string) (faults : list io -> io -> option string) : Env :=
  {| config := cfg; os_tmpdir := "/tmp"; date_now := fun _ => 17%N;
     workspaceFolders := ["/w"];
     getWorkspaceFolder :=
       fun u => if String.prefix "/w/" (fsPath u) then Some "/w" else None;
     run_process := tool; pick := fun _ _ => answer; fault := faults |}.

Definition no_fault : list io -> io -> option string := fun _ _ => None.

(** A tool that prints [ok] and touches nothing. *)
Definition idle_tool : string -> Fs.node -> process_outcome * Fs.node :=
  fun _ t => (Exited 0 "ok" EmptyString, t).

Definition plain : Env := host idle_tool None no_fault.

(** A world with an empty [/tmp] and the given live documents. *)
Definition world (docs : list (string * string)) : World :=
  {| fs := Fs.Dir [("tmp", Fs.Dir [])]; documents := list_to_map docs;
     io_log := []; ui_log := [] |}.

Definition a_ts : Uri := file_uri "/a.ts".
Definition b_ts : Uri := file_uri "/b.ts".
Definition e_ts : Uri := file_uri "/e.ts".

Definition two_documents : World :=
  world [("file:///a.ts", "x"); ("file:///b.ts", "y")].

Definition empty_document : World := world [("file:///e.ts", EmptyString)].

(** A tool that prints [ok] and leaves the file [data] at [segs]. *)
Definition writing_tool (segs : list string) (data : string)
  : string -> Fs.node -> process_outcome * Fs.node :=
  fun _ t => (Exited 0 "ok" EmptyString,
              match Fs.write segs data t with Some t' => t' | None => t end).

(** A tool that ends with the given exit code and output streams. *)
Definition ending_tool (code : Z) (stdout stderr : string)
  : string -> Fs.node -> process_outcome * Fs.node :=
  fun _ t => (Exited code stdout stderr, t).

(** Only removals throw. *)
Definition rm_fault : list io -> io -> option string :=
  fun _ op => match op with
              | IoRm _ => Some "EPERM: operation not permitted, rm"
              | _ => None
              end.

(** [/w/a.ts] and [/w/src/a.ts]: two tracked files, the relative path of
    the first being a tail of that of the second. *)
Definition w_a_ts : Uri := file_uri "/w/a.ts".
Definition w_src_a_ts : Uri := file_uri "/w/src/a.ts".

Definition two_a_documents : World :=
  world [("file:///w/a.ts", "root"); ("file:///w/src/a.ts", "nested")].

(** The tool rewrites the staged copy of [src/a.ts] as [Z]. *)
Definition edits_src_a : Env :=
  host (writing_tool ["tmp"; "codeforgex-17"; "src"; "a.ts.codeforgedit"] "Z")
    (Some "Apply All") no_fault.

(** [/elsewhere/a], outside the workspace, and [/w/a/b], inside. *)
Definition elsewhere_a : Uri := file_uri "/elsewhere/a".
Definition w_a_b : Uri := file_uri "/w/a/b".

Definition clashing_documents : World :=
  world [("file:///elsewhere/a", "x"); ("file:///w/a/b", "y")].

Definition rm_throws : Env := host idle_tool None rm_fault.

(** The tool reports on stderr only, and exits with code 0. *)
Definition warns : Env := host (ending_tool 0 EmptyString "warning: deprecated") None no_fault.

(** The tool prints [ok], writes to stderr as well, and exits with code 0. *)
Definition answers : Env := host (ending_tool 0 "ok" "warning: deprecated") None no_fault.

(** One byte more than the buffer of [exec] holds. *)
Definition flood : string := N.iter 1048577 (String "a") EmptyString.

(** The tool prints [flood] and exits with code 0. *)
Definition floods : Env := host (ending_tool 0 flood EmptyString) None no_fault.

(** A tracked file as [addFile] builds it for [/a.ts] holding [x]. *)
Definition file_a : ContextFile :=
  {| uri := a_ts; name := "a.ts"; relativePath := "a.ts"; content := Some "x";
     isActive := true |}.

(** An active tracked file whose document was empty when it was added. *)
Definition file_e : ContextFile :=
  {| uri := e_ts; name := "e.ts"; relativePath := "e.ts"; content := Some EmptyString;
     isActive := true |}.

Definition file_b : ContextFile :=
  {| uri := b_ts; name := "b.ts"; relativePath := "b.ts"; content := Some "y";
     isActive := true |}.

(** The staging tree after the tool left a sentinel beside [a.ts]. *)
Definition reconciling : World :=
  {| fs := Fs.Dir [("tmp", Fs.Dir [("codeforgex-17",
               Fs.Dir [("a.ts", Fs.File "x"); ("b.ts", Fs.File "y");
                       ("a.ts.codeforgedit", Fs.File "Z")])])];
     documents := list_to_map [("file:///a.ts", "x"); ("file:///b.ts", "y")];
     io_log := []; ui_log := [] |}.

(** The staging tree after the tool left sentinels for [a.ts] and [b.ts]
    and one for a file that is not tracked. *)
Definition reconciling_three : World :=
  {| fs := Fs.Dir [("tmp", Fs.Dir [("codeforgex-17",
               Fs.Dir [("a.ts", Fs.File "x"); ("b.ts", Fs.File "y");
                       ("a.ts.codeforgedit", Fs.File "Z");
                       ("new.ts.codeforgedit", Fs.File "N");
                       ("b.ts.codeforgedit", Fs.File "Y")])])];
     documents := list_to_map [("file:///a.ts", "x"); ("file:///b.ts", "y")];
     io_log := []; ui_log := [] |}.

End Scenario.

(* ===================================================================== *)
(** ** src/services/CodeForgeService.ts: the remaining entry points       *)
(* ===================================================================== *)

Module CodeForgeServiceCalls.
Section WithEnv.
Variable env : Env.

Definition explainCode (filePath : string) : M string :=
  CodeForgeService._executeCommand env ["explain"; dquote ++ filePath ++ dquote].

Definition generateCommitMessage : M string :=
  CodeForgeService._executeCommand env ["commit-message"].

(** [analyzeProject(path?)]: [args.push] only [if (path)]. *)
Definition analyzeProject (path : option string) : M string :=
  let quoted := dquote ++ (match path with Some p => p | None => EmptyString end) ++ dquote in
  let args := if truthy_opt path then ["analyze"; quoted] else ["analyze"] in
  CodeForgeService._executeCommand env args.

End WithEnv.
End CodeForgeServiceCalls.

(* ===================================================================== *)
(** ** src/providers/ChatProvider.ts: the conversation log                *)
(* ===================================================================== *)

Module JsText.

(** White space for [trim], on code units below 256: tab, line feed,
    vertical tab, form feed, carriage return, space, no-break space. *)
Definition is_white_space (c : ascii) : bool :=
  let n := nat_of_ascii c in
  ((9 <=? n) && (n <=? 13) || (n =? 32) || (n =? 160))%nat.

Fixpoint trimStart (s : string) : string :=
  match s with
  | EmptyString => EmptyString
  | String c s' => if is_white_space c then trimStart s' else s
  end.

Fixpoint trimEnd (s : string) : string :=
  match s with
  | EmptyString => EmptyString
  | String c s' =>
      match trimEnd s' with
      | EmptyString => if is_white_space c then EmptyString else String c EmptyString
      | kept => String c kept
      end
  end.

(** [s.trim()] *)
Definition trim (s : string) : string := trimEnd (trimStart s).

End JsText.

Module ChatProvider.

(** The [type] of a [ChatMessage]. *)
Inductive message_type := user | assistant | system.

Record ChatMessage := {
  id : string;
  type : message_type;
  content : string;
  timestamp : N;
  mode : option ExtensionMode
}.

(** What [webview.postMessage] hands to the view. *)
Inductive posted :=
| UpdateMessages (messages : list ChatMessage)
| UpdateMode (mode : ExtensionMode).

(** The log, and the view once it is resolved, with what was posted to it. *)
Record t := {
  _messages : list ChatMessage;
  _view : option (list posted)
}.

Definition _updateWebview (chat : t) : t :=
  match _view chat with
  | Some inbox =>
      {| _messages := _messages chat;
         _view := Some (inbox ++ [UpdateMessages (_messages chat)])%list |}
  | None => chat
  end.

Definition _addMessage (message : ChatMessage) (chat : t) : t :=
  _updateWebview
    {| _messages := (_messages chat ++ [message])%list; _view := _view chat |}.

Definition _clearChat (chat : t) : t :=
  _updateWebview {| _messages := []; _view := _view chat |}.

Definition _updateModeDisplay (mm : ModeManager.t) (chat : t) : t :=
  match _view chat with
  | Some inbox =>
      {| _messages := _messages chat;
         _view := Some (inbox ++ [UpdateMode (ModeManager.getCurrentMode mm)])%list |}
  | None => chat
  end.

Section WithEnv.
Variable env : Env.

(** The [switch (currentMode)] of [_handleUserMessage]. *)
Definition respond (currentMode : ExtensionMode) (message : string)
    (contextFiles : list ContextFile) : M string :=
  match currentMode with
  | Edit => CodeForgeService.processEdit env message contextFiles
  | Agent => CodeForgeService.processAgent env message contextFiles
  | Ask => CodeForgeService.processPrompt env message contextFiles
  end.

Definition _handleUserMessage (mm : ModeManager.t) (cp : ContextProvider.t)
    (message : string) (chat : t) : M t :=
  if negb (truthy (JsText.trim message)) then ret chat
  else
    let* now := Host.Date_now env in
    let userMessage :=
      {| id := pretty now; type := user; content := message; timestamp := now;
         mode := Some (ModeManager.getCurrentMode mm) |} in
    let chat1 := _addMessage userMessage chat in
    let* reply :=
      try_catch
        (let contextFiles := ContextProvider.getContextFiles cp in
         let currentMode := ModeManager.getCurrentMode mm in
         let* response := respond currentMode message contextFiles in
         let* now := Host.Date_now env in
         ret {| id := pretty (now + 1)%N; type := assistant; content := response;
                timestamp := now; mode := Some currentMode |})
        (fun error =>
           let* now := Host.Date_now env in
           ret {| id := pretty (now + 1)%N; type := system;
                  content := "Error: "
                             ++ ContextProvider.error_message error "Unknown error occurred";
                  timestamp := now; mode := None |}) in
    ret (_addMessage reply chat1).

End WithEnv.
End ChatProvider.

(* ===================================================================== *)
(** ** Vocabulary of the further statements                               *)
(* ===================================================================== *)

(** [n] calls of [switchMode] in a row. *)
Fixpoint switch_times (n : nat) (mm : ModeManager.t) : M ModeManager.t :=
  match n with
  | O => ret mm
  | S n' => let* mm' := ModeManager.switchMode mm in switch_times n' mm'
  end.

(** What one change of mode to [m] adds to the user-interface log. *)
Definition mode_notice (m : ExtensionMode) : list ui :=
  [ModeChanged m;
   InformationMessage ("Switched to " ++ toUpperCase (mode_value m) ++ " mode") []].

(** The notices of [n] successive changes starting from [m]. *)
Fixpoint switch_notices (n : nat) (m : ExtensionMode) : list ui :=
  match n with
  | O => []
  | S n' => (mode_notice (next_in_order m) ++ switch_notices n' (next_in_order m))%list
  end.

(** [m] leaves the part [view] of the world as it found it. *)
Definition preserves {X} (view : World -> X) {A} (m : M A) : Prop :=
  forall w, view (snd (m w)) = view w.

(** Two tracked entries that differ at most in their [isActive] flag. *)
Definition same_entry (f g : ContextFile) : Prop :=
  uri f = uri g /\ name f = name g /\ relativePath f = relativePath g
  /\ content f = content g.

(** The entry [addFile] builds for [u] when its document holds [text]. *)
Definition added_entry (env : Env) (u : Uri) (text : string) : ContextFile :=
  {| uri := u; name := Path.basename (fsPath u);
     relativePath := match getWorkspaceFolder env u with
                     | Some folder => Path.relative folder (fsPath u)
                     | None => Path.basename (fsPath u)
                     end;
     content := Some text; isActive := true |}.

(** The path of the entry reached from [dir] through the names [segs]. *)
Definition path_under (dir : string) (segs : list string) : string :=
  List.fold_left Path.join segs dir.

(** The sentinel files below the directory [n] found at [currentDir], in
    the order [traverse] meets them. *)
Fixpoint sentinels_in (currentDir : string) (n : Fs.node) : list string :=
  match n with
  | Fs.File _ => []
  | Fs.Dir entries =>
      List.flat_map
        (fun '(entry_name, child) =>
           match child with
           | Fs.Dir _ => sentinels_in (Path.join currentDir entry_name) child
           | Fs.File _ =>
               if endsWith entry_name CodeForgeService.sentinel
               then [Path.join currentDir entry_name] else []
           end)
        entries
  end.

(** The directories of the tree [n] found at [currentDir], the root
    first, each before what is below it. *)
Fixpoint directory_paths (currentDir : string) (n : Fs.node) : list string :=
  match n with
  | Fs.File _ => []
  | Fs.Dir entries =>
      currentDir
      :: List.flat_map
           (fun '(entry_name, child) =>
              directory_paths (Path.join currentDir entry_name) child)
           entries
  end.

(** No string occurs twice in the list. *)
Fixpoint distinct (l : list string) : bool :=
  match l with
  | [] => true
  | x :: l' => negb (List.existsb (String.eqb x) l') && distinct l'
  end.

(** In every directory of the tree the entries have different names, as
    they have on disk. *)
Fixpoint unique_names (n : Fs.node) : bool :=
  match n with
  | Fs.File _ => true
  | Fs.Dir entries =>
      distinct (List.map fst entries)
      && List.forallb (fun e => unique_names (snd e)) entries
  end.

(** The number of directories in a tree, the root included. *)
Fixpoint directories (n : Fs.node) : nat :=
  match n with
  | Fs.File _ => 0
  | Fs.Dir entries => S (List.list_sum (List.map (fun e => directories (snd e)) entries))
  end.

(** The answer "Apply All" is never given. *)
Definition never_applies (env : Env) : Prop :=
  forall msg items, CodeForgeService.chose (pick env msg items) "Apply All" = false.

(** No host call throws. *)
Definition quiet (env : Env) : Prop := forall h op, fault env h op = None.

(** The text of the prompt [processPrompt] sends. *)
Definition prompt_text (prompt : string) (contextFiles : list ContextFile) : string :=
  if List.existsb (fun f => isActive f && truthy_opt (content f)) contextFiles
  then "Context:" ++ nl ++ CodeForgeService._buildContextContent contextFiles
       ++ nl ++ nl ++ "Query: " ++ prompt
  else prompt.

(** The entries of [cp] are what [addFile] built from documents of [docs],
    up to their flags. *)
Definition snapshots (env : Env) (docs : gmap string string) (cp : ContextProvider.t)
  : Prop :=
  forall f, In f (ContextProvider._contextFiles cp) ->
    exists text, docs !! uri_toString (uri f) = Some text
                 /\ same_entry f (added_entry env (uri f) text).

(** The text of the prompt [processAgent] sends. *)
Definition agent_text (request : string) (contextFiles : list ContextFile) : string :=
  if List.existsb (fun f => isActive f && truthy_opt (content f)) contextFiles
  then "Analyze this codebase and then respond to: " ++ request ++ nl ++ nl
       ++ "Context:" ++ nl ++ CodeForgeService._buildContextContent contextFiles
  else "Act as a coding agent and respond to: " ++ request.

(** The arguments of the tool call a message makes in Ask or Agent mode. *)
Definition query_args (mode : ExtensionMode) (message : string)
    (contextFiles : list ContextFile) : list string :=
  ["prompt";
   dquote ++ match mode with
             | Agent => agent_text message contextFiles
             | _ => prompt_text message contextFiles
             end ++ dquote].

(** [m] asks the host for one thing only, the run of the command line for
    [args], and neither shows anything nor touches a document. *)
Definition single_request (env : Env) (m : M string) (args : list string) : Prop :=
  forall w,
    io_log (snd (m w)) = (io_log w ++ [exec_request env args])%list
    /\ ui_log (snd (m w)) = ui_log w
    /\ documents (snd (m w)) = documents w.

(** The world [w] after the further requests [l]. *)
Definition more_io (l : list io) (w : World) : World :=
  {| fs := fs w; documents := documents w;
     io_log := (io_log w ++ l)%list; ui_log := ui_log w |}.

(** The arguments of the tool call of [processEdit]. *)
Definition edit_args (tempDir request : string) : list string :=
  ["edit"; tempDir; "--user_prompt"; dquote ++ request ++ dquote].

(** A string of white space only (the empty string is one). *)
Fixpoint blank (s : string) : bool :=
  match s with
  | EmptyString => true
  | String c s' => JsText.is_white_space c && blank s'
  end.

(** The log entry [_handleUserMessage] makes of the user's message when it
    is called in the world [w]. *)
Definition user_message (env : Env) (mm : ModeManager.t) (message : string) (w : World)
  : ChatProvider.ChatMessage :=
  {| ChatProvider.id := pretty (date_now env (io_log w));
     ChatProvider.type := ChatProvider.user;
     ChatProvider.content := message;
     ChatProvider.timestamp := date_now env (io_log w);
     ChatProvider.mode := Some (ModeManager.getCurrentMode mm) |}.

(** The log entry it makes of the outcome [r] of the service call, which
    ended in the world [w]. *)
Definition reply_message (env : Env) (mm : ModeManager.t) (r : result string) (w : World)
  : ChatProvider.ChatMessage :=
  match r with
  | Ok response =>
      {| ChatProvider.id := pretty (date_now env (io_log w) + 1)%N;
         ChatProvider.type := ChatProvider.assistant;
         ChatProvider.content := response;
         ChatProvider.timestamp := date_now env (io_log w);
         ChatProvider.mode := Some (ModeManager.getCurrentMode mm) |}
  | Throw error =>
      {| ChatProvider.id := pretty (date_now env (io_log w) + 1)%N;
         ChatProvider.type := ChatProvider.system;
         ChatProvider.content :=
           "Error: " ++ ContextProvider.error_message error "Unknown error occurred";
         ChatProvider.timestamp := date_now env (io_log w);
         ChatProvider.mode := None |}
  end.

(** *** Further concrete hosts *)

Module Cases.

(** The tool leaves a sentinel beside the staged [a.ts]; the user cancels. *)
Definition cancels : Env :=
  Scenario.host
    (Scenario.writing_tool ["tmp"; "codeforgex-17"; "a.ts.codeforgedit"] "Z")
    (Some "Cancel") Scenario.no_fault.

(** The tool exits with code 1 after writing [boom] to stderr. *)
Definition fails : Env :=
  Scenario.host (Scenario.ending_tool 1 EmptyString "boom") None Scenario.no_fault.

(** A staging tree with sentinels at two depths, a file that is none, and
    a directory whose name ends like a sentinel. *)
Definition staging_tree : list (string * Fs.node) :=
  [("a.ts", Fs.File "x");
   ("a.ts.codeforgedit", Fs.File "Z");
   ("src", Fs.Dir [("b.ts.codeforgedit", Fs.File "Y"); ("keep.txt", Fs.File "k")]);
   ("old.codeforgedit", Fs.Dir [])].

Definition discovering : World :=
  {| fs := Fs.Dir [("tmp", Fs.Dir [("codeforgex-17", Fs.Dir staging_tree)])];
     documents := list_to_map [("file:///a.ts", "x"); ("file:///b.ts", "y")];
     io_log := []; ui_log := [] |}.

(** Sentinels for [a.ts] and [b.ts], but no document for [a.ts]. *)
Definition unopened : World :=
  {| fs := Fs.Dir [("tmp", Fs.Dir [("codeforgex-17",
               Fs.Dir [("a.ts.codeforgedit", Fs.File "Z");
                       ("b.ts.codeforgedit", Fs.File "Y")])])];
     documents := list_to_map [("file:///b.ts", "y")];
     io_log := []; ui_log := [] |}.

(** The document of [a.ts] no longer holds the text [x] it held when
    [Scenario.file_a] was built. *)
Definition edited : World :=
  Scenario.world [("file:///a.ts", "x, edited"); ("file:///b.ts", "y")].

(** A chat whose view is resolved and has received nothing yet. *)
Definition fresh_chat : ChatProvider.t :=
  {| ChatProvider._messages := []; ChatProvider._view := Some [] |}.

Definition in_mode (m : ExtensionMode) : ModeManager.t :=
  {| ModeManager._currentMode := m |}.

Definition tracking (files : list ContextFile) : ContextProvider.t :=
  {| ContextProvider._contextFiles := files |}.

End Cases.


(* ===================================================================== *)
(** * Properties                                                          *)
(* ===================================================================== *)

(** Unfolds the monad and the host calls that do not consult the oracle. *)
Ltac run_host :=
  unfold bind, ret, throw, try_catch, try_finally,
    Host.showInformationMessage, Host.askInformationMessage,
    Host.showErrorMessage, Host.console_warn, Host.show,
    ContextProvider.refresh in *;
  simpl in *.

(* --------------------------------------------------------------------- *)
(** ** Mode cycle                                                         *)
(* --------------------------------------------------------------------- *)

Section ModeCycle.
Import ModeManager.

Lemma switchMode_steps (mm : t) (w : World) :
  exists w', switchMode mm w = (Ok {| _currentMode := next_in_order (_currentMode mm) |}, w')
             /\ io_log w' = io_log w /\ fs w' = fs w /\ documents w' = documents w.
Proof.
  destruct mm as [[]]; eexists; (split; [reflexivity |]); auto.
Qed.

(** C6: [switchMode] (the spec's cycle()) always succeeds and moves the
    current mode to its successor in the declared order Edit, Agent, Ask,
    wrapping from Ask to Edit.  Hence three applications from any state
    lead back to that state, and the three states passed on the way are
    pairwise distinct and cover all three modes. *)
Theorem switchMode_cycle_of_three :
  forall (mm : t) (w : World),
  exists mm1 w1 mm2 w2 mm3 w3,
    switchMode mm w = (Ok mm1, w1)
    /\ switchMode mm1 w1 = (Ok mm2, w2)
    /\ switchMode mm2 w2 = (Ok mm3, w3)
    /\ _currentMode mm1 = next_in_order (_currentMode mm)
    /\ _currentMode mm2 = next_in_order (_currentMode mm1)
    /\ _currentMode mm3 = next_in_order (_currentMode mm2)
    /\ mm3 = mm
    /\ NoDup [_currentMode mm; _currentMode mm1; _currentMode mm2]
    /\ (forall m : ExtensionMode,
          In m [_currentMode mm; _currentMode mm1; _currentMode mm2]).
Proof.
  intros mm w.
  destruct (switchMode_steps mm w) as (w1 & H1 & _).
  destruct (switchMode_steps {| _currentMode := next_in_order (_currentMode mm) |} w1)
    as (w2 & H2 & _).
  destruct (switchMode_steps
              {| _currentMode := next_in_order (next_in_order (_currentMode mm)) |} w2)
    as (w3 & H3 & _).
  simpl in H2, H3.
  do 6 eexists.
  split; [exact H1 |]. split; [exact H2 |]. split; [exact H3 |].
  simpl. repeat split.
  - destruct mm as [[]]; reflexivity.
  - destruct mm as [[]]; simpl;
      repeat (apply NoDup_cons; split;
              [rewrite ?elem_of_cons, elem_of_nil; intuition discriminate |]);
      apply NoDup_nil_2.
  - intros m. destruct mm as [[]], m; simpl; auto.
Qed.

End ModeCycle.

(* --------------------------------------------------------------------- *)
(** ** Context set                                                        *)
(* --------------------------------------------------------------------- *)

Section ContextSet.
Import ContextProvider.

Lemma find_same_uri_In (u : Uri) (l : list ContextFile) :
  In (uri_toString u) (List.map (fun f => uri_toString (uri f)) l) ->
  exists f, List.find (same_uri u) l = Some f.
Proof.
  induction l as [| g l IH]; simpl; [tauto |].
  intros [Hg | Hl]; unfold same_uri at 1.
  - rewrite Hg, String.eqb_refl. eauto.
  - destruct (String.eqb _ _); eauto.
Qed.

Lemma find_same_uri_None (u : Uri) (l : list ContextFile) :
  List.find (same_uri u) l = None ->
  ~ In (uri_toString u) (List.map (fun f => uri_toString (uri f)) l).
Proof.
  intros Hnone Hin. destruct (find_same_uri_In u l Hin) as [f Hf]. congruence.
Qed.

(** What [addFile] can do: leave the set as it is, or push one active
    entry for [u] holding the document's text. *)
Lemma addFile_cases (env : Env) (u : Uri) (cp : t) (w : World) :
  exists w',
    addFile env u cp w = (Ok cp, w')
    \/ (List.find (same_uri u) (_contextFiles cp) = None
        /\ exists text rel,
             documents w !! uri_toString u = Some text
             /\ addFile env u cp w
                = (Ok {| _contextFiles :=
                           (_contextFiles cp
                            ++ [{| uri := u; name := Path.basename (fsPath u);
                                   relativePath := rel; content := Some text;
                                   isActive := true |}])%list |}, w')).
Proof.
  unfold addFile.
  destruct (List.find (same_uri u) (_contextFiles cp)) eqn:Hfind.
  - run_host. eauto.
  - unfold Host.openTextDocument, Host.perform. run_host.
    destruct (fault env (io_log w) _); simpl; [eauto |].
    destruct (documents w !! uri_toString u) eqn:Hdoc; simpl; [| eauto].
    eexists. right. split; [reflexivity |]. do 2 eexists. split; reflexivity.
Qed.

Lemma splice1_sublist {A} (i : nat) (l : list A) : sublist (splice1 i l) l.
Proof.
  revert i. induction l as [| x l IH]; intros [| i]; simpl.
  - constructor.
  - constructor.
  - apply sublist_cons. reflexivity.
  - apply sublist_skip, IH.
Qed.

Lemma flip_first_uris (u : Uri) (l : list ContextFile) :
  List.map (fun f => uri_toString (uri f)) (flip_first u l)
  = List.map (fun f => uri_toString (uri f)) l.
Proof.
  induction l as [| f l IH]; simpl; [reflexivity |].
  destruct (same_uri u f); simpl; [reflexivity | now rewrite IH].
Qed.

(** Every context command returns, and keeps the location references
    pairwise distinct. *)
Lemma execute_unique (env : Env) (c : command) (cp : t) (w : World) :
  NoDup (uris cp) ->
  exists cp' w', execute env c cp w = (Ok cp', w') /\ NoDup (uris cp').
Proof.
  intros Hnd. destruct c as [u | u | u |]; simpl.
  - destruct (addFile_cases env u cp w) as (w' & [H | (Hnone & text & rel & _ & H)]);
      rewrite H; do 2 eexists; (split; [reflexivity |]); [assumption |].
    unfold uris in *. simpl. rewrite List.map_app. simpl.
    apply NoDup_app. split; [assumption |]. split.
    + intros x Hx Hx'. apply list_elem_of_In in Hx.
      apply list_elem_of_singleton in Hx'. subst x.
      exact (find_same_uri_None u _ Hnone Hx).
    + apply NoDup_singleton.
  - unfold removeFile.
    destruct (negb _); [| eauto].
    destruct (_contextFiles cp !! _); run_host; [| eauto].
    do 2 eexists. split; [reflexivity |].
    unfold uris in *. simpl.
    eapply sublist_NoDup; [exact Hnd |].
    apply (fmap_sublist (fun f => uri_toString (uri f))), splice1_sublist.
  - unfold toggleFileActive.
    destruct (List.find _ _); run_host; [| eauto].
    do 2 eexists. split; [reflexivity |].
    unfold uris in *. simpl. now rewrite flip_first_uris.
  - unfold clearContext. run_host.
    do 2 eexists. split; [reflexivity |]. apply NoDup_nil_2.
Qed.

Lemma execute_all_unique (env : Env) (cs : list command) (cp : t) (w : World) :
  NoDup (uris cp) ->
  exists cp' w', execute_all env cs cp w = (Ok cp', w') /\ NoDup (uris cp').
Proof.
  revert cp w. induction cs as [| c cs IH]; intros cp w Hnd; simpl.
  - run_host. eauto.
  - destruct (execute_unique env c cp w Hnd) as (cp1 & w1 & H1 & Hnd1).
    unfold bind. rewrite H1. apply IH, Hnd1.
Qed.

Lemma addFile_present (env : Env) (u : Uri) (cp : t) (w : World) :
  In (uri_toString u) (uris cp) ->
  addFile env u cp w = (Ok cp, log_ui (already_in_context u) w).
Proof.
  intros Hin. unfold addFile.
  destruct (find_same_uri_In u _ Hin) as [f ->]. reflexivity.
Qed.

(** C7: starting from a context set whose location references are
    pairwise distinct (the empty set is one), every finite sequence of
    addFile, removeFile, toggleFileActive and clearContext returns and
    leaves them pairwise distinct; and in the set so reached, [addFile] of
    a reference that is already present returns the very same set (same
    entries, order and flags, hence same size) and changes the world by
    exactly one entry: the notice that the file is already in context. *)
Theorem context_set_unique_by_uri (env : Env) (cp : t) (Hcp : NoDup (uris cp)) :
  forall (cs : list command) (w : World),
  exists cp' w',
    execute_all env cs cp w = (Ok cp', w')
    /\ NoDup (uris cp')
    /\ forall u : Uri,
         In (uri_toString u) (uris cp') ->
         addFile env u cp' w' = (Ok cp', log_ui (already_in_context u) w')
         /\ ui_log (log_ui (already_in_context u) w')
            = (ui_log w' ++ [already_in_context u])%list
         /\ io_log (log_ui (already_in_context u) w') = io_log w'.
Proof.
  intros cs w.
  destruct (execute_all_unique env cs cp w Hcp) as (cp' & w' & H & Hnd).
  exists cp', w'. split; [exact H |]. split; [exact Hnd |].
  intros u Hin. split; [apply addFile_present, Hin |]. split; reflexivity.
Qed.

Lemma filter_sublist {A} (p : A -> bool) (l : list A) : sublist (List.filter p l) l.
Proof.
  induction l as [| x l IH]; simpl; [constructor |].
  destruct (p x); [apply sublist_skip | apply sublist_cons]; exact IH.
Qed.

(** C8: after every finite sequence of the four context commands, from
    any context set, [getContextFiles] (the spec's activeFiles()) is
    exactly the tracked files whose [isActive] flag is true, in set order:
    it is the filter of the tracked array by the flag, a subsequence of
    it, and a file is in it if and only if it is tracked with flag true;
    no file with flag false is ever in it. *)
Theorem getContextFiles_only_active :
  forall (env : Env) (cs : list command) (cp : t) (w : World),
  exists cp' w',
    execute_all env cs cp w = (Ok cp', w')
    /\ getContextFiles cp' = List.filter (fun f => isActive f) (_contextFiles cp')
    /\ sublist (getContextFiles cp') (_contextFiles cp')
    /\ (forall f, In f (getContextFiles cp')
                  <-> In f (_contextFiles cp') /\ isActive f = true)
    /\ (forall f, isActive f = false -> ~ In f (getContextFiles cp')).
Proof.
  intros env cs. induction cs as [| c cs IH]; intros cp w.
  - exists cp, w. split; [reflexivity |]. split; [reflexivity |].
    split; [apply filter_sublist |]. split.
    + intros f. unfold getContextFiles. apply List.filter_In.
    + intros f Hf Hin. unfold getContextFiles in Hin.
      apply List.filter_In in Hin. destruct Hin as [_ Hact]. congruence.
  - assert (Hstep : exists cp1 w1, execute env c cp w = (Ok cp1, w1)).
    { destruct c as [u | u | u |]; simpl.
      - destruct (addFile_cases env u cp w) as (w' & [H | (_ & text & rel & _ & H)]);
          rewrite H; eauto.
      - unfold removeFile. destruct (negb _); [| eauto].
        destruct (_contextFiles cp !! _); run_host; eauto.
      - unfold toggleFileActive. destruct (List.find _ _); run_host; eauto.
      - unfold clearContext. run_host. eauto. }
    destruct Hstep as (cp1 & w1 & H1).
    destruct (IH cp1 w1) as (cp' & w' & H & Hrest).
    exists cp', w'. split; [| exact Hrest].
    simpl. unfold bind. rewrite H1. exact H.
Qed.

End ContextSet.

(* --------------------------------------------------------------------- *)
(** ** The prompt text of the active context                              *)
(* --------------------------------------------------------------------- *)

Section ContextContent.
Import ContextProvider.

Lemma filter_andb {A} (p q : A -> bool) (l : list A) :
  List.filter (fun x => p x && q x) l = List.filter q (List.filter p l).
Proof.
  induction l as [| x l IH]; simpl; [reflexivity |].
  destruct (p x); simpl; [destruct (q x); simpl; now rewrite IH | exact IH].
Qed.

Lemma getActiveContextContent_filter (cp : t) :
  getActiveContextContent cp
  = Js.join separator
      (List.map labeled_block
         (List.filter (fun f => truthy_opt (content f)) (getContextFiles cp))).
Proof.
  unfold getActiveContextContent, getContextFiles.
  now rewrite (filter_andb (fun f => isActive f) (fun f => truthy_opt (content f))).
Qed.

(** C5, as the code has it: [getActiveContextContent] (the spec's
    activeContentBlob()) is the join, with the separator of a rule
    between blank lines, of the labeled blocks (header line with the path,
    then the content) of the active files WHOSE CACHED CONTENT IS NOT
    EMPTY, in set order; set order is insertion order, since [addFile]
    either leaves the array as it is or pushes one entry at its end; and
    for a.ts (content x) and b.ts (content y) added in that order the
    text is the one the spec gives.  The text is a function of the tracked
    array alone, so it is the same at every call until the set changes;
    and it is the text [_buildContextContent] puts into a prompt for the
    active files. *)
Theorem getActiveContextContent_blocks :
  (forall cp : t,
      getActiveContextContent cp
      = Js.join separator
          (List.map labeled_block
             (List.filter (fun f => truthy_opt (content f)) (getContextFiles cp))))
  /\ (forall cp : t,
        CodeForgeService._buildContextContent (getContextFiles cp)
        = getActiveContextContent cp)
  /\ (forall (env : Env) (u : Uri) (cp : t) (w : World),
        match addFile env u cp w with
        | (Ok cp', _) =>
            _contextFiles cp' = _contextFiles cp
            \/ exists f, _contextFiles cp' = (_contextFiles cp ++ [f])%list
                         /\ uri f = u /\ isActive f = true
        | (Throw _, _) => False
        end)
  /\ (exists cp w',
        execute_all Scenario.plain
          [AddFile Scenario.a_ts; AddFile Scenario.b_ts] init Scenario.two_documents
        = (Ok cp, w')
        /\ getActiveContextContent cp
           = "// File: a.ts" ++ nl ++ "x" ++ nl ++ nl ++ "---" ++ nl ++ nl
             ++ "// File: b.ts" ++ nl ++ "y").
Proof.
  split; [exact getActiveContextContent_filter |]. split; [| split].
  - intros cp. unfold CodeForgeService._buildContextContent, getActiveContextContent,
      getContextFiles.
    f_equal. f_equal. induction (_contextFiles cp) as [| f l IH]; simpl; [reflexivity |].
    destruct (isActive f) eqn:Ha; simpl; rewrite ?Ha; simpl; [| exact IH].
    destruct (truthy_opt (content f)); [f_equal |]; exact IH.
  - intros env u cp w.
    destruct (addFile_cases env u cp w) as (w' & [H | (_ & text & rel & _ & H)]);
      rewrite H; [left; reflexivity |].
    right. eexists. split; [reflexivity |]. split; reflexivity.
  - do 2 eexists. split; vm_compute; reflexivity.
Qed.

(** C5, as the spec states it, fails: an active tracked file whose
    document was empty when it was added contributes no block at all, so
    the text is not the join of the blocks of the active files. *)
Lemma getActiveContextContent_not_every_active_file :
  exists cp w' f,
    execute_all Scenario.plain [AddFile Scenario.e_ts] init Scenario.empty_document
    = (Ok cp, w')
    /\ getContextFiles cp = [f]
    /\ relativePath f = "e.ts"
    /\ getActiveContextContent cp = EmptyString
    /\ getActiveContextContent cp
       <> Js.join separator (List.map labeled_block (getContextFiles cp)).
Proof.
  do 3 eexists. split; [vm_compute; reflexivity |].
  split; [reflexivity |]. split; [reflexivity |]. split; [reflexivity |].
  vm_compute. discriminate.
Qed.

End ContextContent.

(* --------------------------------------------------------------------- *)
(** ** The command gateway                                                *)
(* --------------------------------------------------------------------- *)

Section Gateway.
Import CodeForgeService.

(** What [_executeCommand] returns, from how the process ended, on a
    host that lets the call through. *)
Lemma executeCommand_outcome (env : Env) (args : list string) (w : World)
    (outcome : process_outcome) (tree : Fs.node) :
  fault env (io_log w) (exec_request env args) = None ->
  run_process env (command_line env args) (fs w) = (outcome, tree) ->
  _executeCommand env args w
  = (match outcome with
     | Exited code stdout stderr =>
         if (Host.maxBuffer <? byteLength stdout)%N then
           Throw (ErrorObj ("CodeForgeAI CLI error: " ++ "stdout maxBuffer length exceeded"))
         else if (Host.maxBuffer <? byteLength stderr)%N then
           Throw (ErrorObj ("CodeForgeAI CLI error: " ++ "stderr maxBuffer length exceeded"))
         else if (code =? 0)%Z then
           if truthy stdout then Ok stdout
           else if truthy stderr
                then Throw (ErrorObj ("CodeForgeAI CLI error: " ++ stderr))
                else Ok "Command executed successfully"
         else Throw (ErrorObj ("CodeForgeAI CLI error: " ++ "Command failed: "
                               ++ command_line env args ++ nl ++ stderr))
     | NotSpawned message => Throw (ErrorObj ("CodeForgeAI CLI error: " ++ message))
     end, set_fs tree (log_io (exec_request env args) w)).
Proof.
  intros Hfault Hrun.
  unfold _executeCommand, Host.execAsync, Host.perform, exec_request in *.
  run_host. rewrite Hfault, Hrun.
  destruct outcome as [code stdout stderr | message]; [| reflexivity].
  destruct (Host.maxBuffer <? byteLength stdout)%N; [reflexivity |].
  destruct (Host.maxBuffer <? byteLength stderr)%N; [reflexivity |].
  destruct (code =? 0)%Z; [| reflexivity].
  destruct stdout, stderr; reflexivity.
Qed.

Lemma truthy_nonempty (s : string) : s <> EmptyString -> truthy s = true.
Proof. destruct s; [congruence | reflexivity]. Qed.

Lemma within_buffer (s : string) :
  (byteLength s <= Host.maxBuffer)%N -> (Host.maxBuffer <? byteLength s)%N = false.
Proof. intros H. now apply N.ltb_ge. Qed.

Lemma over_buffer (s : string) :
  (Host.maxBuffer < byteLength s)%N -> (Host.maxBuffer <? byteLength s)%N = true.
Proof. intros H. now apply N.ltb_lt. Qed.

(** The bytes of a string made of [n] copies of an ASCII character. *)
Lemma byteLength_iter (c : ascii) (n : N) :
  (N_of_ascii c <? 128)%N = true ->
  byteLength (N.iter n (String c) EmptyString) = n.
Proof.
  intros Hc. induction n as [| n IH] using N.peano_ind; [reflexivity |].
  rewrite N.iter_succ. simpl. rewrite Hc, IH. lia.
Qed.

(** C3, as the code has it: every gateway call goes through
    [_executeCommand].  On a host that lets the process call through, with
    [w'] the world after the process ran, and for a process whose output
    stays within the buffer of [exec] (1 MiB on each stream):
    - exit code 0, empty stdout, non-empty stderr: the call fails, and the
      error carries the stderr text;
    - exit code 0, non-empty stdout: the call returns stdout, whatever
      stderr holds;
    - exit code 0, empty stdout, and not the error case: the call returns
      stderr if it is non-empty and a fixed success text otherwise (stderr
      is then empty, so it is the fixed text);
    - non-zero exit code: the call fails, and the message wraps the text
      of Node's error for the failed command, which ends with stderr.
    When the process could not be run, the call fails, and the message
    wraps the text of the error.  When the process wrote more than the
    buffer holds on a stream, the call fails whatever the exit code, and the
    message wraps Node's error naming that stream.  And whenever the host
    call itself throws an [Error], the call fails with a message that wraps
    the text of that error. *)
Theorem executeCommand_classification :
  forall (env : Env) (args : list string) (w : World),
    (forall outcome tree,
        fault env (io_log w) (exec_request env args) = None ->
        run_process env (command_line env args) (fs w) = (outcome, tree) ->
        let w' := set_fs tree (log_io (exec_request env args) w) in
        (forall stderr,
            outcome = Exited 0 EmptyString stderr -> stderr <> EmptyString ->
            (byteLength stderr <= Host.maxBuffer)%N ->
            _executeCommand env args w
            = (Throw (ErrorObj ("CodeForgeAI CLI error: " ++ stderr)), w'))
        /\ (forall stdout stderr,
              outcome = Exited 0 stdout stderr -> stdout <> EmptyString ->
              (byteLength stdout <= Host.maxBuffer)%N ->
              (byteLength stderr <= Host.maxBuffer)%N ->
              _executeCommand env args w = (Ok stdout, w'))
        /\ (forall stdout stderr,
              outcome = Exited 0 stdout stderr -> stdout = EmptyString ->
              truthy stderr && negb (truthy stdout) = false ->
              _executeCommand env args w
              = (Ok (or_else stderr "Command executed successfully"), w')
              /\ or_else stderr "Command executed successfully"
                 = "Command executed successfully")
        /\ (forall code stdout stderr,
              outcome = Exited code stdout stderr -> code <> 0%Z ->
              (byteLength stdout <= Host.maxBuffer)%N ->
              (byteLength stderr <= Host.maxBuffer)%N ->
              _executeCommand env args w
              = (Throw (ErrorObj ("CodeForgeAI CLI error: " ++ "Command failed: "
                                  ++ command_line env args ++ nl ++ stderr)), w'))
        /\ (forall message,
              outcome = NotSpawned message ->
              _executeCommand env args w
              = (Throw (ErrorObj ("CodeForgeAI CLI error: " ++ message)), w'))
        /\ (forall code stdout stderr,
              outcome = Exited code stdout stderr ->
              (Host.maxBuffer < byteLength stdout)%N ->
              (byteLength stderr <= Host.maxBuffer)%N ->
              _executeCommand env args w
              = (Throw (ErrorObj ("CodeForgeAI CLI error: "
                                  ++ "stdout maxBuffer length exceeded")), w'))
        /\ (forall code stdout stderr,
              outcome = Exited code stdout stderr ->
              (byteLength stdout <= Host.maxBuffer)%N ->
              (Host.maxBuffer < byteLength stderr)%N ->
              _executeCommand env args w
              = (Throw (ErrorObj ("CodeForgeAI CLI error: "
                                  ++ "stderr maxBuffer length exceeded")), w'))
        /\ (forall code stdout stderr,
              outcome = Exited code stdout stderr ->
              (Host.maxBuffer < byteLength stdout)%N
              \/ (Host.maxBuffer < byteLength stderr)%N ->
              exists stream,
                (stream = "stdout" \/ stream = "stderr")
                /\ _executeCommand env args w
                   = (Throw (ErrorObj ("CodeForgeAI CLI error: " ++ stream
                                       ++ " maxBuffer length exceeded")), w')))
    /\ (forall message,
          fault env (io_log w) (exec_request env args) = Some message ->
          _executeCommand env args w
          = (Throw (ErrorObj ("CodeForgeAI CLI error: " ++ message)),
             log_io (exec_request env args) w)).
Proof.
  intros env args w. split.
  - intros outcome tree Hfault Hrun w'.
    pose proof (executeCommand_outcome env args w outcome tree Hfault Hrun) as H.
    fold w' in H.
    split; [| split; [| split; [| split; [| split; [| split; [| split]]]]]].
    + intros stderr -> Hne Herr. rewrite H, (within_buffer _ Herr). simpl.
      now rewrite (truthy_nonempty _ Hne).
    + intros stdout stderr -> Hne Hout Herr.
      rewrite H, (within_buffer _ Hout), (within_buffer _ Herr). simpl.
      now rewrite (truthy_nonempty _ Hne).
    + intros stdout stderr -> -> Hcase. rewrite H.
      destruct stderr; [split; reflexivity | discriminate].
    + intros code stdout stderr -> Hne Hout Herr.
      rewrite H, (within_buffer _ Hout), (within_buffer _ Herr).
      destruct (Z.eqb_spec code 0); [contradiction | reflexivity].
    + intros message ->. exact H.
    + intros code stdout stderr -> Hout _. now rewrite H, (over_buffer _ Hout).
    + intros code stdout stderr -> Hout Herr.
      now rewrite H, (within_buffer _ Hout), (over_buffer _ Herr).
    + intros code stdout stderr -> Hover. rewrite H.
      destruct (Host.maxBuffer <? byteLength stdout)%N eqn:Hout.
      * exists "stdout". split; [now left | reflexivity].
      * destruct Hover as [Hover | Hover];
          [rewrite (over_buffer _ Hover) in Hout; discriminate |].
        rewrite (over_buffer _ Hover). exists "stderr". split; [now right | reflexivity].
  - intros message Hfault.
    unfold _executeCommand, Host.execAsync, Host.perform, exec_request in *.
    run_host. now rewrite Hfault.
Qed.

End Gateway.

(* --------------------------------------------------------------------- *)
(** ** What the pipeline asks of the host                                 *)
(* --------------------------------------------------------------------- *)

Section Requests.
Context {P : io -> Prop}.

Lemma appends_same {A} (m : M A) :
  (forall w, io_log (snd (m w)) = io_log w) -> appends P m.
Proof.
  intros H w. exists []. rewrite H, app_nil_r. split; [reflexivity | constructor].
Qed.

Lemma appends_ret {A} (a : A) : appends P (ret a).
Proof. apply appends_same. reflexivity. Qed.

Lemma appends_throw {A} (e : thrown) : appends P (@throw A e).
Proof. apply appends_same. reflexivity. Qed.

Lemma appends_show (e : ui) : appends P (Host.show e).
Proof. apply appends_same. reflexivity. Qed.

Lemma appends_bind {A B} (m : M A) (k : A -> M B) :
  appends P m -> (forall a, appends P (k a)) -> appends P (bind m k).
Proof.
  intros Hm Hk w. unfold bind.
  destruct (Hm w) as (l1 & E1 & F1).
  destruct (m w) as [[a | e] w1]; simpl in *.
  - destruct (Hk a w1) as (l2 & E2 & F2).
    exists (l1 ++ l2)%list. rewrite E2, E1, app_assoc.
    split; [reflexivity | apply Forall_app; auto].
  - exists l1. auto.
Qed.

Lemma appends_try_catch {A} (m : M A) (h : thrown -> M A) :
  appends P m -> (forall e, appends P (h e)) -> appends P (try_catch m h).
Proof.
  intros Hm Hh w. unfold try_catch.
  destruct (Hm w) as (l1 & E1 & F1).
  destruct (m w) as [[a | e] w1]; simpl in *.
  - exists l1. auto.
  - destruct (Hh e w1) as (l2 & E2 & F2).
    exists (l1 ++ l2)%list. rewrite E2, E1, app_assoc.
    split; [reflexivity | apply Forall_app; auto].
Qed.

Lemma appends_perform {A} (env : Env) (op : io) (run : M A) :
  P op -> appends P run -> appends P (Host.perform env op run).
Proof.
  intros Hop Hrun w. unfold Host.perform.
  destruct (fault env (io_log w) op).
  - exists [op]. split; [reflexivity | repeat constructor; exact Hop].
  - destruct (Hrun (log_io op w)) as (l & E & F).
    exists (op :: l). rewrite E. simpl. rewrite <- app_assoc.
    split; [reflexivity | constructor; auto].
Qed.

Lemma appends_for_of {A} (l : list A) (body : A -> M unit) :
  (forall x, appends P (body x)) -> appends P (for_of l body).
Proof.
  intros Hbody. induction l as [| x l IH]; simpl.
  - apply appends_ret.
  - apply appends_bind; [apply Hbody | intros _; exact IH].
Qed.

Lemma appends_fold_of {A S} (body : A -> S -> M S) (l : list A) :
  Forall (fun x => forall s, appends P (body x s)) l ->
  forall s, appends P (fold_of body l s).
Proof.
  induction 1 as [| x l Hx _ IH]; intros s; simpl.
  - apply appends_ret.
  - apply appends_bind; [apply Hx | exact IH].
Qed.

End Requests.

Lemma node_nested_ind (Q : Fs.node -> Prop) :
  (forall data, Q (Fs.File data)) ->
  (forall entries, Forall (fun e => Q (snd e)) entries -> Q (Fs.Dir entries)) ->
  forall n, Q n.
Proof.
  intros HF HD. fix IH 1. intros [data | entries].
  - apply HF.
  - apply HD. induction entries as [| [k c] entries IHe]; constructor.
    + apply IH.
    + exact IHe.
Qed.

Section PipelineRequests.
Import CodeForgeService.
Variable env : Env.

Ltac pure_run := apply appends_same; intros w; simpl; repeat case_match; reflexivity.

Lemma appends_fs_mkdir p : appends no_rm (Host.fs_mkdir env p).
Proof. apply appends_perform; [exact I | pure_run]. Qed.

Lemma appends_fs_writeFile p data : appends no_rm (Host.fs_writeFile env p data).
Proof. apply appends_perform; [exact I | pure_run]. Qed.

Lemma appends_fs_readFile p : appends no_rm (Host.fs_readFile env p).
Proof. apply appends_perform; [exact I | pure_run]. Qed.

Lemma appends_execAsync c t d : appends no_rm (Host.execAsync env c t d).
Proof. apply appends_perform; [exact I | pure_run]. Qed.

Lemma appends_openTextDocument u : appends no_rm (Host.openTextDocument env u).
Proof. apply appends_perform; [exact I | pure_run]. Qed.

Lemma appends_applyEdit_replace u a b new :
  appends no_rm (Host.applyEdit_replace env u a b new).
Proof. apply appends_perform; [exact I | pure_run]. Qed.

Lemma appends__createTempContext files : appends no_rm (_createTempContext env files).
Proof.
  unfold _createTempContext.
  apply appends_bind; [apply appends_same; reflexivity | intros now].
  apply appends_bind; [apply appends_fs_mkdir | intros _].
  apply appends_bind; [| intros _; apply appends_ret].
  apply appends_for_of. intros file. unfold stage_file.
  destruct (content file) as [text |]; [| apply appends_ret].
  destruct (truthy text); [| apply appends_ret].
  apply appends_bind; [apply appends_fs_mkdir | intros _; apply appends_fs_writeFile].
Qed.

Lemma appends__executeCommand args : appends no_rm (_executeCommand env args).
Proof.
  unfold _executeCommand.
  apply appends_try_catch.
  - apply appends_bind; [apply appends_execAsync | intros [stdout stderr]].
    destruct (_ && _); [apply appends_throw | apply appends_ret].
  - intros [message |]; apply appends_throw.
Qed.

Lemma appends_traverse n :
  forall dir acc, appends no_rm (traverse env dir n acc).
Proof.
  induction n as [data | entries IH] using node_nested_ind; intros dir acc; simpl.
  - apply appends_perform; [exact I | apply appends_throw].
  - apply appends_perform; [exact I |].
    apply appends_fold_of.
    eapply Forall_impl; [exact IH |].
    intros [k c] Hc s. simpl in *.
    destruct c as [data | es].
    + destruct (endsWith k sentinel); apply appends_ret.
    + apply Hc.
Qed.

Lemma appends__findEditFiles dir : appends no_rm (_findEditFiles env dir).
Proof.
  intros w. unfold _findEditFiles.
  destruct (Fs.lookup _ _).
  - apply appends_traverse.
  - apply appends_perform; [exact I | apply appends_throw].
Qed.

Lemma appends_apply_edit files editFile : appends no_rm (apply_edit env files editFile).
Proof.
  unfold apply_edit. destruct (List.find _ _); [| apply appends_ret].
  apply appends_bind; [apply appends_fs_readFile | intros Z].
  apply appends_bind; [apply appends_openTextDocument | intros text].
  apply appends_applyEdit_replace.
Qed.

Lemma appends__applyAllEdits editFiles files :
  appends no_rm (_applyAllEdits env editFiles files).
Proof.
  unfold _applyAllEdits.
  apply appends_bind; [| intros _; apply appends_show].
  apply appends_for_of. intros editFile. apply appends_apply_edit.
Qed.

Lemma appends__handleEditResults dir files :
  appends no_rm (_handleEditResults env dir files).
Proof.
  unfold _handleEditResults.
  apply appends_bind; [apply appends__findEditFiles | intros editFiles].
  destruct (0 <? _)%nat; [| apply appends_ret].
  apply appends_bind.
  - unfold Host.askInformationMessage.
    apply appends_bind; [apply appends_show | intros _; apply appends_ret].
  - intros action.
    destruct (chose action "Apply All"); [apply appends__applyAllEdits |].
    destruct (chose action "Review Each"); [apply appends_show | apply appends_ret].
Qed.

End PipelineRequests.

(* --------------------------------------------------------------------- *)
(** ** Removal of the staging directory                                   *)
(* --------------------------------------------------------------------- *)

Section Cleanup.
Import CodeForgeService.

Lemma truthy_append_char (cur : string) (c : ascii) (s : string) :
  truthy (cur ++ String c s) = true.
Proof. destruct cur; reflexivity. Qed.

Lemma segments_from_started (s cur : string) :
  truthy cur = true -> Path.segments_from cur s <> [].
Proof.
  revert cur. induction s as [| c s IH]; intros cur Hcur; simpl.
  - now rewrite Hcur.
  - destruct (Ascii.eqb c Path.slash).
    + now rewrite Hcur.
    + apply IH, truthy_append_char.
Qed.

Lemma segments_from_app (a s : string) :
  (forall cur, Path.segments_from cur s <> []) ->
  forall cur, Path.segments_from cur (a ++ s) <> [].
Proof.
  intros Hs. induction a as [| c a IH]; intros cur; simpl; [apply Hs |].
  destruct (Ascii.eqb c Path.slash); [| apply IH].
  destruct (truthy cur); [easy | apply IH].
Qed.

Lemma staging_dir_segments (env : Env) (w : World) :
  Path.segments (staging_dir env w) <> [].
Proof.
  unfold staging_dir, Path.join, Path.segments.
  apply segments_from_app. intros cur. simpl.
  destruct (truthy cur); [easy |].
  apply segments_from_started. reflexivity.
Qed.

Lemma get_set_same k v es : Fs.get k (Fs.set k v es) = Some v.
Proof.
  induction es as [| [k' v'] es IH]; simpl.
  - now rewrite String.eqb_refl.
  - destruct (String.eqb k' k) eqn:E; simpl; [now rewrite String.eqb_refl |].
    now rewrite E.
Qed.

Lemma get_del_same k es : Fs.get k (Fs.del k es) = None.
Proof.
  induction es as [| [k' v'] es IH]; simpl; [reflexivity |].
  destruct (String.eqb k' k) eqn:E; simpl; [exact IH | now rewrite E].
Qed.

(** After a removal nothing is found at the removed path. *)
Lemma lookup_rm_rf (segs : list string) :
  segs <> [] -> forall n, Fs.lookup segs (Fs.rm_rf segs n) = None.
Proof.
  induction segs as [| s rest IH]; [congruence |]. intros _ n.
  destruct rest as [| s' rest'].
  - destruct n as [data | es]; simpl; [reflexivity |]. now rewrite get_del_same.
  - destruct n as [data | es]; [reflexivity |].
    change (Fs.rm_rf (s :: s' :: rest') (Fs.Dir es))
      with (match Fs.get s es with
            | Some c => Fs.Dir (Fs.set s (Fs.rm_rf (s' :: rest') c) es)
            | None => Fs.Dir es
            end).
    destruct (Fs.get s es) as [c |] eqn:E.
    + change (Fs.lookup (s :: s' :: rest') (Fs.Dir (Fs.set s (Fs.rm_rf (s' :: rest') c) es)))
        with (match Fs.get s (Fs.set s (Fs.rm_rf (s' :: rest') c) es) with
              | Some c' => Fs.lookup (s' :: rest') c'
              | None => None
              end).
      rewrite get_set_same. apply IH. discriminate.
    + simpl. now rewrite E.
Qed.

Lemma filter_is_rm_no_rm (p : string) (l : list io) :
  Forall no_rm l -> List.filter (is_rm p) l = [].
Proof.
  induction 1 as [| e l He _ IH]; simpl; [reflexivity |].
  destruct e; simpl in *; try exact IH. contradiction.
Qed.

Lemma createTempContext_name (env : Env) files w tempDir w1 :
  _createTempContext env files w = (Ok tempDir, w1) -> tempDir = staging_dir env w.
Proof.
  unfold _createTempContext, Host.Date_now, staging_dir. run_host.
  destruct (Host.fs_mkdir env _ w) as [[[] | e] w2]; [| discriminate].
  destruct (for_of files _ w2) as [[[] | e] w3]; [| discriminate].
  congruence.
Qed.

(** C1, as the code has it: in every [processEdit] whose staging step
    completed (so in every invocation that reaches the external tool),
    whatever the tool, the discovery, the user's choice and the
    reconciliation do or throw, the requests made of the host during the
    invocation are those of staging, then those of the tool call and of
    the reconciliation, then one recursive removal of the staging
    directory: the removal is requested exactly once, as the last request.
    If that removal does not throw, nothing exists at the staging path when
    [processEdit] ends; if it throws, the error is swallowed and a warning
    is logged, whatever the tree then holds.  Either way [processEdit]
    returns or throws exactly what the tool call followed by the
    reconciliation returned or threw, and the removal, or else the warning,
    is all that happens after them. *)
Theorem processEdit_removes_staging_dir
    (env : Env) (request : string) (contextFiles : list ContextFile)
    (w w1 : World) (tempDir : string)
    (Hfiles : contextFiles <> [])
    (Hstaged : _createTempContext env contextFiles w = (Ok tempDir, w1)) :
  exists r w' staged during,
    processEdit env request contextFiles w = (r, w')
    /\ tempDir = staging_dir env w
    /\ io_log w1 = (io_log w ++ staged)%list
    /\ io_log w' = (io_log w ++ staged ++ during ++ [IoRm tempDir])%list
    /\ Forall no_rm staged
    /\ Forall no_rm during
    /\ List.length (List.filter (is_rm tempDir) (staged ++ during ++ [IoRm tempDir])) = 1
    /\ (fault env (io_log w ++ staged ++ during)%list (IoRm tempDir) = None ->
        Fs.exists_at tempDir (fs w') = false)
    /\ (forall message,
          fault env (io_log w ++ staged ++ during)%list (IoRm tempDir) = Some message ->
          exists shown,
            ui_log w'
            = (shown ++ [ConsoleWarn ("Failed to cleanup temp directory: " ++ tempDir)])%list)
    /\ (forall e w2,
          _executeCommand env ["edit"; tempDir; "--user_prompt"; dquote ++ request ++ dquote] w1
          = (Throw e, w2) ->
          r = Throw e)
    /\ (forall result w2,
          _executeCommand env ["edit"; tempDir; "--user_prompt"; dquote ++ request ++ dquote] w1
          = (Ok result, w2) ->
          match fst (_handleEditResults env tempDir contextFiles w2) with
          | Ok _ => r = Ok result
          | Throw e => r = Throw e
          end)
    /\ exists w2,
         (let* result :=
            _executeCommand env ["edit"; tempDir; "--user_prompt"; dquote ++ request ++ dquote] in
          _handleEditResults env tempDir contextFiles ;; ret result) w1
         = (r, w2)
         /\ (fault env (io_log w ++ staged ++ during)%list (IoRm tempDir) = None ->
             w' = set_fs (Fs.rm_rf (Path.segments tempDir) (fs w2)) (log_io (IoRm tempDir) w2))
         /\ (forall message,
               fault env (io_log w ++ staged ++ during)%list (IoRm tempDir) = Some message ->
               w' = log_ui (ConsoleWarn ("Failed to cleanup temp directory: " ++ tempDir))
                      (log_io (IoRm tempDir) w2)).
Proof.
  pose proof (createTempContext_name env _ _ _ _ Hstaged) as Hname.
  destruct (appends__createTempContext env contextFiles w) as (staged & Es & Fs).
  rewrite Hstaged in Es. simpl in Es.
  set (call := _executeCommand env
                 ["edit"; tempDir; "--user_prompt"; dquote ++ request ++ dquote]).
  set (body := bind call
                 (fun result => bind (_handleEditResults env tempDir contextFiles)
                                  (fun _ => ret result))).
  assert (Hbody : appends no_rm body).
  { apply appends_bind; [apply appends__executeCommand | intros result].
    apply appends_bind; [apply appends__handleEditResults | intros _; apply appends_ret]. }
  destruct (Hbody w1) as (during & Ed & Fd).
  destruct (body w1) as [r w2] eqn:Hrun. simpl in Ed.
  assert (Hthrown : forall e w2', call w1 = (Throw e, w2') -> r = Throw e).
  { intros e w2' Hcall. unfold body, bind in Hrun. rewrite Hcall in Hrun. congruence. }
  assert (Hreturned : forall result w2',
            call w1 = (Ok result, w2') ->
            match fst (_handleEditResults env tempDir contextFiles w2') with
            | Ok _ => r = Ok result
            | Throw e => r = Throw e
            end).
  { intros result w2' Hcall. unfold body, bind in Hrun. rewrite Hcall in Hrun.
    destruct (_handleEditResults env tempDir contextFiles w2') as [[[] | e] w3];
      simpl; unfold ret in Hrun; congruence. }
  assert (Hlog : io_log w2 = (io_log w ++ staged ++ during)%list)
    by (rewrite Ed, Es, app_assoc; reflexivity).
  assert (Hpe : processEdit env request contextFiles w
                = try_finally body (_cleanupTempDir env tempDir) w1).
  { unfold processEdit. destruct contextFiles; [congruence |].
    simpl. unfold bind at 1. rewrite Hstaged. reflexivity. }
  unfold try_finally in Hpe. rewrite Hrun in Hpe.
  unfold _cleanupTempDir, try_catch, Host.fs_rm, Host.perform, Host.console_warn,
    Host.show in Hpe.
  rewrite Hlog in Hpe.
  assert (Hcount : List.length
                     (List.filter (is_rm tempDir) (staged ++ during ++ [IoRm tempDir])) = 1).
  { rewrite !List.filter_app, !filter_is_rm_no_rm by assumption.
    simpl. now rewrite String.eqb_refl. }
  destruct (fault env (io_log w ++ staged ++ during)%list (IoRm tempDir)) as [message |] eqn:Hf;
    simpl in Hpe;
    (eexists r, _, staged, during; split; [exact Hpe |]);
    (split; [exact Hname |]); (split; [exact Es |]);
    (split; [simpl; rewrite Hlog; now rewrite <- !app_assoc |]);
    (split; [exact Fs |]); (split; [exact Fd |]); (split; [exact Hcount |]).
  - rewrite Hf. split; [discriminate |].
    split; [intros message' _; eexists; reflexivity |].
    split; [exact Hthrown |]. split; [exact Hreturned |].
    exists w2. split; [reflexivity |]. split; [discriminate | reflexivity].
  - rewrite Hf. split.
    { intros _. unfold Fs.exists_at. simpl. rewrite lookup_rm_rf; [reflexivity |].
      rewrite Hname. apply staging_dir_segments. }
    split; [discriminate |].
    split; [exact Hthrown |]. split; [exact Hreturned |].
    exists w2. split; [reflexivity |]. split; [reflexivity | discriminate].
Qed.

End Cleanup.

Section CleanupExamples.
Import CodeForgeService.

Lemma processEdit_removes_staging_dir_witness :
  [Scenario.file_a] <> []
  /\ (exists w',
        processEdit Scenario.plain "fix" [Scenario.file_a] (Scenario.world []) = (Ok "ok", w')
        /\ Fs.exists_at (staging_dir Scenario.plain (Scenario.world [])) (fs w') = false)
  /\ (exists w' shown,
        processEdit Scenario.rm_throws "fix" [Scenario.file_a] (Scenario.world [])
        = (Ok "ok", w')
        /\ ui_log w'
           = (shown ++ [ConsoleWarn "Failed to cleanup temp directory: /tmp/codeforgex-17"])%list).
Proof.
  assert (Hfiles : [Scenario.file_a] <> []) by discriminate.
  split; [exact Hfiles |]. split.
  - destruct (_createTempContext Scenario.plain [Scenario.file_a] (Scenario.world []))
      as [[tempDir | e] w1] eqn:Hstaged; [| vm_compute in Hstaged; discriminate].
    destruct (processEdit_removes_staging_dir Scenario.plain "fix" _ _ _ _ Hfiles Hstaged)
      as (r & w' & staged & during & Hpe & Hname & _ & _ & _ & _ & _ & Hgone & _ & _
          & Hreturned & _).
    pose proof Hstaged as Hvalues. vm_compute in Hvalues. injection Hvalues as <- <-.
    specialize (Hreturned "ok" _ ltac:(cbv; reflexivity)). vm_compute in Hreturned.
    exists w'. rewrite Hpe, Hreturned. split; [reflexivity |].
    apply Hgone. reflexivity.
  - destruct (_createTempContext Scenario.rm_throws [Scenario.file_a] (Scenario.world []))
      as [[tempDir | e] w1] eqn:Hstaged; [| vm_compute in Hstaged; discriminate].
    destruct (processEdit_removes_staging_dir Scenario.rm_throws "fix" _ _ _ _ Hfiles Hstaged)
      as (r & w' & staged & during & Hpe & Hname & _ & _ & _ & _ & _ & _ & Hwarned & _
          & Hreturned & _).
    pose proof Hstaged as Hvalues. vm_compute in Hvalues. injection Hvalues as <- <-.
    specialize (Hreturned "ok" _ ltac:(cbv; reflexivity)). vm_compute in Hreturned.
    destruct (Hwarned "EPERM: operation not permitted, rm" eq_refl) as (shown & Hshown).
    exists w', shown. rewrite Hpe, Hreturned. split; [reflexivity | exact Hshown].
Defined.

(** C1, as the spec states it, fails: when the removal throws, the error
    is caught and logged, [processEdit] returns the tool's answer, and the
    staging directory is still on disk. *)
Lemma processEdit_staging_dir_can_remain :
  exists cp w0 w' shown,
    ContextProvider.execute_all Scenario.rm_throws
      [ContextProvider.AddFile Scenario.a_ts] ContextProvider.init Scenario.two_documents
    = (Ok cp, w0)
    /\ processEdit Scenario.rm_throws "fix" (ContextProvider.getContextFiles cp) w0
       = (Ok "ok", w')
    /\ Fs.exists_at (staging_dir Scenario.rm_throws w0) (fs w') = true
    /\ ui_log w'
       = (shown ++ [ConsoleWarn "Failed to cleanup temp directory: /tmp/codeforgex-17"])%list.
Proof.
  do 3 eexists. exists [TreeDataChanged; InformationMessage "Added a.ts to context" []].
  split; [vm_compute; reflexivity |].
  split; [vm_compute; reflexivity |].
  split; vm_compute; reflexivity.
Qed.

(** Outside what C1 covers: when staging itself throws (here the second
    file needs a directory where the first file was just written), the
    error leaves [processEdit] before its [try], no removal is requested
    and the staging directory stays. *)
Lemma processEdit_staging_failure_leaves_dir :
  exists cp w0 message w',
    ContextProvider.execute_all Scenario.plain
      [ContextProvider.AddFile Scenario.elsewhere_a; ContextProvider.AddFile Scenario.w_a_b]
      ContextProvider.init Scenario.clashing_documents
    = (Ok cp, w0)
    /\ List.map relativePath (ContextProvider.getContextFiles cp) = ["a"; "a/b"]
    /\ processEdit Scenario.plain "fix" (ContextProvider.getContextFiles cp) w0
       = (Throw (ErrorObj message), w')
    /\ Fs.exists_at (staging_dir Scenario.plain w0) (fs w') = true
    /\ List.filter (is_rm (staging_dir Scenario.plain w0)) (io_log w') = [].
Proof.
  do 4 eexists.
  split; [vm_compute; reflexivity |].
  split; [vm_compute; reflexivity |].
  split; [vm_compute; reflexivity |].
  split; vm_compute; reflexivity.
Qed.

End CleanupExamples.

(* --------------------------------------------------------------------- *)
(** ** The empty context, and files with empty content                    *)
(* --------------------------------------------------------------------- *)

Section Preconditions.
Import CodeForgeService.

(** C4: [processEdit] on the active files of a context set that has none
    (the set may still track inactive files) throws the error for an empty
    context (in the code an [Error] with a fixed message, thrown by the
    first statement) and leaves the world exactly as it was: nothing is
    added to the log of host requests (no directory made, no file read or
    written, no process run), the file tree and the documents are the
    same, and nothing is shown. *)
Theorem processEdit_empty_context
    (env : Env) (request : string) (cp : ContextProvider.t) (w : World)
    (Hempty : ContextProvider.getContextFiles cp = []) :
  processEdit env request (ContextProvider.getContextFiles cp) w
  = (Throw no_files_error, w)
  /\ forall r w',
       processEdit env request (ContextProvider.getContextFiles cp) w = (r, w') ->
       io_log w' = io_log w /\ fs w' = fs w /\ documents w' = documents w
       /\ ui_log w' = ui_log w.
Proof.
  rewrite Hempty. split; [reflexivity |].
  intros r w' H. vm_compute in H. injection H as _ <-. auto.
Qed.

Lemma processEdit_empty_context_witness :
  exists cp w0,
    ContextProvider.execute_all Scenario.plain
      [ContextProvider.AddFile Scenario.a_ts; ContextProvider.ToggleFileActive Scenario.a_ts]
      ContextProvider.init Scenario.two_documents
    = (Ok cp, w0)
    /\ List.length (ContextProvider._contextFiles cp) = 1
    /\ ContextProvider.getContextFiles cp = []
    /\ processEdit Scenario.plain "fix" (ContextProvider.getContextFiles cp) w0
       = (Throw no_files_error, w0).
Proof.
  do 2 eexists. split; [vm_compute; reflexivity |].
  split; [reflexivity |]. split; [reflexivity |].
  refine (proj1 (processEdit_empty_context Scenario.plain "fix" _ _ _)).
  reflexivity.
Defined.

(** C4, as the spec states it, fails in one point: the error for an empty
    context has no type of its own.  It is the object [new Error(message)]
    builds, as is the error of a failed tool call, and nothing but the text
    of the message tells the two apart. *)
Lemma processEdit_empty_context_error_is_plain :
  exists w',
    processEdit Scenario.plain "fix" [] (Scenario.world [])
    = (Throw (ErrorObj "No files in context for editing. Please add files to context first."),
       Scenario.world [])
    /\ processEdit Cases.fails "fix" [Scenario.file_a] (Scenario.world [])
       = (Throw (ErrorObj ("CodeForgeAI CLI error: Command failed: "
                           ++ "codeforgeai edit /tmp/codeforgex-17 --user_prompt "
                           ++ dquote ++ "fix" ++ dquote ++ nl ++ "boom")),
          w').
Proof.
  eexists. split; [reflexivity |]. vm_compute. reflexivity.
Qed.

Lemma appends_weaken {P Q : io -> Prop} {A} (m : M A) :
  (forall e, P e -> Q e) -> appends P m -> appends Q m.
Proof.
  intros HPQ Hm w. destruct (Hm w) as (l & E & F).
  exists l. split; [exact E | eapply Forall_impl; eauto].
Qed.

Lemma appends_try_finally {P : io -> Prop} {A} (m : M A) (f : M unit) :
  appends P m -> appends P f -> appends P (try_finally m f).
Proof.
  intros Hm Hf w. unfold try_finally.
  destruct (Hm w) as (l1 & E1 & F1).
  destruct (m w) as [r w1]; simpl in *.
  destruct (Hf w1) as (l2 & E2 & F2).
  exists (l1 ++ l2)%list.
  destruct (f w1) as [[[] | e] w2]; simpl in *; rewrite E2, E1, app_assoc;
    (split; [reflexivity | apply Forall_app; auto]).
Qed.

Lemma appends__cleanupTempDir (env : Env) (dir : string) :
  appends (fun _ => True) (_cleanupTempDir env dir).
Proof.
  unfold _cleanupTempDir. apply appends_try_catch.
  - apply appends_perform; [exact I |]. apply appends_same. reflexivity.
  - intros _. apply appends_show.
Qed.

Lemma for_of_skip {A} (body : A -> M unit) (x : A) (before after : list A) :
  body x = ret tt ->
  forall w, for_of (before ++ x :: after) body w = for_of (before ++ after) body w.
Proof.
  intros Hx. induction before as [| y before IH]; intros w; simpl.
  - now rewrite Hx.
  - unfold bind. destruct (body y w) as [[[] | e] w1]; [apply IH | reflexivity].
Qed.

Lemma createTempContext_unfold (env : Env) files w :
  _createTempContext env files w
  = match Host.fs_mkdir env (staging_dir env w) w with
    | (Ok _, w1) =>
        match for_of files (stage_file env (staging_dir env w)) w1 with
        | (Ok _, w2) => (Ok (staging_dir env w), w2)
        | (Throw e, w2) => (Throw e, w2)
        end
    | (Throw e, w1) => (Throw e, w1)
    end.
Proof.
  unfold _createTempContext, Host.Date_now, staging_dir, bind, ret.
  destruct (Host.fs_mkdir env _ w) as [[[] | e] w1]; [| reflexivity].
  destruct (for_of files _ w1) as [[[] | e] w2]; reflexivity.
Qed.

Lemma processEdit_unfold (env : Env) request files w :
  files <> [] ->
  processEdit env request files w
  = match _createTempContext env files w with
    | (Ok tempDir, w1) =>
        try_finally
          (bind (_executeCommand env
                   ["edit"; tempDir; "--user_prompt"; dquote ++ request ++ dquote])
             (fun result =>
                bind (_handleEditResults env tempDir files) (fun _ => ret result)))
          (_cleanupTempDir env tempDir) w1
    | (Throw e, w1) => (Throw e, w1)
    end.
Proof.
  intros Hfiles. unfold processEdit. destruct files; [congruence |].
  simpl. unfold bind at 1. destruct (_createTempContext env _ w) as [[t | e] w1]; reflexivity.
Qed.

Lemma appends_stage_file (env : Env) dir file : appends no_rm (stage_file env dir file).
Proof.
  unfold stage_file.
  destruct (content file) as [text |]; [| apply appends_ret].
  destruct (truthy text); [| apply appends_ret].
  apply appends_bind; [apply appends_fs_mkdir | intros _; apply appends_fs_writeFile].
Qed.

(** C10: let [f] be an active tracked file whose cached content is the
    empty string or absent.  Then [getActiveContextContent] and
    [_buildContextContent] give the same text with [f] in the list as
    without it; staging the list with [f] does exactly what staging the
    list without it does (same result, same tree, same requests: no
    directory made and no file written for [f]); and yet [f] is among the
    active files handed to [processEdit], which then does not stop at its
    empty-context check: its first request to the host is the creation of
    the staging directory. *)
Theorem empty_content_file_excluded
    (env : Env) (request : string) (f : ContextFile)
    (before after : list ContextFile) (w : World)
    (Hactive : isActive f = true)
    (Hempty : truthy_opt (content f) = false) :
  ContextProvider.getActiveContextContent
    {| ContextProvider._contextFiles := (before ++ f :: after)%list |}
  = ContextProvider.getActiveContextContent
      {| ContextProvider._contextFiles := (before ++ after)%list |}
  /\ _buildContextContent (before ++ f :: after)%list
     = _buildContextContent (before ++ after)%list
  /\ _createTempContext env (before ++ f :: after)%list w
     = _createTempContext env (before ++ after)%list w
  /\ In f (ContextProvider.getContextFiles
             {| ContextProvider._contextFiles := (before ++ f :: after)%list |})
  /\ exists r w' rest,
       processEdit env request (before ++ f :: after)%list w = (r, w')
       /\ io_log w' = (io_log w ++ IoMkdir (staging_dir env w) :: rest)%list.
Proof.
  assert (Hfilter :
    List.filter (fun g => isActive g && truthy_opt (content g)) (before ++ f :: after)%list
    = List.filter (fun g => isActive g && truthy_opt (content g)) (before ++ after)%list).
  { rewrite !List.filter_app. simpl. now rewrite Hempty, andb_false_r. }
  split; [unfold ContextProvider.getActiveContextContent; simpl; now rewrite Hfilter |].
  split; [unfold _buildContextContent; now rewrite Hfilter |].
  split.
  { rewrite !createTempContext_unfold.
    destruct (Host.fs_mkdir env _ w) as [[[] | e] w1]; [| reflexivity].
    rewrite for_of_skip; [reflexivity |].
    unfold stage_file. destruct (content f) as [text |]; [| reflexivity].
    simpl in Hempty. now rewrite Hempty. }
  split.
  { unfold ContextProvider.getContextFiles. simpl.
    apply List.filter_In. split; [| exact Hactive].
    apply List.in_or_app. right. left. reflexivity. }
  rewrite processEdit_unfold by (destruct before; discriminate).
  rewrite createTempContext_unfold.
  unfold Host.fs_mkdir, Host.perform.
  destruct (fault env (io_log w) (IoMkdir (staging_dir env w))).
  { do 2 eexists. exists []. split; reflexivity. }
  destruct (Fs.mkdir_p _ _) as [tree |].
  2: { do 2 eexists. exists []. split; reflexivity. }
  set (w1 := set_fs tree (log_io (IoMkdir (staging_dir env w)) w)).
  destruct (appends_for_of (P := fun _ => True) (before ++ f :: after)%list
              (stage_file env (staging_dir env w))
              (fun file => appends_weaken _ (fun _ _ => I) (appends_stage_file env _ file))
              w1) as (l1 & E1 & _).
  destruct (for_of _ _ w1) as [[[] | e] w2]; simpl in E1.
  2: { do 2 eexists. exists l1. split; [reflexivity |].
       simpl. now rewrite E1, <- app_assoc. }
  match goal with
  | |- exists r w' rest, try_finally ?body ?fin w2 = _ /\ _ =>
      assert (Hrun : appends (fun _ => True) (try_finally body fin))
  end.
  { apply appends_try_finally; [| apply appends__cleanupTempDir].
    apply (appends_weaken (P := no_rm)); [auto |].
    apply appends_bind; [apply appends__executeCommand | intros result].
    apply appends_bind; [apply appends__handleEditResults | intros _; apply appends_ret]. }
  destruct (Hrun w2) as (l2 & E2 & _).
  match goal with
  | |- exists r w' rest, ?run = _ /\ _ =>
      exists (fst run), (snd run), (l1 ++ l2)%list; split; [now destruct run |]
  end.
  rewrite E2, E1. subst w1. simpl. now rewrite <- !app_assoc.
Qed.

End Preconditions.

Section Witnesses.
Import CodeForgeService.

Lemma empty_content_file_excluded_witness :
  isActive Scenario.file_e = true
  /\ truthy_opt (content Scenario.file_e) = false
  /\ ContextProvider.getActiveContextContent
       {| ContextProvider._contextFiles := [Scenario.file_a; Scenario.file_e] |}
     = ContextProvider.getActiveContextContent
         {| ContextProvider._contextFiles := [Scenario.file_a] |}
  /\ _createTempContext Scenario.plain [Scenario.file_a; Scenario.file_e] (Scenario.world [])
     = _createTempContext Scenario.plain [Scenario.file_a] (Scenario.world [])
  /\ exists r w' rest,
       processEdit Scenario.plain "fix" [Scenario.file_a; Scenario.file_e] (Scenario.world [])
       = (r, w')
       /\ io_log w' = IoMkdir "/tmp/codeforgex-17" :: rest.
Proof.
  split; [reflexivity |]. split; [reflexivity |].
  destruct (empty_content_file_excluded Scenario.plain "fix" Scenario.file_e
              [Scenario.file_a] [] (Scenario.world []) eq_refl eq_refl)
    as (Hblob & _ & Hstage & _ & Hrun).
  split; [exact Hblob |]. split; [exact Hstage |]. exact Hrun.
Defined.

Lemma context_set_unique_by_uri_witness :
  NoDup (uris ContextProvider.init)
  /\ exists cp w',
       ContextProvider.execute_all Scenario.plain
         [ContextProvider.AddFile Scenario.a_ts; ContextProvider.AddFile Scenario.b_ts;
          ContextProvider.AddFile Scenario.a_ts]
         ContextProvider.init Scenario.two_documents
       = (Ok cp, w')
       /\ NoDup (uris cp)
       /\ uris cp = ["file:///a.ts"; "file:///b.ts"]
       /\ ContextProvider.addFile Scenario.plain Scenario.b_ts cp w'
          = (Ok cp, log_ui (already_in_context Scenario.b_ts) w').
Proof.
  assert (H0 : NoDup (uris ContextProvider.init)) by apply NoDup_nil_2.
  split; [exact H0 |].
  destruct (context_set_unique_by_uri Scenario.plain ContextProvider.init H0
              [ContextProvider.AddFile Scenario.a_ts; ContextProvider.AddFile Scenario.b_ts;
               ContextProvider.AddFile Scenario.a_ts]
              Scenario.two_documents) as (cp & w' & Hrun & Hnd & Hadd).
  exists cp, w'. split; [exact Hrun |]. split; [exact Hnd |].
  assert (Huris : uris cp = ["file:///a.ts"; "file:///b.ts"]).
  { vm_compute in Hrun. injection Hrun as <- _. reflexivity. }
  split; [exact Huris |].
  apply Hadd. rewrite Huris. right. left. reflexivity.
Defined.

Lemma executeCommand_classification_witness :
  (exists w',
      _executeCommand Scenario.warns ["--version"] (Scenario.world [])
      = (Throw (ErrorObj "CodeForgeAI CLI error: warning: deprecated"), w'))
  /\ (exists w',
        _executeCommand Scenario.answers ["--version"] (Scenario.world [])
        = (Ok "ok", w')).
Proof.
  split.
  - destruct (executeCommand_classification Scenario.warns ["--version"] (Scenario.world []))
      as [Hrun _].
    destruct (Hrun (Exited 0 EmptyString "warning: deprecated") (fs (Scenario.world []))
                eq_refl eq_refl) as (Hfail & _).
    eexists. apply Hfail; [reflexivity | discriminate | now apply N.leb_le].
  - destruct (executeCommand_classification Scenario.answers ["--version"] (Scenario.world []))
      as [Hrun _].
    destruct (Hrun (Exited 0 "ok" "warning: deprecated") (fs (Scenario.world []))
                eq_refl eq_refl) as (_ & Hok & _).
    eexists. apply (Hok "ok" "warning: deprecated");
      [reflexivity | discriminate | now apply N.leb_le | now apply N.leb_le].
Defined.

(** C3, as the spec states it, fails: the tool exits with code 0 after
    printing one byte more than the buffer of [exec] holds, and nothing on
    stderr; the call does not return that stdout, it fails with Node's
    error about the buffer, wrapped. *)
Lemma executeCommand_large_stdout_fails :
  run_process Scenario.floods (command_line Scenario.floods ["--version"])
    (fs (Scenario.world []))
  = (Exited 0 Scenario.flood EmptyString, fs (Scenario.world []))
  /\ Scenario.flood <> EmptyString
  /\ byteLength Scenario.flood = 1048577%N
  /\ exists w',
       _executeCommand Scenario.floods ["--version"] (Scenario.world [])
       = (Throw (ErrorObj "CodeForgeAI CLI error: stdout maxBuffer length exceeded"), w')
       /\ _executeCommand Scenario.floods ["--version"] (Scenario.world [])
          <> (Ok Scenario.flood, w').
Proof.
  assert (Hlen : byteLength Scenario.flood = 1048577%N)
    by (apply byteLength_iter; reflexivity).
  split; [reflexivity |].
  split.
  { intros Hempty. rewrite Hempty in Hlen. discriminate Hlen. }
  split; [exact Hlen |].
  eexists.
  assert (Hrun : _executeCommand Scenario.floods ["--version"] (Scenario.world [])
                 = (Throw (ErrorObj "CodeForgeAI CLI error: stdout maxBuffer length exceeded"),
                    set_fs (fs (Scenario.world []))
                      (log_io (exec_request Scenario.floods ["--version"])
                         (Scenario.world [])))).
  { rewrite (executeCommand_outcome Scenario.floods ["--version"] (Scenario.world [])
               (Exited 0 Scenario.flood EmptyString) (fs (Scenario.world []))
               eq_refl eq_refl).
    rewrite Hlen. reflexivity. }
  split; [exact Hrun |]. rewrite Hrun. discriminate.
Qed.

End Witnesses.

(* --------------------------------------------------------------------- *)
(** ** Reconciliation: the apply-all run                                  *)
(* --------------------------------------------------------------------- *)

Section StringFacts.
Local Arguments String.append !_ _ / : simpl nomatch.

Lemma append_cons (c : ascii) (s t : string) : String c s ++ t = String c (s ++ t).
Proof. reflexivity. Qed.

Lemma append_empty_r (s : string) : s ++ EmptyString = s.
Proof.
  induction s as [| c s IH]; [reflexivity | now rewrite append_cons, IH].
Qed.

Lemma substring_none (s : string) (i : nat) : substring i 0 s = EmptyString.
Proof.
  revert i. induction s as [| c s IH]; intros [| i]; simpl; try reflexivity. apply IH.
Qed.

Lemma substring_all (s : string) : substring 0 (String.length s) s = s.
Proof. induction s as [| c s IH]; simpl; [reflexivity | now rewrite IH]. Qed.

Lemma substring_app_l (a b : string) : substring 0 (String.length a) (a ++ b) = a.
Proof.
  induction a as [| c a IH]; [apply substring_none |].
  rewrite append_cons. simpl. now rewrite IH.
Qed.

Lemma substring_app_r (a b : string) (n : nat) :
  substring (String.length a) n (a ++ b) = substring 0 n b.
Proof.
  induction a as [| c a IH]; [reflexivity |]. rewrite append_cons. exact IH.
Qed.

Lemma length_app (a b : string) :
  String.length (a ++ b) = String.length a + String.length b.
Proof.
  induction a as [| c a IH]; [reflexivity |]. rewrite append_cons. simpl. now rewrite IH.
Qed.

(** A string is what precedes a window, the window, and what follows it,
    when the window lies inside the string. *)
Lemma substring_split (s : string) :
  forall i n,
    String.length (substring i n s) = n ->
    s = substring 0 i s ++ substring i n s
        ++ substring (i + n) (String.length s - (i + n)) s.
Proof.
  induction s as [| c s IH]; intros i n Hlen.
  - destruct i, n; simpl in *; try reflexivity; discriminate.
  - destruct i as [| i].
    + destruct n as [| n]; simpl in *.
      * now rewrite substring_all.
      * injection Hlen as Hlen. f_equal.
        pose proof (IH 0 n Hlen) as H. simpl in H.
        now rewrite substring_none in H.
    + simpl in *. f_equal. apply IH, Hlen.
Qed.

Lemma length_substring_prefix (s : string) (i : nat) :
  i <= String.length s -> String.length (substring 0 i s) = i.
Proof.
  revert i. induction s as [| c s IH]; intros [| i] Hi; simpl in *; try reflexivity; try lia.
  f_equal. apply IH. lia.
Qed.

Lemma length_substring_le (s : string) (i n : nat) :
  String.length (substring i n s) = n -> 0 < n -> i + n <= String.length s.
Proof.
  revert i n. induction s as [| c s IH]; intros i n Hlen Hn.
  - destruct i, n; simpl in *; lia.
  - destruct i as [| i]; simpl in *.
    + destruct n as [| n]; [lia |]. simpl in Hlen. injection Hlen as Hlen.
      destruct n as [| n]; [lia |].
      pose proof (IH 0 (S n) Hlen ltac:(lia)). lia.
    + pose proof (IH i n Hlen Hn). lia.
Qed.

(** [endsWith] is the plain suffix relation on strings. *)
Lemma endsWith_suffix (s t : string) :
  endsWith s t = true <-> exists pre, s = pre ++ t.
Proof.
  unfold endsWith. split.
  - intros H. apply andb_true_iff in H. destruct H as [Hle Heq].
    apply Nat.leb_le in Hle. apply String.eqb_eq in Heq.
    exists (substring 0 (String.length s - String.length t) s).
    pose proof (substring_split s (String.length s - String.length t) (String.length t)) as H.
    rewrite Heq in H. specialize (H eq_refl).
    replace (String.length s - (String.length s - String.length t + String.length t))
      with 0 in H by lia.
    now rewrite substring_none, append_empty_r in H.
  - intros [pre ->]. rewrite length_app. apply andb_true_iff. split.
    + apply Nat.leb_le. lia.
    + replace (String.length pre + String.length t - String.length t)
        with (String.length pre) by lia.
      rewrite substring_app_r, substring_all. apply String.eqb_refl.
Qed.

(** [replace] with the empty string deletes the first occurrence of the
    pattern, wherever it is, and only that one. *)
Lemma replace_first_occurrence (pat s : string) :
  pat <> EmptyString ->
  (exists pre post,
      s = pre ++ pat ++ post
      /\ Js.replace pat EmptyString s = pre ++ post
      /\ forall p, p < String.length pre -> substring p (String.length pat) s <> pat)
  \/ (Js.replace pat EmptyString s = s
      /\ forall p, substring p (String.length pat) s <> pat).
Proof.
  intros Hpat. unfold Js.replace.
  destruct (index 0 pat s) as [i |] eqn:Hi.
  - left.
    pose proof (index_correct1 _ _ _ _ Hi) as Hat.
    assert (Hlen : String.length (substring i (String.length pat) s) = String.length pat)
      by now rewrite Hat.
    assert (Hin : i + String.length pat <= String.length s).
    { apply length_substring_le; [exact Hlen |]. destruct pat; simpl; [congruence | lia]. }
    exists (substring 0 i s),
      (substring (i + String.length pat) (String.length s - (i + String.length pat)) s).
    split; [| split].
    + pose proof (substring_split s i (String.length pat) Hlen) as H.
      now rewrite Hat in H.
    + reflexivity.
    + intros p Hp. rewrite length_substring_prefix in Hp by lia.
      apply (index_correct2 _ _ _ _ Hi); lia.
  - right. split; [reflexivity |].
    intros p. apply (index_correct3 0 p _ _ Hi Hpat). lia.
Qed.

(** When the first occurrence of the pattern is the trailing one,
    [replace] strips it. *)
Lemma replace_trailing (pat base : string) :
  index 0 pat (base ++ pat) = Some (String.length base) ->
  Js.replace pat EmptyString (base ++ pat) = base.
Proof.
  intros Hi. unfold Js.replace. rewrite Hi, substring_app_l, length_app.
  replace (String.length base + String.length pat - (String.length base + String.length pat))
    with 0 by lia.
  rewrite substring_none. simpl. apply append_empty_r.
Qed.

Lemma splice_text_whole (new text : string) :
  Host.splice_text 0 (String.length text) new text = new.
Proof.
  unfold Host.splice_text. rewrite Nat.sub_diag, !substring_none. simpl.
  apply append_empty_r.
Qed.

End StringFacts.

Section Reconciliation.
Import CodeForgeService.

Lemma sentinel_not_empty : sentinel <> EmptyString.
Proof. discriminate. Qed.

(** The file [apply_edit] selects for a sentinel path: the first one, in
    the order of the list, whose relative path ends the un-suffixed path. *)
Lemma find_first (p : ContextFile -> bool) (files : list ContextFile) (f : ContextFile) :
  List.find p files = Some f ->
  exists before after,
    files = (before ++ f :: after)%list
    /\ p f = true
    /\ forall g, In g before -> p g = false.
Proof.
  induction files as [| x files IH]; simpl; [discriminate |].
  destruct (p x) eqn:Hx.
  - intros [= <-]. exists [], files. repeat split; [exact Hx | intros g []].
  - intros Hfind. destruct (IH Hfind) as (before & after & -> & Hf & Hbefore).
    exists (x :: before), after. repeat split; [exact Hf |].
    intros g [<- | Hg]; [exact Hx | apply Hbefore, Hg].
Qed.

Lemma apply_edit_unmatched (env : Env) files editFile w :
  List.find (fun f => endsWith (Js.replace sentinel EmptyString editFile) (relativePath f)) files
  = None ->
  apply_edit env files editFile w = (Ok tt, w).
Proof. intros H. unfold apply_edit. now rewrite H. Qed.

(** Whatever happens while a sentinel is applied, only the document of
    the selected file can change. *)
Lemma apply_edit_frame (env : Env) files editFile w f :
  List.find (fun f => endsWith (Js.replace sentinel EmptyString editFile) (relativePath f)) files
  = Some f ->
  forall u, u <> uri_toString (uri f) ->
  documents (snd (apply_edit env files editFile w)) !! u = documents w !! u.
Proof.
  intros H u Hu. unfold apply_edit. rewrite H.
  unfold bind, Host.fs_readFile, Host.openTextDocument, Host.applyEdit_replace,
    Host.perform.
  repeat case_match; simplify_eq; simpl in *; try reflexivity.
  now apply lookup_insert_ne.
Qed.

(** On a host where no call throws, with the sentinel readable and the
    document open-able, the selected file's document becomes the
    sentinel's content. *)
Lemma apply_edit_matched (env : Env) files editFile w f Z T :
  (forall h op, fault env h op = None) ->
  List.find (fun f => endsWith (Js.replace sentinel EmptyString editFile) (relativePath f)) files
  = Some f ->
  Fs.lookup (Path.segments editFile) (fs w) = Some (Fs.File Z) ->
  documents w !! uri_toString (uri f) = Some T ->
  exists w',
    apply_edit env files editFile w = (Ok tt, w')
    /\ documents w' = <[uri_toString (uri f) := Z]> (documents w)
    /\ fs w' = fs w
    /\ ui_log w' = ui_log w
    /\ io_log w'
       = (io_log w ++ [IoReadFile editFile; IoOpenTextDocument (uri_toString (uri f));
                       IoApplyEdit (uri_toString (uri f)) 0 (String.length T) Z])%list.
Proof.
  intros Hquiet Hfind Hread Hdoc. unfold apply_edit. rewrite Hfind.
  unfold bind, Host.fs_readFile, Host.openTextDocument, Host.applyEdit_replace,
    Host.perform.
  rewrite !Hquiet. simpl. rewrite Hread. rewrite !Hquiet. simpl. rewrite Hdoc.
  rewrite !Hquiet. simpl. rewrite Hdoc.
  eexists. split; [reflexivity |]. simpl.
  rewrite splice_text_whole, <- !app_assoc. auto.
Qed.

(** The file found for a sentinel path is the first whose relative path is
    a tail of the un-suffixed path, and none is found only when there is no
    such file. *)
Lemma selected_spec (files : list ContextFile) (editFile : string) :
  match selected files editFile with
  | Some f => first_tail_match files (unsuffixed editFile) f
  | None => no_tail_match files (unsuffixed editFile)
  end.
Proof.
  unfold selected. destruct (List.find _ files) as [f |] eqn:Hfind.
  - destruct (find_first _ _ _ Hfind) as (before & after & Hfiles & Hf & Hbefore).
    exists before, after. split; [exact Hfiles |]. split.
    + now apply endsWith_suffix.
    + intros g Hg Hsuffix. apply endsWith_suffix in Hsuffix.
      rewrite (Hbefore g Hg) in Hsuffix. discriminate.
  - intros g Hg Hsuffix. apply endsWith_suffix in Hsuffix.
    now rewrite (List.find_none _ _ Hfind g Hg) in Hsuffix.
Qed.

Lemma first_tail_match_selected (files : list ContextFile) (editFile : string)
    (f : ContextFile) :
  first_tail_match files (unsuffixed editFile) f -> selected files editFile = Some f.
Proof.
  intros (before & after & -> & Hf & Hbefore). unfold selected.
  apply endsWith_suffix in Hf.
  induction before as [| g before IH]; simpl.
  - now rewrite Hf.
  - destruct (endsWith (unsuffixed editFile) (relativePath g)) eqn:Hg.
    + exfalso. apply (Hbefore g); [now left | now apply endsWith_suffix].
    + apply IH. intros h Hh. apply Hbefore. now right.
Qed.

Lemma no_tail_match_selected (files : list ContextFile) (editFile : string) :
  no_tail_match files (unsuffixed editFile) -> selected files editFile = None.
Proof.
  intros Hnone. pose proof (selected_spec files editFile) as Hspec.
  destruct (selected files editFile) as [f |]; [| reflexivity].
  destruct Hspec as (before & after & -> & Hf & _).
  exfalso. apply (Hnone f); [| exact Hf]. apply List.in_or_app. right. now left.
Qed.

Lemma expected_edit_In (files : list ContextFile) (tree : Fs.node) (editFile : string)
    (u Z : string) :
  In (u, Z) (expected_edit files tree editFile)
  <-> exists f,
        first_tail_match files (unsuffixed editFile) f
        /\ u = uri_toString (uri f)
        /\ Fs.lookup (Path.segments editFile) tree = Some (Fs.File Z).
Proof.
  unfold expected_edit. split.
  - pose proof (selected_spec files editFile) as Hspec.
    destruct (selected files editFile) as [f |]; [| intros []].
    destruct (Fs.lookup _ tree) as [[data | es] |]; [| intros [] | intros []].
    intros [[= <- <-] | []]. exists f. auto.
  - intros (f & Hf & -> & Hread).
    rewrite (first_tail_match_selected _ _ _ Hf), Hread. now left.
Qed.

Lemma expected_edit_length (files : list ContextFile) (tree : Fs.node) (editFile : string) :
  List.length (expected_edit files tree editFile) <= 1.
Proof.
  unfold expected_edit. destruct (selected files editFile); [| simpl; lia].
  destruct (Fs.lookup _ tree) as [[data | es] |]; simpl; lia.
Qed.

Lemma flat_map_length_le {A B} (f : A -> list B) (l : list A) :
  (forall x, List.length (f x) <= 1) -> List.length (List.flat_map f l) <= List.length l.
Proof.
  intros Hf. induction l as [| x l IH]; simpl; [lia |].
  rewrite List.length_app. pose proof (Hf x). lia.
Qed.

Lemma edits_of_app (l1 l2 : list io) : edits_of (l1 ++ l2) = (edits_of l1 ++ edits_of l2)%list.
Proof. apply List.flat_map_app. Qed.

Lemma apply_edits_app (a b : list (string * string)) (d : gmap string string) :
  apply_edits (a ++ b) d = apply_edits b (apply_edits a d).
Proof. apply List.fold_left_app. Qed.

Lemma lookup_apply_edits_other (edits : list (string * string)) (u : string) :
  ~ In u (List.map fst edits) ->
  forall d, apply_edits edits d !! u = d !! u.
Proof.
  induction edits as [| [v Z] edits IH]; intros Hu d; [reflexivity |].
  simpl in *. rewrite IH by tauto. apply lookup_insert_ne. tauto.
Qed.

Lemma lookup_apply_edits_last (l1 l2 : list (string * string)) (u Z : string)
    (d : gmap string string) :
  ~ In u (List.map fst l2) ->
  apply_edits (l1 ++ (u, Z) :: l2) d !! u = Some Z.
Proof.
  intros Hu. rewrite apply_edits_app. simpl.
  rewrite lookup_apply_edits_other by exact Hu. apply lookup_insert_eq.
Qed.

(** One turn of the loop, on any host: what it asks for, and what it
    leaves. *)
Lemma apply_edit_turn (env : Env) (files : list ContextFile) (editFile : string) (w : World) :
  exists r w' new applied pending,
    apply_edit env files editFile w = (r, w')
    /\ io_log w' = (io_log w ++ new)%list
    /\ fs w' = fs w
    /\ ui_log w' = ui_log w
    /\ edits_of new = (applied ++ pending)%list
    /\ documents w' = apply_edits applied (documents w)
    /\ match r with
       | Ok _ => pending = [] /\ applied = expected_edit files (fs w) editFile
       | Throw _ =>
           applied = []
           /\ (pending = [] \/ pending = expected_edit files (fs w) editFile)
       end.
Proof.
  unfold apply_edit, expected_edit, selected, unsuffixed.
  destruct (List.find _ files) as [f |].
  2: { exists (Ok tt), w, [], [], []. rewrite app_nil_r. repeat split; reflexivity. }
  unfold bind, Host.fs_readFile, Host.openTextDocument, Host.applyEdit_replace, Host.perform.
  destruct (fault env (io_log w) (IoReadFile editFile)).
  { eexists (Throw _), _, [IoReadFile editFile], [], [].
    repeat split; try reflexivity. now left. }
  cbn [fs log_io].
  destruct (Fs.lookup (Path.segments editFile) (fs w)) as [[Z | es] |];
    try (eexists (Throw _), _, [IoReadFile editFile], [], [];
         repeat split; try reflexivity; now left).
  cbn [io_log log_io].
  destruct (fault env (io_log w ++ [IoReadFile editFile])%list
              (IoOpenTextDocument (uri_toString (uri f)))).
  { eexists (Throw _), _, [IoReadFile editFile; IoOpenTextDocument (uri_toString (uri f))],
      [], [].
    repeat split; try reflexivity; [simpl; now rewrite <- app_assoc | now left]. }
  cbn [documents log_io].
  destruct (documents w !! uri_toString (uri f)) as [T |] eqn:Hdoc.
  2: { eexists (Throw _), _, [IoReadFile editFile; IoOpenTextDocument (uri_toString (uri f))],
         [], [].
       repeat split; try reflexivity; [simpl; now rewrite <- app_assoc | now left]. }
  cbn [io_log log_io].
  destruct (fault env _ (IoApplyEdit (uri_toString (uri f)) 0 (String.length T) Z)).
  { eexists (Throw _), _,
      [IoReadFile editFile; IoOpenTextDocument (uri_toString (uri f));
       IoApplyEdit (uri_toString (uri f)) 0 (String.length T) Z],
      [], [(uri_toString (uri f), Z)].
    repeat split; try reflexivity; [simpl; now rewrite <- !app_assoc | now right]. }
  cbn [documents log_io]. rewrite Hdoc.
  eexists (Ok tt), _,
    [IoReadFile editFile; IoOpenTextDocument (uri_toString (uri f));
     IoApplyEdit (uri_toString (uri f)) 0 (String.length T) Z],
    [(uri_toString (uri f), Z)], [].
  repeat split; try reflexivity; [simpl; now rewrite <- !app_assoc |].
  simpl. now rewrite splice_text_whole.
Qed.

(** The loop of [_applyAllEdits], on any host: the replacements it asks
    for are, in order, those the sentinel paths stand for, up to the turn
    that throws, if one does; all but the last one asked for have been made,
    and the last one too unless its turn threw. *)
Lemma apply_edits_loop (env : Env) (files : list ContextFile) (editFiles : list string) :
  forall w,
  exists r w' new applied pending rest,
    for_of editFiles (apply_edit env files) w = (r, w')
    /\ io_log w' = (io_log w ++ new)%list
    /\ fs w' = fs w
    /\ ui_log w' = ui_log w
    /\ edits_of new = (applied ++ pending)%list
    /\ List.flat_map (expected_edit files (fs w)) editFiles = (applied ++ pending ++ rest)%list
    /\ documents w' = apply_edits applied (documents w)
    /\ List.length pending <= 1
    /\ (r = Ok tt -> pending = [] /\ rest = []).
Proof.
  induction editFiles as [| editFile editFiles IH]; intros w.
  - exists (Ok tt), w, [], [], [], []. rewrite app_nil_r. simpl. repeat split; auto.
  - destruct (apply_edit_turn env files editFile w)
      as (r1 & w1 & new1 & applied1 & pending1 & Hturn & Hio1 & Hfs1 & Hui1 & Hed1 & Hdocs1
          & Hcase).
    simpl. unfold bind. rewrite Hturn.
    destruct r1 as [[] | e].
    + destruct Hcase as [-> ->].
      destruct (IH w1)
        as (r & w' & new2 & applied2 & pending2 & rest2 & Hrun & Hio & Hfs & Hui & Hed & Hall
            & Hdocs & Hlen & Hok).
      exists r, w', (new1 ++ new2)%list,
        (expected_edit files (fs w) editFile ++ applied2)%list, pending2, rest2.
      rewrite Hfs1 in *.
      split; [exact Hrun |].
      split; [rewrite Hio, Hio1; now rewrite app_assoc |].
      split; [exact Hfs |].
      split; [now rewrite Hui |].
      split; [rewrite edits_of_app, Hed1, Hed, app_nil_r; now rewrite app_assoc |].
      split; [rewrite Hall; now rewrite <- app_assoc |].
      split; [rewrite Hdocs, Hdocs1; now rewrite apply_edits_app |].
      split; [exact Hlen | exact Hok].
    + destruct Hcase as [-> Hpending].
      assert (Hlen : List.length pending1 <= 1).
      { destruct Hpending as [-> | ->]; [simpl; lia | apply expected_edit_length]. }
      destruct Hpending as [-> | ->].
      * exists (Throw e), w1, new1, [], [],
          (expected_edit files (fs w) editFile
           ++ List.flat_map (expected_edit files (fs w)) editFiles)%list.
        repeat split; auto; discriminate.
      * exists (Throw e), w1, new1, [], (expected_edit files (fs w) editFile),
          (List.flat_map (expected_edit files (fs w)) editFiles).
        repeat split; auto; discriminate.
Qed.

(** On a host where no call throws, the loop completes when the sentinel
    of every turn that finds a file can be read and that file's document
    opened. *)
Lemma apply_edits_loop_completes (env : Env) (files : list ContextFile)
    (Hquiet : forall h op, fault env h op = None) (editFiles : list string) :
  forall w,
    (forall editFile f,
        In editFile editFiles -> selected files editFile = Some f ->
        (exists Z, Fs.lookup (Path.segments editFile) (fs w) = Some (Fs.File Z))
        /\ is_Some (documents w !! uri_toString (uri f))) ->
    fst (for_of editFiles (apply_edit env files) w) = Ok tt.
Proof.
  induction editFiles as [| editFile editFiles IH]; intros w Hturns; [reflexivity |].
  simpl. unfold bind.
  destruct (selected files editFile) as [f |] eqn:Hfind.
  - destruct (Hturns editFile f ltac:(now left) Hfind) as ((Z & Hread) & (T & Hdoc)).
    destruct (apply_edit_matched env files editFile w f Z T Hquiet Hfind Hread Hdoc)
      as (w1 & Hturn & Hdocs & Hfs & _).
    rewrite Hturn. apply IH. intros e g He Hg.
    destruct (Hturns e g ltac:(now right) Hg) as (Hr & Hd).
    rewrite Hfs, Hdocs. split; [exact Hr |].
    destruct (decide (uri_toString (uri f) = uri_toString (uri g))) as [-> | Hne].
    + rewrite lookup_insert_eq. eauto.
    + now rewrite lookup_insert_ne.
  - rewrite (apply_edit_unmatched env files editFile w Hfind).
    apply IH. intros e g He Hg. apply (Hturns e g); [now right | exact Hg].
Qed.

Lemma applyAllEdits_of_loop (env : Env) (editFiles : list string) (files : list ContextFile)
    (w : World) :
  _applyAllEdits env editFiles files w
  = match for_of editFiles (apply_edit env files) w with
    | (Ok _, w') => (Ok tt, log_ui (InformationMessage "All edits applied successfully!" []) w')
    | (Throw e, w') => (Throw e, w')
    end.
Proof.
  unfold _applyAllEdits, bind.
  destruct (for_of editFiles (apply_edit env files) w) as [[[] | e] w']; reflexivity.
Qed.

Lemma expected_edits_documents (files : list ContextFile) (tree : Fs.node)
    (editFiles : list string) (u : string) :
  In u (List.map fst (List.flat_map (expected_edit files tree) editFiles)) ->
  exists editFile f,
    In editFile editFiles
    /\ first_tail_match files (unsuffixed editFile) f
    /\ u = uri_toString (uri f).
Proof.
  intros Hu. apply List.in_map_iff in Hu. destruct Hu as ([v Z] & Hv & Hin).
  simpl in Hv. subst v.
  apply List.in_flat_map in Hin. destruct Hin as (editFile & He & Hin).
  apply expected_edit_In in Hin. destruct Hin as (f & Hf & -> & _).
  exists editFile, f. auto.
Qed.

(** C9: during apply-all, on any host, the document replacements asked
    for are, in order, those the sentinel paths stand for: at most one for
    each sentinel path, none for a path that finds no tracked file, and
    otherwise the replacement of the document of the file found by the
    content of the sentinel file; they stop at the turn that throws, if one
    does.  When the run returns, all of them were asked for and made, so the
    documents are those before with these replacements made in order, and
    nothing else has changed in them.  The file found for a sentinel path is
    the first, in the order of the list, whose relative path is a plain
    string suffix of the un-suffixed path; [endsWith] is exactly the suffix
    relation on strings, with no regard for path separators.  The
    un-suffixed path is the sentinel path with the first occurrence of the
    suffix text deleted, wherever that occurrence is; it is the path itself
    if the text does not occur.  Two instances: an occurrence that is not the
    trailing one, and a tail that cuts through a file name. *)
Theorem applyAllEdits_first_match_only :
  (forall (env : Env) (files : list ContextFile) (editFiles : list string) (w : World),
      exists r w' new applied pending rest,
        _applyAllEdits env editFiles files w = (r, w')
        /\ io_log w' = (io_log w ++ new)%list
        /\ edits_of new = (applied ++ pending)%list
        /\ List.flat_map (expected_edit files (fs w)) editFiles
           = (applied ++ pending ++ rest)%list
        /\ List.length (edits_of new) <= List.length editFiles
        /\ documents w' = apply_edits applied (documents w)
        /\ List.length pending <= 1
        /\ (r = Ok tt -> pending = [] /\ rest = []))
  /\ (forall (files : list ContextFile) (tree : Fs.node) (editFile : string),
        List.length (expected_edit files tree editFile) <= 1
        /\ forall u Z,
             In (u, Z) (expected_edit files tree editFile)
             <-> exists f,
                   first_tail_match files (unsuffixed editFile) f
                   /\ u = uri_toString (uri f)
                   /\ Fs.lookup (Path.segments editFile) tree = Some (Fs.File Z))
  /\ (forall (env : Env) (files : list ContextFile) (editFile : string) (w : World),
        match selected files editFile with
        | Some f =>
            first_tail_match files (unsuffixed editFile) f
            /\ forall u, u <> uri_toString (uri f) ->
                 documents (snd (apply_edit env files editFile w)) !! u = documents w !! u
        | None =>
            no_tail_match files (unsuffixed editFile)
            /\ apply_edit env files editFile w = (Ok tt, w)
        end)
  /\ (forall s t : string, endsWith s t = true <-> exists pre, s = pre ++ t)
  /\ (forall editFile : string,
        (exists pre post,
            editFile = pre ++ sentinel ++ post
            /\ unsuffixed editFile = pre ++ post
            /\ forall p, p < String.length pre ->
                 substring p (String.length sentinel) editFile <> sentinel)
        \/ (unsuffixed editFile = editFile
            /\ forall p, substring p (String.length sentinel) editFile <> sentinel))
  /\ unsuffixed "/tmp/codeforgex-17/notes.codeforgedit.md.codeforgedit"
     = "/tmp/codeforgex-17/notes.md.codeforgedit"
  /\ endsWith "/tmp/codeforgex-17/data.ts" "a.ts" = true.
Proof.
  split; [| split; [| split; [| split; [exact endsWith_suffix | split; [| split; reflexivity]]]]].
  - intros env files editFiles w.
    destruct (apply_edits_loop env files editFiles w)
      as (r & w' & new & applied & pending & rest & Hrun & Hio & Hfs & Hui & Hed & Hall
          & Hdocs & Hlen & Hok).
    assert (Hcount : List.length (edits_of new) <= List.length editFiles).
    { pose proof (flat_map_length_le (expected_edit files (fs w)) editFiles
                    (expected_edit_length files (fs w))) as Hle.
      rewrite Hall in Hle. rewrite Hed. rewrite !List.length_app in *. lia. }
    rewrite applyAllEdits_of_loop, Hrun.
    destruct r as [[] | e].
    + exists (Ok tt), (log_ui (InformationMessage "All edits applied successfully!" []) w'),
        new, applied, pending, rest.
      repeat split; try assumption; now apply Hok.
    + exists (Throw e), w', new, applied, pending, rest.
      repeat split; try assumption; discriminate.
  - intros files tree editFile. split; [apply expected_edit_length |].
    intros u Z. apply expected_edit_In.
  - intros env files editFile w.
    pose proof (selected_spec files editFile) as Hspec.
    destruct (selected files editFile) as [f |] eqn:Hfind.
    + split; [exact Hspec |]. exact (apply_edit_frame env files editFile w f Hfind).
    + split; [exact Hspec |]. now apply apply_edit_unmatched.
  - intros editFile. apply replace_first_occurrence, sentinel_not_empty.
Qed.

(** C2, as the code has it, for an apply-all run on a host where no call
    throws, in which the sentinel of every turn that finds a file can be
    read and that file's document opened (a turn that throws ends the run).
    The run returns and shows its notice.  For each sentinel path, the
    tracked file selected is the FIRST one, in set order, whose stored
    relative path is a tail of the un-suffixed path, which is the sentinel
    path without its suffix when the suffix text occurs in it at the end
    only.  After the run the document of a selected file holds, as its
    entire text, the content of the last sentinel that selected it; no other
    document has changed, and the file tree is as it was.  A sentinel path
    for which no tracked file's relative path is a tail is skipped: the run
    is the run without it. *)
Theorem applyAllEdits_replaces_first_tail_matches
    (env : Env) (files : list ContextFile) (editFiles : list string) (w : World)
    (Hquiet : forall h op, fault env h op = None)
    (Hturns : forall editFile f,
        In editFile editFiles -> first_tail_match files (unsuffixed editFile) f ->
        (exists Z, Fs.lookup (Path.segments editFile) (fs w) = Some (Fs.File Z))
        /\ is_Some (documents w !! uri_toString (uri f))) :
  exists w',
    _applyAllEdits env editFiles files w = (Ok tt, w')
    /\ fs w' = fs w
    /\ ui_log w' = (ui_log w ++ [InformationMessage "All edits applied successfully!" []])%list
    /\ (forall base,
          index 0 sentinel (base ++ sentinel) = Some (String.length base) ->
          unsuffixed (base ++ sentinel) = base)
    /\ (forall earlier editFile later f Z,
          editFiles = (earlier ++ editFile :: later)%list ->
          first_tail_match files (unsuffixed editFile) f ->
          Fs.lookup (Path.segments editFile) (fs w) = Some (Fs.File Z) ->
          (forall e g, In e later -> first_tail_match files (unsuffixed e) g ->
                       uri_toString (uri g) <> uri_toString (uri f)) ->
          documents w' !! uri_toString (uri f) = Some Z)
    /\ (forall u,
          (forall editFile f,
              In editFile editFiles -> first_tail_match files (unsuffixed editFile) f ->
              uri_toString (uri f) <> u) ->
          documents w' !! u = documents w !! u)
    /\ (forall earlier editFile later w0,
          no_tail_match files (unsuffixed editFile) ->
          _applyAllEdits env (earlier ++ editFile :: later) files w0
          = _applyAllEdits env (earlier ++ later) files w0).
Proof.
  destruct (apply_edits_loop env files editFiles w)
    as (r & w' & new & applied & pending & rest & Hrun & Hio & Hfs & Hui & Hed & Hall
        & Hdocs & Hlen & Hok).
  assert (Hr : r = Ok tt).
  { pose proof (apply_edits_loop_completes env files Hquiet editFiles w) as Hdone.
    rewrite Hrun in Hdone. apply Hdone. intros editFile f He Hf.
    apply (Hturns editFile f He).
    pose proof (selected_spec files editFile) as Hspec. now rewrite Hf in Hspec. }
  subst r. destruct (Hok eq_refl) as [-> ->]. rewrite !app_nil_r in *. subst applied.
  exists (log_ui (InformationMessage "All edits applied successfully!" []) w').
  split; [now rewrite applyAllEdits_of_loop, Hrun |].
  split; [exact Hfs |].
  split; [simpl; now rewrite Hui |].
  split; [intros base Hbase; now apply replace_trailing |].
  split; [| split].
  - intros earlier editFile later f Z -> Hf Hread Hlater. simpl. rewrite Hdocs.
    rewrite List.flat_map_app. simpl.
    assert (Hthis : expected_edit files (fs w) editFile = [(uri_toString (uri f), Z)]).
    { unfold expected_edit. now rewrite (first_tail_match_selected _ _ _ Hf), Hread. }
    rewrite Hthis. simpl. apply lookup_apply_edits_last.
    intros Hin. apply expected_edits_documents in Hin.
    destruct Hin as (e & g & He & Hg & Hsame). now apply (Hlater e g He Hg).
  - intros u Hu. simpl. rewrite Hdocs. apply lookup_apply_edits_other.
    intros Hin. apply expected_edits_documents in Hin.
    destruct Hin as (e & g & He & Hg & ->). now apply (Hu e g He Hg).
  - intros earlier editFile later w0 Hnone. unfold _applyAllEdits, bind.
    rewrite for_of_skip; [reflexivity |].
    unfold apply_edit. fold (unsuffixed editFile). fold (selected files editFile).
    now rewrite (no_tail_match_selected _ _ Hnone).
Qed.

End Reconciliation.

Section ReconciliationExamples.
Import CodeForgeService.

Lemma applyAllEdits_replaces_first_tail_matches_witness :
  (forall h op, fault Scenario.plain h op = None)
  /\ exists w',
       _applyAllEdits Scenario.plain
         ["/tmp/codeforgex-17/a.ts.codeforgedit"; "/tmp/codeforgex-17/new.ts.codeforgedit";
          "/tmp/codeforgex-17/b.ts.codeforgedit"]
         [Scenario.file_a; Scenario.file_b] Scenario.reconciling_three
       = (Ok tt, w')
       /\ documents w' !! "file:///a.ts" = Some "Z"
       /\ documents w' !! "file:///b.ts" = Some "Y"
       /\ fs w' = fs Scenario.reconciling_three.
Proof.
  assert (Hquiet : forall h op, fault Scenario.plain h op = None) by reflexivity.
  split; [exact Hquiet |].
  destruct (applyAllEdits_replaces_first_tail_matches Scenario.plain
              [Scenario.file_a; Scenario.file_b]
              ["/tmp/codeforgex-17/a.ts.codeforgedit"; "/tmp/codeforgex-17/new.ts.codeforgedit";
               "/tmp/codeforgex-17/b.ts.codeforgedit"]
              Scenario.reconciling_three Hquiet)
    as (w' & Hrun & Hfs & _ & _ & Hlast & _).
  { intros editFile f [<- | [<- | [<- | []]]] Hf;
      apply first_tail_match_selected in Hf; vm_compute in Hf;
      [injection Hf as <- | discriminate Hf | injection Hf as <-];
      (split; [eexists; reflexivity | eexists; reflexivity]). }
  exists w'. split; [exact Hrun |]. split; [| split; [| exact Hfs]].
  - apply (Hlast [] "/tmp/codeforgex-17/a.ts.codeforgedit"
             ["/tmp/codeforgex-17/new.ts.codeforgedit"; "/tmp/codeforgex-17/b.ts.codeforgedit"]
             Scenario.file_a "Z" eq_refl
             (selected_spec [Scenario.file_a; Scenario.file_b]
                "/tmp/codeforgex-17/a.ts.codeforgedit")
             eq_refl).
    intros e g [<- | [<- | []]] Hg; apply first_tail_match_selected in Hg;
      vm_compute in Hg; [discriminate Hg | injection Hg as <-; discriminate].
  - apply (Hlast ["/tmp/codeforgex-17/a.ts.codeforgedit";
                  "/tmp/codeforgex-17/new.ts.codeforgedit"]
             "/tmp/codeforgex-17/b.ts.codeforgedit" [] Scenario.file_b "Y" eq_refl
             (selected_spec [Scenario.file_a; Scenario.file_b]
                "/tmp/codeforgex-17/b.ts.codeforgedit")
             eq_refl).
    intros e g [].
Defined.

(** C2, as the spec states it, fails: with [a.ts] and [src/a.ts] both
    tracked (in that order), the tool rewrites the staged copy of
    [src/a.ts] and the user applies all; the sentinel
    [src/a.ts.codeforgedit] is read, and its content replaces the document
    of [a.ts], whose relative path is also a tail of the un-suffixed path
    and comes first; the document of [src/a.ts] keeps its text. *)
Lemma apply_all_can_overwrite_another_document :
  exists cp w0 w',
    ContextProvider.execute_all Scenario.edits_src_a
      [ContextProvider.AddFile Scenario.w_a_ts; ContextProvider.AddFile Scenario.w_src_a_ts]
      ContextProvider.init Scenario.two_a_documents
    = (Ok cp, w0)
    /\ List.map relativePath (ContextProvider.getContextFiles cp) = ["a.ts"; "src/a.ts"]
    /\ processEdit Scenario.edits_src_a "fix" (ContextProvider.getContextFiles cp) w0
       = (Ok "ok", w')
    /\ In (IoReadFile "/tmp/codeforgex-17/src/a.ts.codeforgedit") (io_log w')
    /\ documents w0 !! "file:///w/src/a.ts" = Some "nested"
    /\ documents w' !! "file:///w/src/a.ts" = Some "nested"
    /\ documents w0 !! "file:///w/a.ts" = Some "root"
    /\ documents w' !! "file:///w/a.ts" = Some "Z".
Proof.
  do 3 eexists.
  split; [vm_compute; reflexivity |].
  split; [vm_compute; reflexivity |].
  split; [vm_compute; reflexivity |].
  split; [vm_compute; tauto |].
  repeat split; vm_compute; reflexivity.
Qed.

Lemma applyAllEdits_first_match_only_witness :
  exists w' new,
    _applyAllEdits Scenario.plain
      ["/tmp/codeforgex-17/a.ts.codeforgedit"; "/tmp/codeforgex-17/new.ts.codeforgedit";
       "/tmp/codeforgex-17/b.ts.codeforgedit"]
      [Scenario.file_a; Scenario.file_b] Scenario.reconciling_three
    = (Ok tt, w')
    /\ io_log w' = (io_log Scenario.reconciling_three ++ new)%list
    /\ edits_of new = [("file:///a.ts", "Z"); ("file:///b.ts", "Y")]
    /\ documents w'
       = apply_edits [("file:///a.ts", "Z"); ("file:///b.ts", "Y")]
           (documents Scenario.reconciling_three).
Proof.
  destruct applyAllEdits_first_match_only as (Hruns & _).
  destruct (Hruns Scenario.plain [Scenario.file_a; Scenario.file_b]
              ["/tmp/codeforgex-17/a.ts.codeforgedit"; "/tmp/codeforgex-17/new.ts.codeforgedit";
               "/tmp/codeforgex-17/b.ts.codeforgedit"]
              Scenario.reconciling_three)
    as (r & w' & new & applied & pending & rest & Hrun & Hio & Hed & Hall & _ & Hdocs & _ & Hok).
  assert (Hr : r = Ok tt).
  { pose proof Hrun as Hvalues. vm_compute in Hvalues. now injection Hvalues as <- _. }
  subst r. destruct (Hok eq_refl) as [-> ->]. rewrite !app_nil_r in *.
  assert (Happlied : applied = [("file:///a.ts", "Z"); ("file:///b.ts", "Y")])
    by (rewrite <- Hall; reflexivity).
  subst applied. exists w', new. auto.
Defined.

Lemma getContextFiles_only_active_witness :
  exists cp w',
    ContextProvider.execute_all Scenario.plain
      [ContextProvider.AddFile Scenario.a_ts; ContextProvider.AddFile Scenario.b_ts;
       ContextProvider.ToggleFileActive Scenario.a_ts]
      ContextProvider.init Scenario.two_documents
    = (Ok cp, w')
    /\ List.map relativePath (ContextProvider._contextFiles cp) = ["a.ts"; "b.ts"]
    /\ List.map relativePath (ContextProvider.getContextFiles cp) = ["b.ts"]
    /\ forall f, In f (ContextProvider.getContextFiles cp) -> isActive f = true.
Proof.
  destruct (getContextFiles_only_active Scenario.plain
              [ContextProvider.AddFile Scenario.a_ts; ContextProvider.AddFile Scenario.b_ts;
               ContextProvider.ToggleFileActive Scenario.a_ts]
              ContextProvider.init Scenario.two_documents)
    as (cp & w' & Hrun & _ & _ & Hiff & _).
  exists cp, w'. split; [exact Hrun |].
  assert (Hcp : ContextProvider._contextFiles cp
                = [ContextProvider.flip Scenario.file_a; Scenario.file_b])
    by (vm_compute in Hrun; injection Hrun as <- _; reflexivity).
  split; [now rewrite Hcp |].
  split; [unfold ContextProvider.getContextFiles; now rewrite Hcp |].
  intros f Hf. now apply Hiff in Hf.
Defined.

End ReconciliationExamples.

(* ===================================================================== *)
(** * Further properties                                                  *)
(* ===================================================================== *)

(* --------------------------------------------------------------------- *)
(** ** Repeated mode switches                                             *)
(* --------------------------------------------------------------------- *)

Section ModeSwitches.
Import ModeManager.

Lemma switchMode_notifies (mm : t) (w : World) :
  switchMode mm w
  = (Ok {| _currentMode := next_in_order (_currentMode mm) |},
     log_ui (InformationMessage
               ("Switched to " ++ toUpperCase (mode_value (next_in_order (_currentMode mm)))
                ++ " mode") [])
       (log_ui (ModeChanged (next_in_order (_currentMode mm))) w)).
Proof. destruct mm as [[]]; reflexivity. Qed.

Lemma iter_next_three (m : ExtensionMode) : Nat.iter 3 next_in_order m = m.
Proof. destruct m; reflexivity. Qed.

Lemma iter_next_rounds (q r : nat) (m : ExtensionMode) :
  Nat.iter (q * 3 + r) next_in_order m = Nat.iter r next_in_order m.
Proof.
  induction q as [| q IH]; [reflexivity |].
  replace (S q * 3 + r) with (3 + (q * 3 + r)) by lia.
  change (Nat.iter (3 + (q * 3 + r)) next_in_order m)
    with (Nat.iter 3 next_in_order (Nat.iter (q * 3 + r) next_in_order m)).
  now rewrite iter_next_three.
Qed.

Lemma iter_next_mod (n : nat) (m : ExtensionMode) :
  Nat.iter n next_in_order m = Nat.iter (n mod 3) next_in_order m.
Proof.
  etransitivity; [| apply (iter_next_rounds (n / 3) (n mod 3) m)].
  f_equal. pose proof (Nat.div_mod_eq n 3). lia.
Qed.

Lemma iter_next_period (n : nat) (m : ExtensionMode) :
  Nat.iter n next_in_order m = m <-> n mod 3 = 0.
Proof.
  rewrite iter_next_mod.
  pose proof (Nat.mod_upper_bound n 3 ltac:(lia)) as Hlt.
  destruct (n mod 3) as [| [| [| k]]]; [| | | lia];
    destruct m; simpl; split; intros H; try reflexivity; try discriminate H.
Qed.

(** X1: [n] calls of [switchMode] in a row always succeed, move the mode
    [n] steps along the cycle Edit, Agent, Ask, and notify at every call
    (the no-change branch of [setMode] is never taken): the user-interface
    log grows by the [n] pairs of change event and message, in order, and no
    request is made of the host.  The mode is back where it started exactly
    when [n] is a multiple of three. *)
Theorem switch_times_cycles :
  forall (n : nat) (mm : t) (w : World),
  exists w',
    switch_times n mm w
    = (Ok {| _currentMode := Nat.iter n next_in_order (_currentMode mm) |}, w')
    /\ ui_log w' = (ui_log w ++ switch_notices n (_currentMode mm))%list
    /\ List.length (switch_notices n (_currentMode mm)) = 2 * n
    /\ io_log w' = io_log w /\ fs w' = fs w /\ documents w' = documents w
    /\ (Nat.iter n next_in_order (_currentMode mm) = _currentMode mm <-> n mod 3 = 0).
Proof.
  intros n mm w.
  cut (exists w',
         switch_times n mm w
         = (Ok {| _currentMode := Nat.iter n next_in_order (_currentMode mm) |}, w')
         /\ ui_log w' = (ui_log w ++ switch_notices n (_currentMode mm))%list
         /\ List.length (switch_notices n (_currentMode mm)) = 2 * n
         /\ io_log w' = io_log w /\ fs w' = fs w /\ documents w' = documents w).
  { intros (w' & H1 & H2 & H3 & H4 & H5 & H6). exists w'.
    repeat split; try assumption; apply iter_next_period. }
  revert mm w. induction n as [| n IH]; intros mm w.
  - exists w. destruct mm. simpl. rewrite app_nil_r. repeat split.
  - simpl switch_times. unfold bind. rewrite switchMode_notifies.
    destruct (IH {| _currentMode := next_in_order (_currentMode mm) |}
                (log_ui (InformationMessage
                           ("Switched to "
                            ++ toUpperCase (mode_value (next_in_order (_currentMode mm)))
                            ++ " mode") [])
                   (log_ui (ModeChanged (next_in_order (_currentMode mm))) w)))
      as (w' & Hrun & Hui & Hlen & Hio & Hfs & Hdocs).
    exists w'. rewrite Hrun.
    split; [now rewrite Nat.iter_succ_r |].
    split; [rewrite Hui; unfold mode_notice; simpl; now rewrite <- !app_assoc |].
    split; [simpl in *; rewrite Hlen; lia |].
    repeat split; assumption.
Qed.

End ModeSwitches.

(* --------------------------------------------------------------------- *)
(** ** Removing and toggling tracked files                                *)
(* --------------------------------------------------------------------- *)

Section TrackedFiles.
Import ContextProvider.

Lemma findIndex_absent {A} (p : A -> bool) (l : list A) :
  (forall x, In x l -> p x = false) -> findIndex p l = (-1)%Z.
Proof.
  induction l as [| x l IH]; intros H; simpl; [reflexivity |].
  rewrite (H x) by (left; reflexivity).
  rewrite IH by (intros y Hy; apply H; right; exact Hy). reflexivity.
Qed.

Lemma findIndex_first {A} (p : A -> bool) (before : list A) (x : A) (after : list A) :
  (forall y, In y before -> p y = false) -> p x = true ->
  findIndex p (before ++ x :: after) = Z.of_nat (List.length before).
Proof.
  intros Hbefore Hx. induction before as [| y before IH]; simpl.
  - now rewrite Hx.
  - rewrite (Hbefore y) by (left; reflexivity).
    rewrite IH by (intros z Hz; apply Hbefore; right; exact Hz).
    destruct (Z.ltb_spec (Z.of_nat (List.length before)) 0); lia.
Qed.

Lemma splice1_middle {A} (before : list A) (x : A) (after : list A) :
  splice1 (List.length before) (before ++ x :: after) = (before ++ after)%list.
Proof. induction before as [| y before IH]; simpl; [reflexivity | now rewrite IH]. Qed.

Lemma find_none_all (u : Uri) (l : list ContextFile) :
  List.find (same_uri u) l = None -> forall g, In g l -> same_uri u g = false.
Proof. intros H g Hg. exact (List.find_none _ _ H g Hg). Qed.

Lemma filter_keep_all {A} (p : A -> bool) (l : list A) :
  (forall x, In x l -> p x = true) -> List.filter p l = l.
Proof.
  induction l as [| x l IH]; intros H; simpl; [reflexivity |].
  rewrite (H x) by (left; reflexivity). f_equal. apply IH. intros y Hy. apply H. now right.
Qed.

(** What [removeFile] does to the array: nothing when no entry is for
    [u]; otherwise it takes out the first entry for [u]. *)
Lemma removeFile_cases (u : Uri) (cp : t) (w : World) :
  (List.find (same_uri u) (_contextFiles cp) = None /\ removeFile u cp w = (Ok cp, w))
  \/ exists before f after,
       _contextFiles cp = (before ++ f :: after)%list
       /\ same_uri u f = true
       /\ (forall g, In g before -> same_uri u g = false)
       /\ removeFile u cp w
          = (Ok {| _contextFiles := (before ++ after)%list |},
             log_ui (InformationMessage ("Removed " ++ name f ++ " from context") [])
               (log_ui TreeDataChanged w)).
Proof.
  destruct (List.find (same_uri u) (_contextFiles cp)) as [f |] eqn:Hfind.
  - right. destruct (find_first _ _ _ Hfind) as (before & after & Hfiles & Hf & Hbefore).
    exists before, f, after. repeat split; try assumption.
    unfold removeFile. rewrite Hfiles, (findIndex_first _ _ _ _ Hbefore Hf).
    rewrite Nat2Z.id, list_lookup_middle by reflexivity.
    replace (Z.of_nat (List.length before) =? -1)%Z with false by (symmetry; apply Z.eqb_neq; lia).
    simpl. now rewrite splice1_middle.
  - left. split; [reflexivity |]. unfold removeFile.
    now rewrite (findIndex_absent _ _ (find_none_all u _ Hfind)).
Qed.

(** X2: in a context set whose location references are pairwise distinct,
    [removeFile] always returns and leaves exactly the entries that are not
    for [u], in their order and with their flags; [u] is no longer tracked
    afterwards.  If [u] was not tracked the set and the world are untouched
    (nothing is shown); if it was, the set is one entry shorter and the
    tree-changed event and one "Removed" notice are all that is added to the
    world. *)
Theorem removeFile_removes_exactly
    (u : Uri) (cp : t) (w : World) (Hunique : NoDup (uris cp)) :
  exists cp' w',
    removeFile u cp w = (Ok cp', w')
    /\ _contextFiles cp'
       = List.filter (fun f => negb (same_uri u f)) (_contextFiles cp)
    /\ ~ In (uri_toString u) (uris cp')
    /\ io_log w' = io_log w /\ documents w' = documents w /\ fs w' = fs w
    /\ (~ In (uri_toString u) (uris cp) -> cp' = cp /\ w' = w)
    /\ (In (uri_toString u) (uris cp) ->
        S (List.length (_contextFiles cp')) = List.length (_contextFiles cp)
        /\ exists removed,
             In removed (_contextFiles cp)
             /\ ui_log w'
                = (ui_log w ++ [TreeDataChanged;
                                InformationMessage
                                  ("Removed " ++ name removed ++ " from context") []])%list).
Proof.
  destruct (removeFile_cases u cp w)
    as [[Hnone Hrun] | (before & f & after & Hfiles & Hf & Hbefore & Hrun)].
  - pose proof (find_same_uri_None u _ Hnone) as Habsent.
    exists cp, w. split; [exact Hrun |].
    split.
    { symmetry. apply filter_keep_all. intros g Hg.
      now rewrite (find_none_all u _ Hnone g Hg). }
    split; [exact Habsent |]. do 3 (split; [reflexivity |]).
    split; [intros _; split; reflexivity | intros Hin; contradiction].
  - assert (Hafter : forall g, In g after -> same_uri u g = false).
    { intros g Hg. destruct (same_uri u g) eqn:Hsame; [| reflexivity]. exfalso.
      unfold uris in Hunique. rewrite Hfiles, List.map_app in Hunique. simpl in Hunique.
      apply NoDup_app in Hunique. destruct Hunique as (_ & _ & Hcons).
      apply NoDup_cons in Hcons. destruct Hcons as [Hnotin _]. apply Hnotin.
      unfold same_uri in Hf, Hsame. apply String.eqb_eq in Hf, Hsame.
      rewrite Hf, <- Hsame. apply list_elem_of_In.
      apply (List.in_map (fun f => uri_toString (uri f))), Hg. }
    assert (Hfilter : List.filter (fun g => negb (same_uri u g)) (before ++ f :: after)
                      = (before ++ after)%list).
    { rewrite List.filter_app. simpl. rewrite Hf. simpl.
      rewrite !filter_keep_all; [reflexivity | |];
        intros g Hg; [rewrite (Hafter g Hg) | rewrite (Hbefore g Hg)]; reflexivity. }
    eexists _, _. split; [exact Hrun |]. simpl.
    split; [now rewrite Hfiles, Hfilter |].
    split.
    { unfold uris. simpl. rewrite List.map_app. intros Hin.
      apply List.in_app_or in Hin. destruct Hin as [Hin | Hin];
        apply List.in_map_iff in Hin; destruct Hin as (g & Hg & Hing).
      - pose proof (Hbefore g Hing) as Hfalse. unfold same_uri in Hfalse.
        rewrite Hg, String.eqb_refl in Hfalse. discriminate.
      - pose proof (Hafter g Hing) as Hfalse. unfold same_uri in Hfalse.
        rewrite Hg, String.eqb_refl in Hfalse. discriminate. }
    do 3 (split; [reflexivity |]). split.
    + intros Habsent. exfalso. apply Habsent. unfold uris. rewrite Hfiles, List.map_app.
      apply List.in_or_app. right. left. unfold same_uri in Hf. now apply String.eqb_eq in Hf.
    + intros _. split; [rewrite Hfiles, !List.length_app; simpl; lia |].
      exists f. split; [rewrite Hfiles; apply List.in_or_app; right; left; reflexivity |].
      now rewrite <- app_assoc.
Qed.

(** X3: adding a file that is not tracked, whose document can be opened,
    and removing it again gives back the context set as it was: [addFile]
    pushes one active entry holding the document's text at the end, and
    [removeFile] takes exactly that entry out. *)
Theorem addFile_then_removeFile
    (env : Env) (u : Uri) (cp : t) (w : World) (text : string)
    (Hnew : ~ In (uri_toString u) (uris cp))
    (Hopen : fault env (io_log w) (IoOpenTextDocument (uri_toString u)) = None)
    (Hdoc : documents w !! uri_toString u = Some text) :
  exists cp1 w1 w2,
    addFile env u cp w = (Ok cp1, w1)
    /\ _contextFiles cp1 = (_contextFiles cp ++ [added_entry env u text])%list
    /\ getContextFiles cp1 = (getContextFiles cp ++ [added_entry env u text])%list
    /\ removeFile u cp1 w1 = (Ok cp, w2)
    /\ documents w2 = documents w.
Proof.
  assert (Hfind : List.find (same_uri u) (_contextFiles cp) = None).
  { destruct (List.find (same_uri u) (_contextFiles cp)) as [f |] eqn:Hfind; [| reflexivity].
    exfalso. apply Hnew. destruct (find_first _ _ _ Hfind) as (b & a & Hfiles & Hf & _).
    unfold uris. rewrite Hfiles, List.map_app. apply List.in_or_app. right. left.
    unfold same_uri in Hf. now apply String.eqb_eq in Hf. }
  assert (Hadd : addFile env u cp w
                 = (Ok {| _contextFiles := (_contextFiles cp ++ [added_entry env u text])%list |},
                    log_ui (InformationMessage
                              ("Added " ++ Path.basename (fsPath u) ++ " to context") [])
                      (log_ui TreeDataChanged (log_io (IoOpenTextDocument (uri_toString u)) w)))).
  { unfold addFile. rewrite Hfind. unfold Host.openTextDocument, Host.perform. run_host.
    rewrite Hopen. simpl. rewrite Hdoc. reflexivity. }
  destruct (removeFile_cases u
              {| _contextFiles := (_contextFiles cp ++ [added_entry env u text])%list |}
              (log_ui (InformationMessage
                         ("Added " ++ Path.basename (fsPath u) ++ " to context") [])
                 (log_ui TreeDataChanged (log_io (IoOpenTextDocument (uri_toString u)) w))))
    as [[Hnone _] | (before & f & after & Hfiles & Hf & Hbefore & Hrun)].
  - exfalso. simpl in Hnone.
    pose proof (List.find_none _ _ Hnone (added_entry env u text)
                  ltac:(apply List.in_or_app; right; left; reflexivity)) as Hfalse.
    unfold same_uri in Hfalse. simpl in Hfalse. rewrite String.eqb_refl in Hfalse. discriminate.
  - simpl in Hfiles.
    assert (Hshape : before = _contextFiles cp /\ after = []).
    { destruct after as [| g after].
      - apply app_inj_tail in Hfiles. destruct Hfiles as [-> _]. auto.
      - exfalso.
        assert (Hin : In f (_contextFiles cp)).
        { assert (Hlast : (_contextFiles cp ++ [added_entry env u text])%list
                          = ((before ++ f :: removelast (g :: after))
                             ++ [List.last (g :: after) f])%list).
          { rewrite Hfiles, <- app_assoc. f_equal. simpl app. f_equal.
            apply (@app_removelast_last _ (g :: after) f). discriminate. }
          apply app_inj_tail in Hlast. destruct Hlast as [-> _].
          apply List.in_or_app. right. left. reflexivity. }
        pose proof (find_none_all u _ Hfind f Hin). congruence. }
    destruct Hshape as [-> ->].
    do 3 eexists. split; [exact Hadd |]. split; [reflexivity |].
    split.
    { unfold getContextFiles. simpl. now rewrite List.filter_app. }
    split; [rewrite Hrun, app_nil_r; destruct cp; reflexivity | reflexivity].
Qed.

End TrackedFiles.

Section Preserving.
Context {X : Type} (view : World -> X).

Lemma preserves_ret {A} (a : A) : preserves view (ret a).
Proof. intros w. reflexivity. Qed.

Lemma preserves_throw {A} (e : thrown) : preserves view (@throw A e).
Proof. intros w. reflexivity. Qed.

Lemma preserves_bind {A B} (m : M A) (k : A -> M B) :
  preserves view m -> (forall a, preserves view (k a)) -> preserves view (bind m k).
Proof.
  intros Hm Hk w. unfold bind. specialize (Hm w).
  destruct (m w) as [[a | e] w1]; simpl in *; [| exact Hm].
  now rewrite (Hk a w1).
Qed.

Lemma preserves_try_catch {A} (m : M A) (h : thrown -> M A) :
  preserves view m -> (forall e, preserves view (h e)) -> preserves view (try_catch m h).
Proof.
  intros Hm Hh w. unfold try_catch. specialize (Hm w).
  destruct (m w) as [[a | e] w1]; simpl in *; [exact Hm |].
  now rewrite (Hh e w1).
Qed.

Lemma preserves_try_finally {A} (m : M A) (f : M unit) :
  preserves view m -> preserves view f -> preserves view (try_finally m f).
Proof.
  intros Hm Hf w. unfold try_finally. specialize (Hm w).
  destruct (m w) as [r w1]; simpl in *. specialize (Hf w1).
  destruct (f w1) as [[[] | e] w2]; simpl in *; congruence.
Qed.

Lemma preserves_for_of {A} (l : list A) (body : A -> M unit) :
  (forall x, preserves view (body x)) -> preserves view (for_of l body).
Proof.
  intros Hbody. induction l as [| x l IH]; simpl.
  - apply preserves_ret.
  - apply preserves_bind; [apply Hbody | intros _; exact IH].
Qed.

Lemma preserves_fold_of {A S} (body : A -> S -> M S) (l : list A) :
  Forall (fun x => forall s, preserves view (body x s)) l ->
  forall s, preserves view (fold_of body l s).
Proof.
  induction 1 as [| x l Hx _ IH]; intros s; simpl.
  - apply preserves_ret.
  - apply preserves_bind; [apply Hx | exact IH].
Qed.

Lemma preserves_perform {A} (env : Env) (op : io) (run : M A) :
  (forall w, view (log_io op w) = view w) ->
  preserves view run -> preserves view (Host.perform env op run).
Proof.
  intros Hlog Hrun w. unfold Host.perform.
  destruct (fault env (io_log w) op); simpl; [apply Hlog |].
  now rewrite Hrun, Hlog.
Qed.

End Preserving.

(** The parts of the pipeline that never touch a live document. *)
Section DocumentsUntouched.
Import CodeForgeService.
Variable env : Env.

Ltac untouched :=
  apply preserves_perform; [reflexivity |]; intros w; simpl; repeat case_match; reflexivity.

Lemma docs_show (e : ui) : preserves documents (Host.show e).
Proof. intros w. reflexivity. Qed.

Lemma docs_fs_mkdir p : preserves documents (Host.fs_mkdir env p).
Proof. untouched. Qed.

Lemma docs_fs_writeFile p data : preserves documents (Host.fs_writeFile env p data).
Proof. untouched. Qed.

Lemma docs_fs_readFile p : preserves documents (Host.fs_readFile env p).
Proof. untouched. Qed.

Lemma docs_fs_rm p : preserves documents (Host.fs_rm env p).
Proof. untouched. Qed.

Lemma docs_execAsync c t d : preserves documents (Host.execAsync env c t d).
Proof. untouched. Qed.

Lemma docs_openTextDocument u : preserves documents (Host.openTextDocument env u).
Proof. untouched. Qed.

Lemma docs__createTempContext files : preserves documents (_createTempContext env files).
Proof.
  unfold _createTempContext.
  apply preserves_bind; [intros w; reflexivity | intros now].
  apply preserves_bind; [apply docs_fs_mkdir | intros _].
  apply preserves_bind; [| intros _; apply preserves_ret].
  apply preserves_for_of. intros file. unfold stage_file.
  destruct (content file) as [text |]; [| apply preserves_ret].
  destruct (truthy text); [| apply preserves_ret].
  apply preserves_bind; [apply docs_fs_mkdir | intros _; apply docs_fs_writeFile].
Qed.

Lemma docs__executeCommand args : preserves documents (_executeCommand env args).
Proof.
  unfold _executeCommand. apply preserves_try_catch.
  - apply preserves_bind; [apply docs_execAsync | intros [stdout stderr]].
    destruct (_ && _); [apply preserves_throw | apply preserves_ret].
  - intros [message |]; apply preserves_throw.
Qed.

Lemma docs_traverse n : forall dir acc, preserves documents (traverse env dir n acc).
Proof.
  induction n as [data | entries IH] using node_nested_ind; intros dir acc; simpl.
  - apply preserves_perform; [reflexivity | apply preserves_throw].
  - apply preserves_perform; [reflexivity |].
    apply preserves_fold_of.
    eapply Forall_impl; [exact IH |].
    intros [k c] Hc s. simpl in *.
    destruct c as [data | es]; [destruct (endsWith k sentinel); apply preserves_ret | apply Hc].
Qed.

Lemma docs__findEditFiles dir : preserves documents (_findEditFiles env dir).
Proof.
  intros w. unfold _findEditFiles. destruct (Fs.lookup _ _).
  - apply docs_traverse.
  - apply preserves_perform; [reflexivity | apply preserves_throw].
Qed.

Lemma docs__cleanupTempDir dir : preserves documents (_cleanupTempDir env dir).
Proof.
  unfold _cleanupTempDir. apply preserves_try_catch; [apply docs_fs_rm |].
  intros _. apply docs_show.
Qed.

Lemma docs_addFile u cp : preserves documents (ContextProvider.addFile env u cp).
Proof.
  unfold ContextProvider.addFile. destruct (List.find _ _).
  - apply preserves_bind; [apply docs_show | intros _; apply preserves_ret].
  - apply preserves_bind.
    + apply preserves_try_catch.
      * apply preserves_bind; [apply docs_openTextDocument | intros text; apply preserves_ret].
      * intros e. apply preserves_bind; [apply docs_show | intros _; apply preserves_ret].
    + intros [text |]; [| apply preserves_ret].
      apply preserves_bind; [apply docs_show | intros _].
      apply preserves_bind; [apply docs_show | intros _; apply preserves_ret].
Qed.

End DocumentsUntouched.

Section Toggling.
Import ContextProvider.

Lemma flip_first_middle (u : Uri) (before : list ContextFile) (f : ContextFile)
    (after : list ContextFile) :
  (forall g, In g before -> same_uri u g = false) -> same_uri u f = true ->
  flip_first u (before ++ f :: after) = (before ++ flip f :: after)%list.
Proof.
  intros Hbefore Hf. induction before as [| g before IH]; simpl.
  - now rewrite Hf.
  - rewrite (Hbefore g) by (left; reflexivity). f_equal.
    apply IH. intros h Hh. apply Hbefore. now right.
Qed.

Lemma find_middle (u : Uri) (before : list ContextFile) (f : ContextFile)
    (after : list ContextFile) :
  (forall g, In g before -> same_uri u g = false) -> same_uri u f = true ->
  List.find (same_uri u) (before ++ f :: after) = Some f.
Proof.
  intros Hbefore Hf. induction before as [| g before IH]; simpl.
  - now rewrite Hf.
  - rewrite (Hbefore g) by (left; reflexivity).
    apply IH. intros h Hh. apply Hbefore. now right.
Qed.

Lemma flip_flip (f : ContextFile) : flip (flip f) = f.
Proof. destruct f. unfold flip. simpl. now rewrite negb_involutive. Qed.

(** X4: when the first entry for [u] is [f], [toggleFileActive] replaces
    it by [f] with its flag negated, leaves every other entry (and the
    order) as it is, and fires the tree-changed event, nothing else; the
    active files then are those before, without [f] if it was active and
    with it, at its place, if it was not. *)
Theorem toggleFileActive_flips_one
    (u : Uri) (cp : t) (w : World)
    (before : list ContextFile) (f : ContextFile) (after : list ContextFile)
    (Hfiles : _contextFiles cp = (before ++ f :: after)%list)
    (Hbefore : forall g, In g before -> same_uri u g = false)
    (Hf : same_uri u f = true) :
  toggleFileActive u cp w
  = (Ok {| _contextFiles := (before ++ flip f :: after)%list |}, log_ui TreeDataChanged w)
  /\ getContextFiles {| _contextFiles := (before ++ flip f :: after)%list |}
     = (getContextFiles {| _contextFiles := before |}
        ++ (if isActive f then [] else [flip f])
        ++ getContextFiles {| _contextFiles := after |})%list
  /\ getContextFiles cp
     = (getContextFiles {| _contextFiles := before |}
        ++ (if isActive f then [f] else [])
        ++ getContextFiles {| _contextFiles := after |})%list.
Proof.
  split; [| split].
  - unfold toggleFileActive. rewrite Hfiles, (find_middle u _ _ _ Hbefore Hf).
    run_host. now rewrite (flip_first_middle u _ _ _ Hbefore Hf).
  - unfold getContextFiles. simpl. rewrite List.filter_app. simpl.
    destruct (isActive f); reflexivity.
  - unfold getContextFiles. rewrite Hfiles, List.filter_app. simpl.
    destruct (isActive f); reflexivity.
Qed.

(** X5: [toggleFileActive] called twice for the same reference always
    gives back the context set it started from, and never changes which
    references are tracked or how many; for a reference that is not tracked
    it does nothing at all, not even a tree-changed event. *)
Theorem toggleFileActive_twice :
  forall (u : Uri) (cp : t) (w : World),
  exists cp1 w1 w2,
    toggleFileActive u cp w = (Ok cp1, w1)
    /\ toggleFileActive u cp1 w1 = (Ok cp, w2)
    /\ uris cp1 = uris cp
    /\ List.length (_contextFiles cp1) = List.length (_contextFiles cp)
    /\ (~ In (uri_toString u) (uris cp) -> cp1 = cp /\ w1 = w /\ w2 = w).
Proof.
  intros u cp w.
  destruct (List.find (same_uri u) (_contextFiles cp)) as [f |] eqn:Hfind.
  - destruct (find_first _ _ _ Hfind) as (before & after & Hfiles & Hf & Hbefore).
    assert (Hflip : same_uri u (flip f) = true) by exact Hf.
    exists {| _contextFiles := (before ++ flip f :: after)%list |}.
    do 2 eexists.
    split.
    { unfold toggleFileActive. rewrite Hfind. run_host.
      now rewrite Hfiles, (flip_first_middle u _ _ _ Hbefore Hf). }
    split.
    { unfold toggleFileActive. simpl. rewrite (find_middle u _ _ _ Hbefore Hflip).
      run_host. rewrite (flip_first_middle u _ _ _ Hbefore Hflip), flip_flip, <- Hfiles.
      destruct cp; reflexivity. }
    split; [unfold uris; simpl; now rewrite Hfiles, !List.map_app |].
    split; [simpl; now rewrite Hfiles, !List.length_app |].
    intros Habsent. exfalso. apply Habsent. unfold uris.
    rewrite Hfiles, List.map_app. apply List.in_or_app. right. left.
    unfold same_uri in Hf. now apply String.eqb_eq in Hf.
  - exists cp, w, w. unfold toggleFileActive. rewrite Hfind. repeat split; reflexivity.
Qed.

End Toggling.

Section Snapshots.
Import ContextProvider.

Lemma addFile_outcome (env : Env) (u : Uri) (cp : t) (w : World) :
  exists w',
    addFile env u cp w = (Ok cp, w')
    \/ exists text,
         documents w !! uri_toString u = Some text
         /\ addFile env u cp w
            = (Ok {| _contextFiles := (_contextFiles cp ++ [added_entry env u text])%list |},
               w').
Proof.
  unfold addFile.
  destruct (List.find (same_uri u) (_contextFiles cp)) eqn:Hfind.
  - run_host. eauto.
  - unfold Host.openTextDocument, Host.perform. run_host.
    destruct (fault env (io_log w) _); simpl; [eauto |].
    destruct (documents w !! uri_toString u) eqn:Hdoc; simpl; [| eauto].
    eexists. right. eexists. split; reflexivity.
Qed.

Lemma docs_execute (env : Env) (c : command) (cp : t) :
  preserves documents (execute env c cp).
Proof.
  destruct c as [u | u | u |]; simpl.
  - apply docs_addFile.
  - unfold removeFile. destruct (negb _); [| apply preserves_ret].
    destruct (_contextFiles cp !! _); [| apply preserves_ret].
    apply preserves_bind; [apply docs_show | intros _].
    apply preserves_bind; [apply docs_show | intros _; apply preserves_ret].
  - unfold toggleFileActive. destruct (List.find _ _); [| apply preserves_ret].
    apply preserves_bind; [apply docs_show | intros _; apply preserves_ret].
  - unfold clearContext.
    apply preserves_bind; [apply docs_show | intros _].
    apply preserves_bind; [apply docs_show | intros _; apply preserves_ret].
Qed.

Lemma flip_first_In (u : Uri) (l : list ContextFile) (g : ContextFile) :
  In g (flip_first u l) -> In g l \/ exists f, In f l /\ g = flip f.
Proof.
  induction l as [| x l IH]; simpl; [tauto |].
  destruct (same_uri u x); simpl.
  - intros [<- | Hg]; [right; exists x; auto | left; auto].
  - intros [<- | Hg]; [left; auto |].
    destruct (IH Hg) as [H | (f & Hf & ->)]; [left; auto | right; exists f; auto].
Qed.

Lemma execute_snapshots (env : Env) (c : command) (cp : t) (w : World) :
  snapshots env (documents w) cp ->
  exists cp' w',
    execute env c cp w = (Ok cp', w')
    /\ documents w' = documents w
    /\ snapshots env (documents w) cp'.
Proof.
  intros Hsnap.
  pose proof (docs_execute env c cp w) as Hdocs.
  destruct c as [u | u | u |]; simpl in *.
  - destruct (addFile_outcome env u cp w) as (w' & [H | (text & Hdoc & H)]);
      rewrite H in *; do 2 eexists; (split; [reflexivity |]); (split; [exact Hdocs |]);
      [exact Hsnap |].
    intros f Hf. simpl in Hf. apply List.in_app_or in Hf. destruct Hf as [Hf | [<- | []]].
    + apply Hsnap, Hf.
    + exists text. split; [exact Hdoc |]. repeat split.
  - destruct (removeFile_cases u cp w)
      as [[_ H] | (before & f & after & Hfiles & _ & _ & H)];
      rewrite H in *; do 2 eexists; (split; [reflexivity |]); (split; [exact Hdocs |]);
      [exact Hsnap |].
    intros g Hg. apply Hsnap. rewrite Hfiles. simpl in Hg.
    apply List.in_app_or in Hg. apply List.in_or_app.
    destruct Hg; [left | right; right]; assumption.
  - unfold toggleFileActive in *. destruct (List.find _ _); run_host;
      do 2 eexists; (split; [reflexivity |]); (split; [exact Hdocs |]); [| exact Hsnap].
    intros g Hg. simpl in Hg.
    destruct (flip_first_In u _ g Hg) as [Hin | (f & Hin & ->)]; [apply Hsnap, Hin |].
    destruct (Hsnap f Hin) as (text & Hdoc & Hsame). exists text. split; [exact Hdoc |].
    exact Hsame.
  - unfold clearContext in *. run_host.
    do 2 eexists. split; [reflexivity |]. split; [exact Hdocs |]. intros f [].
Qed.

Lemma same_entry_refl (f : ContextFile) : same_entry f f.
Proof. repeat split. Qed.

Lemma same_entry_trans (f g h : ContextFile) :
  same_entry f g -> same_entry g h -> same_entry f h.
Proof.
  intros (H1 & H2 & H3 & H4) (K1 & K2 & K3 & K4). repeat split; congruence.
Qed.

Lemma same_entry_flip (f : ContextFile) : same_entry (flip f) f.
Proof. repeat split. Qed.

(** Where the entries come from after one command: each is an entry from
    before, its flag apart, or the one entry the command added. *)
Lemma execute_origin (env : Env) (c : command) (cp : t) (w : World) :
  exists cp' w',
    execute env c cp w = (Ok cp', w')
    /\ documents w' = documents w
    /\ forall f, In f (_contextFiles cp') ->
         (exists g, In g (_contextFiles cp) /\ same_entry f g)
         \/ (c = AddFile (uri f)
             /\ exists text,
                  documents w !! uri_toString (uri f) = Some text
                  /\ f = added_entry env (uri f) text).
Proof.
  pose proof (docs_execute env c cp w) as Hdocs.
  destruct c as [u | u | u |]; simpl in *.
  - destruct (addFile_outcome env u cp w) as (w' & [H | (text & Hdoc & H)]);
      rewrite H in *; do 2 eexists; (split; [reflexivity |]); (split; [exact Hdocs |]).
    + intros f Hf. left. exists f. split; [exact Hf | apply same_entry_refl].
    + intros f Hf. simpl in Hf. apply List.in_app_or in Hf. destruct Hf as [Hf | [<- | []]].
      * left. exists f. split; [exact Hf | apply same_entry_refl].
      * right. simpl. split; [reflexivity |]. exists text. split; [exact Hdoc | reflexivity].
  - destruct (removeFile_cases u cp w)
      as [[_ H] | (before & f & after & Hfiles & _ & _ & H)];
      rewrite H in *; do 2 eexists; (split; [reflexivity |]); (split; [exact Hdocs |]);
      intros g Hg; left; exists g; (split; [| apply same_entry_refl]); [exact Hg |].
    rewrite Hfiles. simpl in Hg. apply List.in_app_or in Hg. apply List.in_or_app.
    destruct Hg; [left | right; right]; assumption.
  - unfold toggleFileActive in *. destruct (List.find _ _); run_host;
      do 2 eexists; (split; [reflexivity |]); (split; [exact Hdocs |]); intros g Hg; left.
    + simpl in Hg. destruct (flip_first_In u _ g Hg) as [Hin | (f & Hin & ->)].
      * exists g. split; [exact Hin | apply same_entry_refl].
      * exists f. split; [exact Hin | apply same_entry_flip].
    + exists g. split; [exact Hg | apply same_entry_refl].
  - unfold clearContext in *. run_host.
    do 2 eexists. split; [reflexivity |]. split; [exact Hdocs |]. intros f [].
Qed.

Lemma execute_all_origin (env : Env) (cs : list command) :
  forall (cp : t) (w : World),
  exists cp' w',
    execute_all env cs cp w = (Ok cp', w')
    /\ documents w' = documents w
    /\ forall f, In f (_contextFiles cp') ->
         (exists g, In g (_contextFiles cp) /\ same_entry f g)
         \/ (In (AddFile (uri f)) cs
             /\ exists text,
                  documents w !! uri_toString (uri f) = Some text
                  /\ same_entry f (added_entry env (uri f) text)).
Proof.
  induction cs as [| c cs IH]; intros cp w; simpl.
  - exists cp, w. split; [reflexivity |]. split; [reflexivity |].
    intros f Hf. left. exists f. split; [exact Hf | apply same_entry_refl].
  - destruct (execute_origin env c cp w) as (cp1 & w1 & H1 & Hdocs1 & Hfrom1).
    unfold bind. rewrite H1.
    destruct (IH cp1 w1) as (cp' & w' & Hrun & Hdocs & Hfrom).
    exists cp', w'. split; [exact Hrun |]. split; [now rewrite Hdocs |].
    intros f Hf. destruct (Hfrom f Hf) as [(g & Hg & Hfg) | (Hadded & text & Hdoc & Hsame)].
    + destruct (Hfrom1 g Hg) as [(h & Hh & Hgh) | (-> & text & Hdoc & Hadded)].
      * left. exists h. split; [exact Hh | exact (same_entry_trans _ _ _ Hfg Hgh)].
      * right. destruct Hfg as (Huri & Hrest). rewrite Huri.
        split; [now left |]. exists text. split; [exact Hdoc |].
        rewrite <- Hadded. repeat split; try apply Hrest. exact Huri.
    + right. split; [now right |]. exists text. split; [now rewrite <- Hdocs1 | exact Hsame].
Qed.

Lemma execute_all_snapshots (env : Env) (cs : list command) :
  forall (cp : t) (w : World),
    snapshots env (documents w) cp ->
    exists cp' w',
      execute_all env cs cp w = (Ok cp', w')
      /\ documents w' = documents w
      /\ snapshots env (documents w) cp'.
Proof.
  induction cs as [| c cs IH]; intros cp w Hstart; simpl.
  - exists cp, w. auto.
  - destruct (execute_snapshots env c cp w Hstart) as (cp1 & w1 & H1 & Hdocs1 & Hsnap1).
    unfold bind. rewrite H1. rewrite <- Hdocs1 in Hsnap1.
    destruct (IH cp1 w1 Hsnap1) as (cp' & w' & Hrun & Hdocs & Hsnap).
    exists cp', w'. split; [exact Hrun |]. rewrite Hdocs, Hdocs1 in *. auto.
Qed.

(** X6: the four context commands never edit a document, and the content
    of a tracked entry is a snapshot taken when the entry was added, never
    refreshed.  Whatever the documents hold now, after every finite sequence
    of commands each tracked entry is either an entry from before the
    sequence, with its reference, name, relative path and content exactly as
    they were (only the flag may differ), or an entry that an [addFile] of
    the sequence built from the text of its document; removing, toggling,
    clearing and adding a file that is already tracked read no document.  So
    when the entries were what [addFile] builds from the documents at the
    start, they still are at the end: none has absent content, and each has
    the name computed from its reference. *)
Theorem tracked_entries_stay_snapshots (env : Env) (cp : t) (w : World) :
  forall cs : list command,
  exists cp' w',
    execute_all env cs cp w = (Ok cp', w')
    /\ documents w' = documents w
    /\ (forall f, In f (_contextFiles cp') ->
          (exists g, In g (_contextFiles cp) /\ same_entry f g)
          \/ (In (AddFile (uri f)) cs
              /\ exists text,
                   documents w !! uri_toString (uri f) = Some text
                   /\ same_entry f (added_entry env (uri f) text)))
    /\ (snapshots env (documents w) cp ->
        snapshots env (documents w) cp'
        /\ forall f, In f (_contextFiles cp') ->
             exists text, content f = Some text
                          /\ documents w' !! uri_toString (uri f) = Some text
                          /\ name f = Path.basename (fsPath (uri f))).
Proof.
  intros cs.
  destruct (execute_all_origin env cs cp w) as (cp' & w' & Hrun & Hdocs & Hfrom).
  exists cp', w'. split; [exact Hrun |]. split; [exact Hdocs |]. split; [exact Hfrom |].
  intros Hstart.
  destruct (execute_all_snapshots env cs cp w Hstart) as (cp2 & w2 & Hrun2 & _ & Hsnap).
  rewrite Hrun in Hrun2. injection Hrun2 as <- <-.
  split; [exact Hsnap |].
  intros f Hf. destruct (Hsnap f Hf) as (text & Hdoc & _ & Hname & _ & Hcontent).
  exists text. rewrite Hdocs. auto.
Qed.

End Snapshots.

(* --------------------------------------------------------------------- *)
(** ** The calls that only query the tool                                 *)
(* --------------------------------------------------------------------- *)

Section Queries.
Import CodeForgeService CodeForgeServiceCalls.

Lemma executeCommand_single (env : Env) (args : list string) :
  single_request env (_executeCommand env args) args.
Proof.
  intros w. unfold _executeCommand, Host.execAsync, Host.perform, exec_request.
  run_host. destruct (fault env (io_log w) _); simpl; [auto |].
  destruct (run_process env _ _) as [[code stdout stderr | message] tree]; simpl; [| auto].
  destruct (Host.maxBuffer <? byteLength stdout)%N; simpl; [auto |].
  destruct (Host.maxBuffer <? byteLength stderr)%N; simpl; [auto |].
  destruct (code =? 0)%Z; simpl; [| auto].
  destruct (truthy stderr && negb (truthy stdout)); simpl; auto.
Qed.

Lemma truthy_app_l (a b : string) : truthy a = true -> truthy (a ++ b) = true.
Proof. destruct a; [discriminate | reflexivity]. Qed.

Lemma existsb_filter {A} (p : A -> bool) (l : list A) :
  List.existsb p l = match List.filter p l with [] => false | _ :: _ => true end.
Proof.
  induction l as [| x l IH]; simpl; [reflexivity |].
  destruct (p x); simpl; [reflexivity | exact IH].
Qed.

(** The context text is empty exactly when no file is both active and
    non-empty. *)
Lemma truthy_buildContextContent (files : list ContextFile) :
  truthy (_buildContextContent files)
  = List.existsb (fun f => isActive f && truthy_opt (content f)) files.
Proof.
  rewrite existsb_filter. unfold _buildContextContent.
  destruct (List.filter _ files) as [| f rest]; [reflexivity |].
  simpl List.map. unfold Js.join. simpl String.concat.
  destruct (List.map _ rest); apply truthy_app_l; reflexivity.
Qed.

Lemma filter_filter {A} (p : A -> bool) (l : list A) :
  List.filter p (List.filter p l) = List.filter p l.
Proof.
  induction l as [| x l IH]; simpl; [reflexivity |].
  destruct (p x) eqn:Hx; simpl; [rewrite Hx; now f_equal | exact IH].
Qed.

Lemma buildContextContent_filter (files : list ContextFile) :
  _buildContextContent
    (List.filter (fun f => isActive f && truthy_opt (content f)) files)
  = _buildContextContent files.
Proof. unfold _buildContextContent. now rewrite filter_filter. Qed.

Lemma processPrompt_call (env : Env) (text : string) (files : list ContextFile) :
  processPrompt env text files
  = _executeCommand env ["prompt"; dquote ++ prompt_text text files ++ dquote].
Proof. unfold processPrompt, prompt_text. now rewrite truthy_buildContextContent. Qed.

Lemma processAgent_call (env : Env) (text : string) (files : list ContextFile) :
  processAgent env text files
  = _executeCommand env ["prompt"; dquote ++ agent_text text files ++ dquote].
Proof. unfold processAgent, agent_text. now rewrite truthy_buildContextContent. Qed.

(** X7: what the tool is asked in Ask and Agent mode.  [processPrompt]
    sends the user's prompt bare when no file of the list is both active and
    non-empty, and otherwise prefixed by the context text and a "Query:"
    line; [processAgent] likewise chooses between its two wordings.  Files
    that are inactive or whose cached content is empty or absent never
    influence the call: dropping them from the list gives the same call. *)
Theorem prompt_calls :
  forall (env : Env) (text : string) (files : list ContextFile),
    processPrompt env text files
    = _executeCommand env ["prompt"; dquote ++ prompt_text text files ++ dquote]
    /\ processAgent env text files
       = _executeCommand env ["prompt"; dquote ++ agent_text text files ++ dquote]
    /\ processPrompt env text
         (List.filter (fun f => isActive f && truthy_opt (content f)) files)
       = processPrompt env text files
    /\ processAgent env text
         (List.filter (fun f => isActive f && truthy_opt (content f)) files)
       = processAgent env text files
    /\ (List.existsb (fun f => isActive f && truthy_opt (content f)) files = false ->
        processPrompt env text files
        = _executeCommand env ["prompt"; dquote ++ text ++ dquote]
        /\ processAgent env text files
           = _executeCommand env
               ["prompt"; dquote ++ "Act as a coding agent and respond to: " ++ text
                          ++ dquote]).
Proof.
  intros env text files.
  split; [apply processPrompt_call |].
  split; [apply processAgent_call |].
  split; [unfold processPrompt; now rewrite buildContextContent_filter |].
  split; [unfold processAgent; now rewrite buildContextContent_filter |].
  intros Hnone. rewrite processPrompt_call, processAgent_call.
  unfold prompt_text, agent_text. now rewrite Hnone.
Qed.

(** X8: each of the five calls that only query the tool makes exactly one
    request of the host, the run of one command line, whatever the outcome
    (also when the run throws); it creates no directory, reads and writes no
    file, shows nothing and changes no document.  [analyzeProject] treats an
    empty path like no path. *)
Theorem query_calls_single_request :
  forall env : Env,
    (forall text files,
        single_request env (processPrompt env text files)
          ["prompt"; dquote ++ prompt_text text files ++ dquote])
    /\ (forall text files,
          single_request env (processAgent env text files)
            ["prompt"; dquote ++ agent_text text files ++ dquote])
    /\ (forall filePath,
          single_request env (explainCode env filePath)
            ["explain"; dquote ++ filePath ++ dquote])
    /\ single_request env (generateCommitMessage env) ["commit-message"]
    /\ (forall path,
          truthy path = true ->
          single_request env (analyzeProject env (Some path))
            ["analyze"; dquote ++ path ++ dquote])
    /\ single_request env (analyzeProject env None) ["analyze"]
    /\ analyzeProject env (Some EmptyString) = analyzeProject env None.
Proof.
  intros env.
  split; [intros text files; rewrite processPrompt_call; apply executeCommand_single |].
  split; [intros text files; rewrite processAgent_call; apply executeCommand_single |].
  split; [intros filePath; apply executeCommand_single |].
  split; [apply executeCommand_single |].
  split.
  { intros path Hpath. unfold analyzeProject. simpl. rewrite Hpath.
    apply executeCommand_single. }
  split; [apply executeCommand_single | reflexivity].
Qed.

End Queries.

(* --------------------------------------------------------------------- *)
(** ** The edit pipeline: failures and the user's answer                  *)
(* --------------------------------------------------------------------- *)

Section PipelineOutcomes.
Import CodeForgeService.

Lemma executeCommand_throws_wrapped (env : Env) args w e w' :
  _executeCommand env args w = (Throw e, w') ->
  exists message, e = ErrorObj ("CodeForgeAI CLI error: " ++ message).
Proof.
  unfold _executeCommand, Host.execAsync, Host.perform. run_host.
  destruct (fault env (io_log w) _); simpl; [intros [= <- _]; eauto |].
  destruct (run_process env _ _) as [[code stdout stderr | message] tree]; simpl;
    [| intros [= <- _]; eauto].
  destruct (Host.maxBuffer <? byteLength stdout)%N; simpl; [intros [= <- _]; eauto |].
  destruct (Host.maxBuffer <? byteLength stderr)%N; simpl; [intros [= <- _]; eauto |].
  destruct (code =? 0)%Z; simpl; [| intros [= <- _]; eauto].
  destruct (truthy stderr && negb (truthy stdout)); simpl; [intros [= <- _]; eauto |].
  discriminate.
Qed.

Lemma ui__createTempContext (env : Env) files : preserves ui_log (_createTempContext env files).
Proof.
  unfold _createTempContext.
  apply preserves_bind; [intros w; reflexivity | intros now].
  apply preserves_bind.
  { apply preserves_perform; [reflexivity |]. intros w. simpl. now destruct (Fs.mkdir_p _ _). }
  intros _. apply preserves_bind; [| intros _; apply preserves_ret].
  apply preserves_for_of. intros file. unfold stage_file.
  destruct (content file) as [text |]; [| apply preserves_ret].
  destruct (truthy text); [| apply preserves_ret].
  apply preserves_bind; [| intros _];
    (apply preserves_perform; [reflexivity |]); intros w; simpl.
  - now destruct (Fs.mkdir_p _ _).
  - now destruct (Fs.write _ _ _).
Qed.

(** X9: when the tool call of [processEdit] fails after staging, the
    error [processEdit] throws is the gateway's error itself (its message
    starts with the gateway's prefix): the cleanup never replaces it.  No
    directory is listed, the user is asked nothing, no document changes; the
    only requests after staging are the run of the tool and the removal of
    the staging directory, and the only thing that can be added to the
    user-interface log is the warning of a failed removal. *)
Theorem processEdit_gateway_failure
    (env : Env) (request : string) (files : list ContextFile)
    (w w1 w2 : World) (tempDir : string) (e : thrown)
    (Hfiles : files <> [])
    (Hstaged : _createTempContext env files w = (Ok tempDir, w1))
    (Hfail : _executeCommand env (edit_args tempDir request) w1 = (Throw e, w2)) :
  exists w',
    processEdit env request files w = (Throw e, w')
    /\ (exists message, e = ErrorObj ("CodeForgeAI CLI error: " ++ message))
    /\ io_log w'
       = (io_log w1 ++ [exec_request env (edit_args tempDir request); IoRm tempDir])%list
    /\ documents w' = documents w
    /\ (ui_log w' = ui_log w
        \/ ui_log w'
           = (ui_log w ++ [ConsoleWarn ("Failed to cleanup temp directory: " ++ tempDir)])%list).
Proof.
  pose proof (executeCommand_throws_wrapped _ _ _ _ _ Hfail) as Hwrapped.
  pose proof (executeCommand_single env (edit_args tempDir request) w1) as (Hio & Hui & Hdocs).
  rewrite Hfail in Hio, Hui, Hdocs. simpl in Hio, Hui, Hdocs.
  pose proof (docs__createTempContext env files w) as Hdocs1.
  pose proof (ui__createTempContext env files w) as Hui1.
  rewrite Hstaged in Hdocs1, Hui1. simpl in Hdocs1, Hui1.
  rewrite processEdit_unfold, Hstaged by exact Hfiles.
  unfold try_finally, bind. fold (edit_args tempDir request). rewrite Hfail.
  unfold _cleanupTempDir, try_catch, Host.fs_rm, Host.perform, Host.console_warn, Host.show.
  destruct (fault env (io_log w2) (IoRm tempDir)); simpl;
    eexists; (split; [reflexivity |]); (split; [exact Hwrapped |]); simpl;
    (split; [rewrite Hio, <- app_assoc; reflexivity |]);
    (split; [congruence |]).
  - right. congruence.
  - left. congruence.
Qed.

Lemma docs__handleEditResults (env : Env) dir files :
  never_applies env -> preserves documents (_handleEditResults env dir files).
Proof.
  intros Hnever w. unfold _handleEditResults, bind.
  pose proof (docs__findEditFiles env dir w) as Hfind.
  destruct (_findEditFiles env dir w) as [[found | e] w1]; simpl in *; [| exact Hfind].
  destruct (0 <? List.length found)%nat; [| exact Hfind].
  unfold Host.askInformationMessage, Host.show, bind, ret. simpl.
  rewrite Hnever. destruct (chose _ "Review Each"); simpl; exact Hfind.
Qed.

(** X10: unless the user answers "Apply All", an Edit invocation changes
    no live document, whatever the tool wrote and whatever fails: on a host
    where that answer is never given (the user cancels, asks for the review,
    or dismisses the prompt), the documents after [processEdit] are the
    documents before it. *)
Theorem processEdit_documents_need_apply_all
    (env : Env) (Hnever : never_applies env) :
  forall (request : string) (files : list ContextFile) (w : World),
    documents (snd (processEdit env request files w)) = documents w.
Proof.
  intros request files. change (preserves documents (processEdit env request files)).
  unfold processEdit. destruct (List.length files =? 0)%nat; [apply preserves_throw |].
  apply preserves_bind; [apply docs__createTempContext | intros tempDir].
  apply preserves_try_finally; [| apply docs__cleanupTempDir].
  apply preserves_bind; [apply docs__executeCommand | intros result].
  apply preserves_bind; [apply docs__handleEditResults, Hnever | intros _; apply preserves_ret].
Qed.

Lemma for_of_stops {A} (body : A -> M unit) (before : list A) (x : A) (after : list A)
    (w w1 w2 : World) (e : thrown) :
  for_of before body w = (Ok tt, w1) ->
  body x w1 = (Throw e, w2) ->
  for_of (before ++ x :: after) body w = (Throw e, w2).
Proof.
  revert w. induction before as [| y before IH]; intros w Hbefore Hx; simpl in *.
  - injection Hbefore as <-. unfold bind. now rewrite Hx.
  - unfold bind in *. destruct (body y w) as [[[] | e'] w']; [| discriminate].
    now apply IH.
Qed.

(** X11: the apply-all loop stops at the first sentinel whose turn throws
    (the sentinel cannot be read, or the document cannot be opened): the
    error leaves [_applyAllEdits] with the world as that turn left it, so the
    sentinels after it are not applied, although those before it were, and
    the success notice is not shown. *)
Theorem applyAllEdits_stops_at_first_failure
    (env : Env) (files : list ContextFile)
    (before : list string) (failing : string) (after : list string)
    (w w1 w2 : World) (e : thrown)
    (Hbefore : for_of before (apply_edit env files) w = (Ok tt, w1))
    (Hfailing : apply_edit env files failing w1 = (Throw e, w2)) :
  _applyAllEdits env (before ++ failing :: after) files w = (Throw e, w2).
Proof.
  unfold _applyAllEdits, bind.
  now rewrite (for_of_stops _ _ _ _ _ _ _ _ Hbefore Hfailing).
Qed.

(** X12: when no discovered sentinel matches a tracked file (none of the
    relative paths is a tail of its un-suffixed path), [_applyAllEdits]
    makes no request of the host and changes nothing, and still shows the
    notice that all edits were applied. *)
Theorem applyAllEdits_nothing_matched
    (env : Env) (editFiles : list string) (files : list ContextFile) (w : World)
    (Hnone : forall editFile, In editFile editFiles ->
               List.find (fun f => endsWith (Js.replace sentinel EmptyString editFile)
                                     (relativePath f)) files = None) :
  _applyAllEdits env editFiles files w
  = (Ok tt, log_ui (InformationMessage "All edits applied successfully!" []) w).
Proof.
  assert (Hloop : for_of editFiles (apply_edit env files) w = (Ok tt, w)).
  { induction editFiles as [| editFile editFiles IH]; [reflexivity |].
    simpl. unfold bind, apply_edit at 1.
    rewrite (Hnone editFile) by (left; reflexivity). simpl.
    apply IH. intros p Hp. apply Hnone. now right. }
  unfold _applyAllEdits, bind. now rewrite Hloop.
Qed.

End PipelineOutcomes.

(* --------------------------------------------------------------------- *)
(** ** Discovery of the sentinel files                                    *)
(* --------------------------------------------------------------------- *)

Section Discovery.
Import CodeForgeService.
Local Arguments String.append !_ _ / : simpl nomatch.

Lemma append_assoc3 (a b c : string) : (a ++ b) ++ c = a ++ (b ++ c).
Proof. induction a as [| x a IH]; simpl; [reflexivity | now rewrite IH]. Qed.

Lemma more_io_nil (w : World) : more_io [] w = w.
Proof. destruct w. unfold more_io. simpl. now rewrite app_nil_r. Qed.

Lemma more_io_more (l1 l2 : list io) (w : World) :
  more_io l2 (more_io l1 w) = more_io (l1 ++ l2) w.
Proof. unfold more_io. simpl. now rewrite app_assoc. Qed.

Lemma fold_of_cons {A S} (body : A -> S -> M S) (x : A) (l : list A) (s : S) (w : World) :
  fold_of body (x :: l) s w
  = match body x s w with
    | (Ok s', w') => fold_of body l s' w'
    | (Throw e, w') => (Throw e, w')
    end.
Proof. reflexivity. Qed.

(** On a host where no call throws, [traverse] on a directory lists that
    directory and every directory below it, in the order of
    [directory_paths], and returns what it was given followed by the
    sentinel files of the tree. *)
Lemma traverse_quiet (env : Env) (Hquiet : quiet env) (n : Fs.node) :
  forall dir acc w,
    match n with
    | Fs.File _ => True
    | Fs.Dir _ =>
        traverse env dir n acc w
        = (Ok (acc ++ sentinels_in dir n)%list,
           more_io (List.map IoReaddir (directory_paths dir n)) w)
    end.
Proof.
  induction n as [data | entries IH] using node_nested_ind; intros dir acc w; [exact I |].
  set (body := fun (entry : string * Fs.node) =>
                 let '(entry_name, child) := entry in
                 fun editFiles : list string =>
                 let fullPath := Path.join dir entry_name in
                 match child with
                 | Fs.Dir _ => traverse env fullPath child editFiles
                 | Fs.File _ =>
                     if endsWith entry_name sentinel
                     then ret (editFiles ++ [fullPath])%list
                     else ret editFiles
                 end).
  set (below := fun es : list (string * Fs.node) =>
                  List.flat_map
                    (fun '(entry_name, child) =>
                       directory_paths (Path.join dir entry_name) child) es).
  assert (Hloop : forall acc w,
    fold_of body entries acc w
    = (Ok (acc ++ sentinels_in dir (Fs.Dir entries))%list,
       more_io (List.map IoReaddir (below entries)) w)).
  { clear acc w. induction IH as [| [k c] entries Hc _ IHentries]; intros acc w.
    - simpl. now rewrite app_nil_r, more_io_nil.
    - rewrite fold_of_cons. destruct c as [data | es].
      + change (body (k, Fs.File data) acc w)
          with ((if endsWith k sentinel
                 then ret (acc ++ [Path.join dir k])%list else ret acc) w).
        change (below ((k, Fs.File data) :: entries)) with (below entries).
        destruct (endsWith k sentinel) eqn:Hk; unfold ret at 1; cbv beta iota;
          rewrite IHentries; simpl; rewrite Hk; [now rewrite <- app_assoc | reflexivity].
      + change (body (k, Fs.Dir es) acc w)
          with (traverse env (Path.join dir k) (Fs.Dir es) acc w).
        change (below ((k, Fs.Dir es) :: entries))
          with (directory_paths (Path.join dir k) (Fs.Dir es) ++ below entries)%list.
        cbn [snd] in Hc. rewrite (Hc (Path.join dir k) acc w), IHentries, more_io_more.
        rewrite List.map_app. simpl. now rewrite <- app_assoc. }
  change (traverse env dir (Fs.Dir entries) acc w)
    with (Host.perform env (IoReaddir dir) (fold_of body entries acc) w).
  change (directory_paths dir (Fs.Dir entries)) with (dir :: below entries).
  unfold Host.perform. rewrite Hquiet, Hloop.
  f_equal. unfold more_io, log_io. simpl. now rewrite <- app_assoc.
Qed.

Lemma get_In (k : string) (es : list (string * Fs.node)) (c : Fs.node) :
  Fs.get k es = Some c -> In (k, c) es.
Proof.
  induction es as [| [k' c'] es IH]; simpl; [discriminate |].
  destruct (String.eqb_spec k' k) as [-> | Hne]; [intros [= ->]; now left | right; auto].
Qed.

Lemma directory_paths_length (n : Fs.node) :
  forall dir, List.length (directory_paths dir n) = directories n.
Proof.
  induction n as [data | entries IH] using node_nested_ind; intros dir; [reflexivity |].
  simpl. f_equal.
  induction IH as [| [k c] entries Hc _ IHentries]; [reflexivity |].
  simpl in *. now rewrite List.length_app, Hc, IHentries.
Qed.

Lemma distinct_get (es : list (string * Fs.node)) (k : string) (c : Fs.node) :
  distinct (List.map fst es) = true -> In (k, c) es -> Fs.get k es = Some c.
Proof.
  induction es as [| [k' c'] es IH]; intros Hd Hin; [destruct Hin |].
  simpl in *. apply andb_true_iff in Hd. destruct Hd as [Hfresh Hd].
  destruct Hin as [[= -> ->] | Hin]; [now rewrite String.eqb_refl |].
  destruct (String.eqb_spec k' k) as [-> | Hne]; [| now apply IH].
  exfalso. apply negb_true_iff in Hfresh.
  assert (Hex : List.existsb (String.eqb k) (List.map fst es) = true).
  { apply List.existsb_exists. exists k. split; [| apply String.eqb_refl].
    apply List.in_map_iff. now exists (k, c). }
  congruence.
Qed.

Lemma unique_names_child (es : list (string * Fs.node)) (k : string) (c : Fs.node) :
  unique_names (Fs.Dir es) = true -> In (k, c) es ->
  unique_names c = true /\ Fs.get k es = Some c.
Proof.
  intros Hnames Hin. simpl in Hnames. apply andb_true_iff in Hnames.
  destruct Hnames as [Hd Hall]. split; [| now apply distinct_get].
  rewrite List.forallb_forall in Hall. exact (Hall (k, c) Hin).
Qed.

Lemma directory_paths_complete (segs : list string) :
  forall n dir es,
    Fs.lookup segs n = Some (Fs.Dir es) ->
    In (path_under dir segs) (directory_paths dir n).
Proof.
  induction segs as [| s segs IH]; intros n dir es Hlookup.
  - simpl in Hlookup. injection Hlookup as ->. now left.
  - destruct n as [d | es0]; simpl in Hlookup; [discriminate |].
    destruct (Fs.get s es0) as [c |] eqn:Hget; [| discriminate].
    apply get_In in Hget. simpl. right. apply List.in_flat_map.
    exists (s, c). split; [exact Hget |]. exact (IH c (Path.join dir s) es Hlookup).
Qed.

Lemma directory_paths_sound (n : Fs.node) :
  forall dir p,
    unique_names n = true ->
    In p (directory_paths dir n) ->
    exists segs es, Fs.lookup segs n = Some (Fs.Dir es) /\ p = path_under dir segs.
Proof.
  induction n as [data | entries IH] using node_nested_ind; intros dir p Hnames Hp;
    [destruct Hp |].
  simpl in Hp. destruct Hp as [<- | Hp].
  - exists [], entries. split; reflexivity.
  - apply List.in_flat_map in Hp. destruct Hp as ([k c] & Hin & Hp).
    destruct (unique_names_child entries k c Hnames Hin) as [Hc Hget].
    rewrite Forall_forall in IH.
    destruct (IH (k, c) ltac:(now apply list_elem_of_In) (Path.join dir k) p Hc Hp)
      as (segs & es & Hlookup & ->).
    exists (k :: segs), es. split; [| reflexivity].
    simpl. rewrite Hget. exact Hlookup.
Qed.

Lemma sentinels_in_regular (n : Fs.node) :
  forall dir p,
    unique_names n = true ->
    In p (sentinels_in dir n) ->
    exists segs name data,
      Fs.lookup (segs ++ [name]) n = Some (Fs.File data)
      /\ endsWith name sentinel = true
      /\ p = path_under dir (segs ++ [name]).
Proof.
  induction n as [data | entries IH] using node_nested_ind; intros dir p Hnames Hp;
    [destruct Hp |].
  simpl in Hp. apply List.in_flat_map in Hp. destruct Hp as ([k c] & Hin & Hp).
  destruct (unique_names_child entries k c Hnames Hin) as [Hc Hget].
  rewrite Forall_forall in IH.
  destruct c as [data | es].
  - destruct (endsWith k sentinel) eqn:Hk; [| destruct Hp].
    destruct Hp as [<- | []]. exists [], k, data.
    split; [simpl; now rewrite Hget | split; [exact Hk | reflexivity]].
  - destruct (IH (k, Fs.Dir es) ltac:(now apply list_elem_of_In) (Path.join dir k) p Hc Hp)
      as (segs & name & data & Hlookup & Hname & ->).
    exists (k :: segs), name, data.
    split; [simpl; rewrite Hget; exact Hlookup | split; [exact Hname | reflexivity]].
Qed.

Lemma endsWith_join (dir k : string) :
  endsWith k sentinel = true -> endsWith (Path.join dir k) sentinel = true.
Proof.
  intros H. apply endsWith_suffix in H. destruct H as [pre ->].
  apply endsWith_suffix. exists (dir ++ "/" ++ pre). unfold Path.join.
  now rewrite !append_assoc3.
Qed.

Lemma sentinels_in_sound (n : Fs.node) :
  forall dir p, In p (sentinels_in dir n) ->
    endsWith p sentinel = true /\ exists rest, p = dir ++ "/" ++ rest.
Proof.
  induction n as [data | entries IH] using node_nested_ind; intros dir p Hp; [destruct Hp |].
  simpl in Hp. apply List.in_flat_map in Hp. destruct Hp as ([k c] & Hin & Hp).
  rewrite Forall_forall in IH.
  destruct c as [data | es].
  - destruct (endsWith k sentinel) eqn:Hk; [| destruct Hp].
    destruct Hp as [<- | []]. split; [now apply endsWith_join | now exists k].
  - destruct (IH (k, Fs.Dir es) ltac:(now apply list_elem_of_In) (Path.join dir k) p Hp)
      as (Hends & rest & ->).
    split; [exact Hends |]. exists (k ++ "/" ++ rest). unfold Path.join.
    now rewrite !append_assoc3.
Qed.

Lemma sentinels_in_complete (segs : list string) :
  forall n dir name data,
    Fs.lookup (segs ++ [name]) n = Some (Fs.File data) ->
    endsWith name sentinel = true ->
    In (path_under dir (segs ++ [name])) (sentinels_in dir n).
Proof.
  induction segs as [| s segs IH]; intros n dir name data Hlookup Hname;
    destruct n as [d | es]; simpl in Hlookup; try discriminate;
    destruct (Fs.get _ es) as [c |] eqn:Hget; try discriminate;
    apply get_In in Hget; simpl; apply List.in_flat_map; eexists; (split; [exact Hget |]).
  - injection Hlookup as ->. simpl. rewrite Hname. now left.
  - destruct c as [d | es'].
    + destruct segs; simpl in Hlookup; discriminate.
    + unfold path_under. simpl. apply (IH (Fs.Dir es') (Path.join dir s) name data Hlookup Hname).
Qed.

(** X13: on a host where no call throws, [_findEditFiles] on an existing
    directory whose tree has, as on disk, different names for the entries of
    each directory, returns, and does nothing but list directories (the
    tree, the documents and what was shown are unchanged).  The directories
    it lists are exactly the directories of the tree, the given one
    included, and it makes as many listings as the tree has directories.
    The paths it returns are exactly the paths of the regular files of the
    tree, at any depth, whose name ends with the sentinel suffix: a
    directory with such a name is listed, not returned.  Every path returned
    lies below the given directory and ends with the suffix. *)
Theorem findEditFiles_finds_every_sentinel
    (env : Env) (dir : string) (entries : list (string * Fs.node)) (w : World)
    (Hquiet : quiet env)
    (Hdir : Fs.lookup (Path.segments dir) (fs w) = Some (Fs.Dir entries))
    (Hnames : unique_names (Fs.Dir entries) = true) :
  exists found listed,
    _findEditFiles env dir w = (Ok found, more_io (List.map IoReaddir listed) w)
    /\ List.length listed = directories (Fs.Dir entries)
    /\ (forall p,
          In p listed
          <-> exists segs es,
                Fs.lookup segs (Fs.Dir entries) = Some (Fs.Dir es)
                /\ p = path_under dir segs)
    /\ (forall p,
          In p found
          <-> exists segs name data,
                Fs.lookup (segs ++ [name]) (Fs.Dir entries) = Some (Fs.File data)
                /\ endsWith name sentinel = true
                /\ p = path_under dir (segs ++ [name]))
    /\ (forall p, In p found ->
          endsWith p sentinel = true /\ exists rest, p = dir ++ "/" ++ rest).
Proof.
  exists (sentinels_in dir (Fs.Dir entries)), (directory_paths dir (Fs.Dir entries)).
  split.
  { unfold _findEditFiles. rewrite Hdir.
    exact (traverse_quiet env Hquiet (Fs.Dir entries) dir [] w). }
  split; [apply directory_paths_length |].
  split; [| split; [| apply sentinels_in_sound]].
  - intros p. split.
    + now apply directory_paths_sound.
    + intros (segs & es & Hlookup & ->). exact (directory_paths_complete _ _ _ _ Hlookup).
  - intros p. split.
    + now apply sentinels_in_regular.
    + intros (segs & name & data & Hlookup & Hname & ->).
      exact (sentinels_in_complete _ _ _ _ _ Hlookup Hname).
Qed.

End Discovery.

(* --------------------------------------------------------------------- *)
(** ** Staging: what the tool is given to see                             *)
(* --------------------------------------------------------------------- *)

Section Staging.
Import CodeForgeService.
Local Arguments String.append !_ _ / : simpl nomatch.

Lemma segments_from_join (a b cur : string) :
  Path.segments_from cur (a ++ "/" ++ b)
  = (Path.segments_from cur a ++ Path.segments_from EmptyString b)%list.
Proof.
  revert cur. induction a as [| c a IH]; intros cur.
  - simpl. destruct (truthy cur); reflexivity.
  - simpl. destruct (Ascii.eqb c Path.slash); [| apply IH].
    destruct (truthy cur); simpl; now rewrite IH.
Qed.

Lemma segments_join (a b : string) :
  Path.segments (Path.join a b) = (Path.segments a ++ Path.segments b)%list.
Proof. apply segments_from_join. Qed.

Lemma get_set_other k k' v es : k' <> k -> Fs.get k (Fs.set k' v es) = Fs.get k es.
Proof.
  intros Hne. induction es as [| [k0 v0] es IH]; simpl.
  - destruct (String.eqb_spec k' k); [contradiction | reflexivity].
  - destruct (String.eqb_spec k0 k') as [-> | Hk0]; simpl.
    + destruct (String.eqb_spec k' k); [contradiction | reflexivity].
    + destruct (String.eqb_spec k0 k); [reflexivity | exact IH].
Qed.

Lemma lookup_cons s rest es :
  Fs.lookup (s :: rest) (Fs.Dir es)
  = match Fs.get s es with Some c => Fs.lookup rest c | None => None end.
Proof. reflexivity. Qed.

Lemma lookup_in_file p data d : Fs.lookup p (Fs.File data) = Some (Fs.File d) -> p = [].
Proof. destruct p; [reflexivity | discriminate]. Qed.

(** A file that was written is found with what was written. *)
Lemma lookup_write (segs : list string) :
  forall data n n', Fs.write segs data n = Some n' ->
    Fs.lookup segs n' = Some (Fs.File data).
Proof.
  induction segs as [| s rest IH]; intros data n n' H; [destruct n; discriminate |].
  destruct n as [d | es]; [destruct rest; discriminate |].
  destruct rest as [| s' rest'].
  - simpl in H. destruct (Fs.get s es) as [[d | es'] |]; try discriminate;
      injection H as <-; rewrite lookup_cons, get_set_same; reflexivity.
  - change (Fs.write (s :: s' :: rest') data (Fs.Dir es))
      with (match Fs.get s es with
            | Some c => match Fs.write (s' :: rest') data c with
                        | Some c' => Some (Fs.Dir (Fs.set s c' es))
                        | None => None
                        end
            | None => None
            end) in H.
    destruct (Fs.get s es) as [c |]; [| discriminate].
    destruct (Fs.write (s' :: rest') data c) as [c' |] eqn:Hw; [| discriminate].
    injection H as <-. rewrite lookup_cons, get_set_same. exact (IH _ _ _ Hw).
Qed.

(** Writing one file leaves the files at other paths as they were. *)
Lemma lookup_write_other (q : list string) :
  forall p data n n' d,
    Fs.write q data n = Some n' -> p <> q ->
    Fs.lookup p n = Some (Fs.File d) -> Fs.lookup p n' = Some (Fs.File d).
Proof.
  induction q as [| s rest IH]; intros p data n n' d H Hne Hp; [destruct n; discriminate |].
  destruct n as [d0 | es]; [destruct rest; discriminate |].
  destruct p as [| s0 p']; [discriminate |].
  rewrite lookup_cons in Hp.
  destruct rest as [| s' rest'].
  - simpl in H.
    destruct (String.eqb_spec s s0) as [<- | Hs].
    + destruct (Fs.get s es) as [[d1 | es1] |] eqn:Hget; try discriminate.
      apply lookup_in_file in Hp. subst p'. contradiction.
    + assert (Hset : n' = Fs.Dir (Fs.set s (Fs.File data) es))
        by (destruct (Fs.get s es) as [[d1 | es1] |]; congruence).
      subst n'. now rewrite lookup_cons, get_set_other.
  - change (Fs.write (s :: s' :: rest') data (Fs.Dir es))
      with (match Fs.get s es with
            | Some c => match Fs.write (s' :: rest') data c with
                        | Some c' => Some (Fs.Dir (Fs.set s c' es))
                        | None => None
                        end
            | None => None
            end) in H.
    destruct (Fs.get s es) as [c |] eqn:Hget; [| discriminate].
    destruct (Fs.write (s' :: rest') data c) as [c' |] eqn:Hw; [| discriminate].
    injection H as <-. rewrite lookup_cons.
    destruct (String.eqb_spec s s0) as [<- | Hs].
    + rewrite get_set_same. rewrite Hget in Hp.
      apply (IH p' data c c' d Hw); [congruence | exact Hp].
    + now rewrite get_set_other.
Qed.

(** Making directories leaves every file as it was. *)
Lemma lookup_mkdir_p (q : list string) :
  forall p n n' d,
    Fs.mkdir_p q n = Some n' ->
    Fs.lookup p n = Some (Fs.File d) -> Fs.lookup p n' = Some (Fs.File d).
Proof.
  induction q as [| s rest IH]; intros p n n' d H Hp.
  - destruct n; simpl in H; congruence.
  - destruct n as [d0 | es]; [discriminate |]. simpl in H.
    destruct (Fs.mkdir_p rest _) as [c' |] eqn:Hm; [| discriminate].
    injection H as <-.
    destruct p as [| s0 p']; [discriminate |].
    rewrite lookup_cons in *.
    destruct (String.eqb_spec s s0) as [<- | Hs].
    + rewrite get_set_same. destruct (Fs.get s es) as [c |]; [| discriminate].
      exact (IH p' c c' d Hm Hp).
    + now rewrite get_set_other.
Qed.

(** What a turn of the staging loop that returns has done. *)
Lemma stage_file_ok (env : Env) (dir : string) (g : ContextFile) (w w' : World) :
  stage_file env dir g w = (Ok tt, w') ->
  (truthy_opt (content g) = false /\ w' = w)
  \/ exists t tree1,
       content g = Some t /\ truthy t = true
       /\ Fs.mkdir_p (Path.segments (Path.dirname (Path.join dir (relativePath g)))) (fs w)
          = Some tree1
       /\ Fs.write (Path.segments (Path.join dir (relativePath g))) t tree1 = Some (fs w').
Proof.
  unfold stage_file. destruct (content g) as [t |]; [| intros [= <-]; left; auto].
  destruct (truthy t) eqn:Ht; [| intros [= <-]; left; auto].
  unfold bind, Host.fs_mkdir, Host.fs_writeFile, Host.perform.
  destruct (fault env (io_log w) _); [discriminate |]. simpl.
  destruct (Fs.mkdir_p _ (fs w)) as [tree1 |] eqn:Hm; [| discriminate]. simpl.
  destruct (fault env _ _); [discriminate |]. simpl.
  destruct (Fs.write _ t tree1) as [tree2 |] eqn:Hw; [| discriminate].
  intros [= <-]. right. exists t, tree1. simpl. auto.
Qed.

(** X14: when staging returns, each tracked file with non-empty cached
    content is in the staging tree, at the staging directory joined with its
    relative path, holding that cached content verbatim, provided the files
    of the list that are staged at the same place hold the same content (as
    they do when relative paths are distinct).  Staging changes no
    document. *)
Theorem staging_holds_cached_content
    (env : Env) (files : list ContextFile) (w w1 : World) (tempDir : string)
    (f : ContextFile) (text : string)
    (Hstaged : _createTempContext env files w = (Ok tempDir, w1))
    (Hin : In f files)
    (Hcontent : content f = Some text)
    (Htruthy : truthy text = true)
    (Hsame : forall g, In g files -> truthy_opt (content g) = true ->
               Path.segments (relativePath g) = Path.segments (relativePath f) ->
               content g = Some text) :
  Fs.lookup (Path.segments (Path.join tempDir (relativePath f))) (fs w1)
  = Some (Fs.File text)
  /\ tempDir = staging_dir env w
  /\ documents w1 = documents w.
Proof.
  pose proof (docs__createTempContext env files w) as Hdocs.
  rewrite Hstaged in Hdocs. simpl in Hdocs.
  rewrite createTempContext_unfold in Hstaged.
  destruct (Host.fs_mkdir env (staging_dir env w) w) as [[[] | e] w0]; [| discriminate].
  destruct (for_of files (stage_file env (staging_dir env w)) w0) as [[[] | e] w2] eqn:Hloop;
    [| discriminate].
  injection Hstaged as <- <-.
  split; [| split; [reflexivity | exact Hdocs]].
  set (dir := staging_dir env w) in *.
  set (target := Path.segments (Path.join dir (relativePath f))).
  assert (Hgen : forall l w0 w2,
             for_of l (stage_file env dir) w0 = (Ok tt, w2) ->
             (forall g, In g l -> truthy_opt (content g) = true ->
                        Path.segments (relativePath g) = Path.segments (relativePath f) ->
                        content g = Some text) ->
             (Fs.lookup target (fs w0) = Some (Fs.File text) \/ In f l) ->
             Fs.lookup target (fs w2) = Some (Fs.File text)).
  { clear w0 w2 Hloop Hdocs Hin Hsame.
    induction l as [| g l IH]; intros w0 w2 Hrun Hgood Hstart.
    - injection Hrun as <-. destruct Hstart as [H | []]. exact H.
    - simpl in Hrun. unfold bind in Hrun.
      destruct (stage_file env dir g w0) as [[[] | e] wg] eqn:Hg; [| discriminate].
      apply (IH wg w2 Hrun); [intros h Hh; apply Hgood; now right |].
      destruct (stage_file_ok env dir g w0 wg Hg)
        as [[Hempty ->] | (t & tree1 & Hcg & Ht & Hm & Hw)].
      + destruct Hstart as [H | [-> | Hl]]; [left; exact H | | right; exact Hl].
        rewrite Hcontent in Hempty. simpl in Hempty. congruence.
      + destruct (decide (Path.segments (relativePath g) = Path.segments (relativePath f)))
          as [Heq | Hne].
        * left. assert (Hct : content g = Some text).
          { apply Hgood; [now left | rewrite Hcg; exact Ht | exact Heq]. }
          assert (t = text) by congruence. subst t.
          unfold target. rewrite segments_join, <- Heq, <- segments_join.
          exact (lookup_write _ _ _ _ Hw).
        * destruct Hstart as [H | [-> | Hl]]; [| congruence | right; exact Hl].
          left. apply (lookup_write_other _ _ _ _ _ _ Hw).
          { unfold target. rewrite !segments_join. intros Heq.
            apply app_inv_head in Heq. congruence. }
          exact (lookup_mkdir_p _ _ _ _ _ Hm H). }
  apply (Hgen files w0 w2 Hloop Hsame). now right.
Qed.

End Staging.

(* --------------------------------------------------------------------- *)
(** ** The conversation log                                               *)
(* --------------------------------------------------------------------- *)

Section Conversation.
Import ChatProvider.

Lemma trimStart_cases (s : string) :
  (blank s = true /\ JsText.trimStart s = EmptyString)
  \/ (blank s = false
      /\ exists c t, JsText.trimStart s = String c t /\ JsText.is_white_space c = false).
Proof.
  induction s as [| c s IH]; simpl; [left; auto |].
  destruct (JsText.is_white_space c) eqn:Hc; simpl; [exact IH |].
  right. split; [reflexivity |]. exists c, s. auto.
Qed.

(** Only a string of white space is trimmed to nothing. *)
Lemma truthy_trim (s : string) : truthy (JsText.trim s) = negb (blank s).
Proof.
  unfold JsText.trim.
  destruct (trimStart_cases s) as [[-> ->] | (-> & c & t & -> & Hc)]; [reflexivity |].
  simpl. rewrite Hc. now destruct (JsText.trimEnd t).
Qed.

(** What [_handleUserMessage] does with a message that is not blank. *)
Lemma handleUserMessage_run (env : Env) (mm : ModeManager.t) (cp : ContextProvider.t)
    (message : string) (chat : t) (w : World) :
  blank message = false ->
  _handleUserMessage env mm cp message chat w
  = (Ok (_addMessage
           (reply_message env mm
              (fst (respond env (ModeManager.getCurrentMode mm) message
                      (ContextProvider.getContextFiles cp) w))
              (snd (respond env (ModeManager.getCurrentMode mm) message
                      (ContextProvider.getContextFiles cp) w)))
           (_addMessage (user_message env mm message w) chat)),
     snd (respond env (ModeManager.getCurrentMode mm) message
            (ContextProvider.getContextFiles cp) w)).
Proof.
  intros Hblank. unfold _handleUserMessage. rewrite truthy_trim, Hblank. simpl.
  unfold bind, try_catch, Host.Date_now, ret. simpl.
  destruct (respond env _ message _ w) as [[response | error] w']; reflexivity.
Qed.

Lemma addMessage_messages (m : ChatMessage) (chat : t) :
  _messages (_addMessage m chat) = (_messages chat ++ [m])%list.
Proof. unfold _addMessage, _updateWebview. simpl. now destruct (_view chat). Qed.

Lemma addMessage_view (m : ChatMessage) (chat : t) :
  _view (_addMessage m chat)
  = match _view chat with
    | Some inbox => Some (inbox ++ [UpdateMessages (_messages chat ++ [m])])%list
    | None => None
    end.
Proof. unfold _addMessage, _updateWebview. simpl. now destruct (_view chat). Qed.

(** X15: [_handleUserMessage] never throws.  A message of white space
    only is ignored: the log, the view and the world stay as they are.  Any
    other message adds exactly two entries to the log: the user's message,
    tagged with the current mode, and then either the service's answer as
    an assistant entry tagged with the mode, or, if the service call threw,
    a system entry without mode whose text is "Error: " followed by the
    error's message.  The world is left as the service call left it, and a
    resolved view is sent the whole log twice, once after each entry. *)
Theorem handleUserMessage_exchange :
  forall (env : Env) (mm : ModeManager.t) (cp : ContextProvider.t)
         (message : string) (chat : t) (w : World),
    (blank message = true ->
     _handleUserMessage env mm cp message chat w = (Ok chat, w))
    /\ (blank message = false ->
        let mode := ModeManager.getCurrentMode mm in
        let outcome := respond env mode message (ContextProvider.getContextFiles cp) w in
        let entry := user_message env mm message w in
        let reply := reply_message env mm (fst outcome) (snd outcome) in
        exists chat',
          _handleUserMessage env mm cp message chat w = (Ok chat', snd outcome)
          /\ _messages chat' = (_messages chat ++ [entry; reply])%list
          /\ _view chat'
             = match _view chat with
               | Some inbox =>
                   Some (inbox ++ [UpdateMessages (_messages chat ++ [entry]);
                                   UpdateMessages (_messages chat ++ [entry; reply])])%list
               | None => None
               end
          /\ match fst outcome with
             | Ok response =>
                 type reply = assistant /\ content reply = response
                 /\ ChatProvider.mode reply = Some mode
             | Throw error =>
                 type reply = system
                 /\ content reply
                    = "Error: " ++ ContextProvider.error_message error "Unknown error occurred"
                 /\ ChatProvider.mode reply = None
             end).
Proof.
  intros env mm cp message chat w. split.
  - intros Hblank. unfold _handleUserMessage. now rewrite truthy_trim, Hblank.
  - intros Hblank mode outcome entry reply.
    eexists. split; [apply handleUserMessage_run, Hblank |].
    split; [rewrite !addMessage_messages, <- app_assoc; reflexivity |].
    split.
    { rewrite addMessage_view, addMessage_messages, addMessage_view.
      destruct (_view chat); [| reflexivity].
      now rewrite <- !app_assoc. }
    subst reply. destruct (fst outcome); simpl; auto.
Qed.

(** X16: a message sent in Edit mode while no tracked file is active makes
    no request of the host and changes nothing in the world; the log gets
    the user's entry and a system entry saying that no files are in context
    for editing. *)
Theorem handleUserMessage_edit_without_files
    (env : Env) (mm : ModeManager.t) (cp : ContextProvider.t)
    (message : string) (chat : t) (w : World)
    (Hmessage : blank message = false)
    (Hmode : ModeManager.getCurrentMode mm = Edit)
    (Hfiles : ContextProvider.getContextFiles cp = []) :
  exists reply,
    _handleUserMessage env mm cp message chat w
    = (Ok (_addMessage reply (_addMessage (user_message env mm message w) chat)), w)
    /\ type reply = system
    /\ content reply
       = "Error: No files in context for editing. Please add files to context first."
    /\ ChatProvider.mode reply = None.
Proof.
  eexists. split.
  - rewrite (handleUserMessage_run env mm cp message chat w Hmessage).
    rewrite Hmode, Hfiles. simpl. reflexivity.
  - simpl. auto.
Qed.

(** X17: a message sent in Ask or Agent mode costs exactly one request of
    the host, the run of the tool on the prompt built from the message and
    the active files; no document changes and nothing is shown outside the
    chat.  The reply logged is what that call gave: its answer, as an
    assistant entry tagged with the mode, or, when it threw, a system entry
    without mode whose text is "Error: " followed by the gateway's message,
    which starts with "CodeForgeAI CLI error: ".  In particular, when the
    tool exits with code 0 and a non-empty stdout that the buffer holds, the
    reply is an assistant entry whose text is that stdout. *)
Theorem handleUserMessage_query_modes
    (env : Env) (mm : ModeManager.t) (cp : ContextProvider.t)
    (message : string) (chat : t) (w : World)
    (Hmessage : blank message = false)
    (Hmode : ModeManager.getCurrentMode mm <> Edit) :
  exists chat' w' reply r,
    _handleUserMessage env mm cp message chat w = (Ok chat', w')
    /\ CodeForgeService._executeCommand env
         (query_args (ModeManager.getCurrentMode mm) message
            (ContextProvider.getContextFiles cp)) w
       = (r, w')
    /\ _messages chat' = (_messages chat ++ [user_message env mm message w; reply])%list
    /\ io_log w'
       = (io_log w
          ++ [exec_request env
                (query_args (ModeManager.getCurrentMode mm) message
                   (ContextProvider.getContextFiles cp))])%list
    /\ documents w' = documents w
    /\ ui_log w' = ui_log w
    /\ match r with
       | Ok answer =>
           type reply = assistant /\ content reply = answer
           /\ ChatProvider.mode reply = Some (ModeManager.getCurrentMode mm)
       | Throw error =>
           type reply = system /\ ChatProvider.mode reply = None
           /\ exists detail,
                error = ErrorObj ("CodeForgeAI CLI error: " ++ detail)
                /\ content reply = "Error: " ++ "CodeForgeAI CLI error: " ++ detail
       end
    /\ (forall stdout stderr tree,
          fault env (io_log w)
            (exec_request env
               (query_args (ModeManager.getCurrentMode mm) message
                  (ContextProvider.getContextFiles cp))) = None ->
          run_process env
            (CodeForgeService.command_line env
               (query_args (ModeManager.getCurrentMode mm) message
                  (ContextProvider.getContextFiles cp))) (fs w)
          = (Exited 0 stdout stderr, tree) ->
          stdout <> EmptyString ->
          (byteLength stdout <= Host.maxBuffer)%N ->
          (byteLength stderr <= Host.maxBuffer)%N ->
          type reply = assistant /\ content reply = stdout).
Proof.
  pose proof (handleUserMessage_run env mm cp message chat w Hmessage) as Hrun.
  set (files := ContextProvider.getContextFiles cp) in *.
  set (args := query_args (ModeManager.getCurrentMode mm) message files).
  assert (Hcall : respond env (ModeManager.getCurrentMode mm) message files
                  = CodeForgeService._executeCommand env args).
  { subst args. destruct (ModeManager.getCurrentMode mm); [congruence | |]; simpl.
    - apply processAgent_call.
    - apply processPrompt_call. }
  rewrite Hcall in Hrun.
  destruct (executeCommand_single env args w) as (Hio & Hui & Hdocs).
  destruct (CodeForgeService._executeCommand env args w) as [r w'] eqn:Hexec.
  simpl in *.
  exists (_addMessage (reply_message env mm r w')
            (_addMessage (user_message env mm message w) chat)),
    w', (reply_message env mm r w'), r.
  split; [exact Hrun |]. split; [reflexivity |].
  split; [rewrite !addMessage_messages, <- app_assoc; reflexivity |].
  split; [exact Hio |].
  split; [exact Hdocs |]. split; [exact Hui |].
  split.
  - destruct r as [answer | error]; [repeat split |].
    split; [reflexivity |]. split; [reflexivity |].
    destruct (executeCommand_throws_wrapped env args w error w' Hexec) as (detail & ->).
    exists detail. split; reflexivity.
  - intros stdout stderr tree Hfault Hprocess Hne Hout Herr.
    rewrite (executeCommand_outcome env args w _ tree Hfault Hprocess) in Hexec.
    rewrite (within_buffer _ Hout), (within_buffer _ Herr) in Hexec. simpl in Hexec.
    rewrite (truthy_nonempty _ Hne) in Hexec. injection Hexec as <- _.
    split; reflexivity.
Qed.

End Conversation.

(* --------------------------------------------------------------------- *)
(** ** Instances of the further properties                                *)
(* --------------------------------------------------------------------- *)

Section FurtherInstances.
Import CodeForgeService CodeForgeServiceCalls.

Lemma two_tracked_unique :
  NoDup (uris (Cases.tracking [Scenario.file_a; Scenario.file_b])).
Proof.
  apply NoDup_cons. split; [| apply NoDup_singleton].
  intros H. apply list_elem_of_singleton in H. discriminate.
Qed.

Lemma removeFile_removes_exactly_witness :
  NoDup (uris (Cases.tracking [Scenario.file_a; Scenario.file_b]))
  /\ exists w',
       ContextProvider.removeFile Scenario.a_ts
         (Cases.tracking [Scenario.file_a; Scenario.file_b]) (Scenario.world [])
       = (Ok (Cases.tracking [Scenario.file_b]), w')
       /\ ui_log w'
          = [TreeDataChanged; InformationMessage "Removed a.ts from context" []].
Proof.
  split; [exact two_tracked_unique |].
  destruct (removeFile_removes_exactly Scenario.a_ts
              (Cases.tracking [Scenario.file_a; Scenario.file_b]) (Scenario.world [])
              two_tracked_unique)
    as (cp' & w' & Hrun & Hfilter & _).
  exists w'. vm_compute in Hrun. injection Hrun as <- <-. split; reflexivity.
Defined.

Lemma addFile_then_removeFile_witness :
  exists cp1 w1 w2,
    ContextProvider.addFile Scenario.plain Scenario.a_ts ContextProvider.init
      Scenario.two_documents
    = (Ok cp1, w1)
    /\ ContextProvider._contextFiles cp1 = [Scenario.file_a]
    /\ ContextProvider.removeFile Scenario.a_ts cp1 w1 = (Ok ContextProvider.init, w2).
Proof.
  destruct (addFile_then_removeFile Scenario.plain Scenario.a_ts ContextProvider.init
              Scenario.two_documents "x")
    as (cp1 & w1 & w2 & Hadd & Hfiles & _ & Hremove & _).
  - intros [].
  - reflexivity.
  - reflexivity.
  - exists cp1, w1, w2. split; [exact Hadd |]. split; [exact Hfiles | exact Hremove].
Defined.

Lemma toggleFileActive_flips_one_witness :
  ContextProvider.toggleFileActive Scenario.b_ts
    (Cases.tracking [Scenario.file_a; Scenario.file_b]) (Scenario.world [])
  = (Ok (Cases.tracking [Scenario.file_a; ContextProvider.flip Scenario.file_b]),
     log_ui TreeDataChanged (Scenario.world []))
  /\ ContextProvider.getContextFiles
       (Cases.tracking [Scenario.file_a; ContextProvider.flip Scenario.file_b])
     = [Scenario.file_a].
Proof.
  destruct (toggleFileActive_flips_one Scenario.b_ts
              (Cases.tracking [Scenario.file_a; Scenario.file_b]) (Scenario.world [])
              [Scenario.file_a] Scenario.file_b [] eq_refl)
    as (Hrun & Hactive & _).
  - intros g [<- | []]. reflexivity.
  - reflexivity.
  - split; [exact Hrun | exact Hactive].
Defined.

Lemma toggleFileActive_twice_witness :
  exists cp1 w1 w2,
    ContextProvider.toggleFileActive Scenario.a_ts
      (Cases.tracking [Scenario.file_a; Scenario.file_b]) (Scenario.world [])
    = (Ok cp1, w1)
    /\ ContextProvider.getContextFiles cp1 = [Scenario.file_b]
    /\ ContextProvider.toggleFileActive Scenario.a_ts cp1 w1
       = (Ok (Cases.tracking [Scenario.file_a; Scenario.file_b]), w2).
Proof.
  destruct (toggleFileActive_twice Scenario.a_ts
              (Cases.tracking [Scenario.file_a; Scenario.file_b]) (Scenario.world []))
    as (cp1 & w1 & w2 & Hfirst & Hsecond & _).
  exists cp1, w1, w2. split; [exact Hfirst |]. split; [| exact Hsecond].
  vm_compute in Hfirst. injection Hfirst as <- _. reflexivity.
Defined.

Lemma tracked_entries_stay_snapshots_witness :
  exists cp' w',
    ContextProvider.execute_all Scenario.plain
      [ContextProvider.ToggleFileActive Scenario.a_ts;
       ContextProvider.AddFile Scenario.a_ts;
       ContextProvider.AddFile Scenario.b_ts;
       ContextProvider.ToggleFileActive Scenario.a_ts]
      (Cases.tracking [Scenario.file_a]) Cases.edited
    = (Ok cp', w')
    /\ List.map content (ContextProvider._contextFiles cp') = [Some "x"; Some "y"]
    /\ documents w' !! "file:///a.ts" = Some "x, edited"
    /\ forall f, In f (ContextProvider._contextFiles cp') ->
         same_entry f Scenario.file_a
         \/ In (ContextProvider.AddFile (uri f))
              [ContextProvider.ToggleFileActive Scenario.a_ts;
               ContextProvider.AddFile Scenario.a_ts;
               ContextProvider.AddFile Scenario.b_ts;
               ContextProvider.ToggleFileActive Scenario.a_ts].
Proof.
  destruct (tracked_entries_stay_snapshots Scenario.plain (Cases.tracking [Scenario.file_a])
              Cases.edited
              [ContextProvider.ToggleFileActive Scenario.a_ts;
               ContextProvider.AddFile Scenario.a_ts;
               ContextProvider.AddFile Scenario.b_ts;
               ContextProvider.ToggleFileActive Scenario.a_ts])
    as (cp' & w' & Hrun & Hdocs & Hfrom & _).
  exists cp', w'. split; [exact Hrun |].
  split; [vm_compute in Hrun; injection Hrun as <- _; reflexivity |].
  split; [now rewrite Hdocs |].
  intros f Hf. destruct (Hfrom f Hf) as [(g & [<- | []] & Hsame) | (Hadded & _)].
  - now left.
  - now right.
Defined.

Lemma prompt_calls_witness :
  List.existsb (fun f => isActive f && truthy_opt (content f)) [Scenario.file_e] = false
  /\ processPrompt Scenario.plain "hi" [Scenario.file_e]
     = _executeCommand Scenario.plain ["prompt"; dquote ++ "hi" ++ dquote].
Proof.
  split; [reflexivity |].
  destruct (prompt_calls Scenario.plain "hi" [Scenario.file_e]) as (_ & _ & _ & _ & Hbare).
  exact (proj1 (Hbare eq_refl)).
Defined.

Lemma query_calls_single_request_witness :
  truthy "/w" = true
  /\ single_request Scenario.plain (analyzeProject Scenario.plain (Some "/w"))
       ["analyze"; dquote ++ "/w" ++ dquote].
Proof.
  split; [reflexivity |].
  destruct (query_calls_single_request Scenario.plain) as (_ & _ & _ & _ & Hpath & _).
  exact (Hpath "/w" eq_refl).
Defined.

Lemma processEdit_gateway_failure_witness :
  [Scenario.file_a] <> []
  /\ exists e w',
       processEdit Cases.fails "fix" [Scenario.file_a] (Scenario.world []) = (Throw e, w')
       /\ documents w' = documents (Scenario.world []).
Proof.
  assert (Hfiles : [Scenario.file_a] <> []) by discriminate.
  split; [exact Hfiles |].
  destruct (_createTempContext Cases.fails [Scenario.file_a] (Scenario.world []))
    as [[tempDir | e0] w1] eqn:Hstaged; [| vm_compute in Hstaged; discriminate].
  pose proof Hstaged as Hvalues. vm_compute in Hvalues. injection Hvalues as Hdir Hworld.
  destruct (_executeCommand Cases.fails (edit_args tempDir "fix") w1)
    as [[r | e] w2] eqn:Hfail;
    [subst tempDir w1; vm_compute in Hfail; discriminate |].
  destruct (processEdit_gateway_failure Cases.fails "fix" _ _ _ _ _ _ Hfiles Hstaged Hfail)
    as (w' & Hrun & _ & _ & Hdocs & _).
  exists e, w'. split; [exact Hrun | exact Hdocs].
Defined.

Lemma processEdit_documents_need_apply_all_witness :
  never_applies Cases.cancels
  /\ documents (snd (processEdit Cases.cancels "fix" [Scenario.file_a]
                       Scenario.two_documents))
     = documents Scenario.two_documents
  /\ In (InformationMessage "Found 1 edited file(s). Apply changes?"
           ["Apply All"; "Review Each"; "Cancel"])
       (ui_log (snd (processEdit Cases.cancels "fix" [Scenario.file_a]
                       Scenario.two_documents))).
Proof.
  assert (Hnever : never_applies Cases.cancels) by (intros msg items; reflexivity).
  split; [exact Hnever |].
  split; [apply (processEdit_documents_need_apply_all Cases.cancels Hnever) |].
  vm_compute. left. reflexivity.
Defined.

Lemma applyAllEdits_stops_at_first_failure_witness :
  exists e w2,
    _applyAllEdits Scenario.plain
      ["/tmp/codeforgex-17/b.ts.codeforgedit"; "/tmp/codeforgex-17/a.ts.codeforgedit";
       "/tmp/codeforgex-17/b.ts.codeforgedit"]
      [Scenario.file_a; Scenario.file_b] Cases.unopened
    = (Throw e, w2)
    /\ documents w2 !! "file:///b.ts" = Some "Y"
    /\ ui_log w2 = [].
Proof.
  destruct (for_of ["/tmp/codeforgex-17/b.ts.codeforgedit"]
              (apply_edit Scenario.plain [Scenario.file_a; Scenario.file_b]) Cases.unopened)
    as [[[] | e0] w1] eqn:Hbefore; [| vm_compute in Hbefore; discriminate].
  pose proof Hbefore as Hvalues. vm_compute in Hvalues. injection Hvalues as Hworld.
  destruct (apply_edit Scenario.plain [Scenario.file_a; Scenario.file_b]
              "/tmp/codeforgex-17/a.ts.codeforgedit" w1)
    as [[[] | e] w2] eqn:Hfailing;
    [subst w1; vm_compute in Hfailing; discriminate |].
  exists e, w2.
  split.
  - exact (applyAllEdits_stops_at_first_failure Scenario.plain
             [Scenario.file_a; Scenario.file_b]
             ["/tmp/codeforgex-17/b.ts.codeforgedit"]
             "/tmp/codeforgex-17/a.ts.codeforgedit"
             ["/tmp/codeforgex-17/b.ts.codeforgedit"]
             Cases.unopened w1 w2 e Hbefore Hfailing).
  - subst w1. vm_compute in Hfailing. injection Hfailing as _ <-. split; reflexivity.
Defined.

Lemma applyAllEdits_nothing_matched_witness :
  _applyAllEdits Scenario.plain ["/tmp/codeforgex-17/new.ts.codeforgedit"]
    [Scenario.file_a; Scenario.file_b] Scenario.reconciling
  = (Ok tt,
     log_ui (InformationMessage "All edits applied successfully!" []) Scenario.reconciling).
Proof.
  apply applyAllEdits_nothing_matched.
  intros editFile [<- | []]. reflexivity.
Defined.

Lemma findEditFiles_finds_every_sentinel_witness :
  quiet Scenario.plain
  /\ unique_names (Fs.Dir Cases.staging_tree) = true
  /\ exists found listed,
       _findEditFiles Scenario.plain "/tmp/codeforgex-17" Cases.discovering
       = (Ok found, more_io (List.map IoReaddir listed) Cases.discovering)
       /\ found = ["/tmp/codeforgex-17/a.ts.codeforgedit";
                   "/tmp/codeforgex-17/src/b.ts.codeforgedit"]
       /\ listed = ["/tmp/codeforgex-17"; "/tmp/codeforgex-17/src";
                    "/tmp/codeforgex-17/old.codeforgedit"].
Proof.
  assert (Hquiet : quiet Scenario.plain) by (intros h op; reflexivity).
  split; [exact Hquiet |]. split; [reflexivity |].
  destruct (findEditFiles_finds_every_sentinel Scenario.plain "/tmp/codeforgex-17"
              Cases.staging_tree Cases.discovering Hquiet eq_refl eq_refl)
    as (found & listed & Hrun & _).
  exists found, listed. split; [exact Hrun |].
  pose proof Hrun as Hvalues. vm_compute in Hvalues.
  injection Hvalues as Hfound Hlisted.
  split; [now rewrite <- Hfound |].
  revert Hlisted. clear.
  destruct listed as [| p1 [| p2 [| p3 [| p4 listed]]]]; try discriminate.
  intros [= -> -> ->]. reflexivity.
Defined.

Lemma staging_holds_cached_content_witness :
  exists tempDir w1,
    _createTempContext Scenario.plain [Scenario.file_a; Scenario.file_b] (Scenario.world [])
    = (Ok tempDir, w1)
    /\ Fs.lookup (Path.segments (Path.join tempDir "b.ts")) (fs w1) = Some (Fs.File "y").
Proof.
  destruct (_createTempContext Scenario.plain [Scenario.file_a; Scenario.file_b]
              (Scenario.world []))
    as [[tempDir | e] w1] eqn:Hstaged; [| vm_compute in Hstaged; discriminate].
  exists tempDir, w1. split; [reflexivity |].
  refine (proj1 (staging_holds_cached_content Scenario.plain
                   [Scenario.file_a; Scenario.file_b] (Scenario.world []) w1 tempDir
                   Scenario.file_b "y" Hstaged _ eq_refl eq_refl _)).
  - right. left. reflexivity.
  - intros g [<- | [<- | []]] _ Hsegments; [vm_compute in Hsegments; discriminate | reflexivity].
Defined.

Lemma handleUserMessage_exchange_witness :
  blank "hi" = false
  /\ exists chat' w',
       ChatProvider._handleUserMessage Scenario.plain (Cases.in_mode Ask)
         (Cases.tracking [Scenario.file_a]) "hi" Cases.fresh_chat (Scenario.world [])
       = (Ok chat', w')
       /\ List.map ChatProvider.content (ChatProvider._messages chat') = ["hi"; "ok"]
       /\ List.map ChatProvider.type (ChatProvider._messages chat')
          = [ChatProvider.user; ChatProvider.assistant].
Proof.
  split; [reflexivity |].
  destruct (handleUserMessage_exchange Scenario.plain (Cases.in_mode Ask)
              (Cases.tracking [Scenario.file_a]) "hi" Cases.fresh_chat (Scenario.world []))
    as (_ & Hsent).
  destruct (Hsent eq_refl) as (chat' & Hrun & Hlog & _).
  exists chat'. eexists. split; [exact Hrun |]. rewrite Hlog. split; reflexivity.
Defined.

Lemma handleUserMessage_edit_without_files_witness :
  exists reply,
    ChatProvider._handleUserMessage Scenario.plain (Cases.in_mode Edit)
      (Cases.tracking [ContextProvider.flip Scenario.file_a]) "fix it" Cases.fresh_chat
      (Scenario.world [])
    = (Ok (ChatProvider._addMessage reply
             (ChatProvider._addMessage
                (user_message Scenario.plain (Cases.in_mode Edit) "fix it" (Scenario.world []))
                Cases.fresh_chat)),
       Scenario.world [])
    /\ ChatProvider.type reply = ChatProvider.system.
Proof.
  destruct (handleUserMessage_edit_without_files Scenario.plain (Cases.in_mode Edit)
              (Cases.tracking [ContextProvider.flip Scenario.file_a]) "fix it"
              Cases.fresh_chat (Scenario.world []) eq_refl eq_refl eq_refl)
    as (reply & Hrun & Htype & _).
  exists reply. split; [exact Hrun | exact Htype].
Defined.

Lemma handleUserMessage_query_modes_witness :
  (exists chat' w' reply,
      ChatProvider._handleUserMessage Scenario.answers (Cases.in_mode Ask)
        (Cases.tracking [Scenario.file_a]) "hi" Cases.fresh_chat (Scenario.world [])
      = (Ok chat', w')
      /\ ChatProvider._messages chat'
         = [user_message Scenario.answers (Cases.in_mode Ask) "hi" (Scenario.world []); reply]
      /\ ChatProvider.type reply = ChatProvider.assistant
      /\ ChatProvider.content reply = "ok")
  /\ (exists chat' w' reply,
        ChatProvider._handleUserMessage Cases.fails (Cases.in_mode Agent)
          (Cases.tracking [Scenario.file_a]) "hi" Cases.fresh_chat (Scenario.world [])
        = (Ok chat', w')
        /\ ChatProvider._messages chat'
           = [user_message Cases.fails (Cases.in_mode Agent) "hi" (Scenario.world []); reply]
        /\ List.length (io_log w') = 1
        /\ ChatProvider.type reply = ChatProvider.system).
Proof.
  split.
  - destruct (handleUserMessage_query_modes Scenario.answers (Cases.in_mode Ask)
                (Cases.tracking [Scenario.file_a]) "hi" Cases.fresh_chat (Scenario.world [])
                eq_refl ltac:(discriminate))
      as (chat' & w' & reply & r & Hrun & _ & Hlog & _ & _ & _ & _ & Hanswer).
    exists chat', w', reply. split; [exact Hrun |]. split; [exact Hlog |].
    apply (Hanswer "ok" "warning: deprecated" (fs (Scenario.world [])));
      [reflexivity | reflexivity | discriminate | now apply N.leb_le | now apply N.leb_le].
  - destruct (handleUserMessage_query_modes Cases.fails (Cases.in_mode Agent)
                (Cases.tracking [Scenario.file_a]) "hi" Cases.fresh_chat (Scenario.world [])
                eq_refl ltac:(discriminate))
      as (chat' & w' & reply & r & Hrun & Hexec & Hlog & Hio & _ & _ & Hreply & _).
    exists chat', w', reply. split; [exact Hrun |]. split; [exact Hlog |].
    split; [now rewrite Hio |].
    vm_compute in Hexec. injection Hexec as <- _. apply Hreply.
Defined.

End FurtherInstances.
